(** * docker-machine-linode: a shallow embedding of the Linode driver

    The repository holds two generations of the same docker-machine
    driver:

    - [src/linode.go], written against the Linode API v3 client
      (numeric identifiers, explicit disk / config / boot jobs); it is
      embedded in [Module LinodeV3];
    - [src/unnamed/part_000], written against the Linode API v4 client
      (one [CreateInstance] call, named statuses, [net.IP] addresses);
      it is embedded in [Module LinodeV4].

    Every driver method is a computation over an explicit state made of
    the driver handle, the state of the outside world (the remote API,
    the file system, the Go runtime's timers), the list of remote calls
    issued so far and the debug log.  A Go [panic] is a result of its
    own, distinct from a returned [error]. *)

From Stdlib Require Import ZArith.
From stdpp Require Import base strings list gmap pretty.

Local Open Scope Z_scope.
Local Open Scope string_scope.
Local Open Scope list_scope.

(** ** Results and the driver monad *)

(** A Go [error] is modelled by its message. *)
Definition error := string.

Inductive Res (A : Type) : Type :=
| Ok (a : A)
| Err (e : error)
| Panic (msg : string).
Arguments Ok {A} a.
Arguments Err {A} e.
Arguments Panic {A} msg.

(** The machine state: [D] is the driver struct, [W] the outside world,
    [Rq] the type of remote requests. *)
Record St (D W Rq : Type) : Type := mkSt {
  drv : D;
  world : W;
  calls : list Rq;
  debug : list string
}.
Arguments mkSt {D W Rq}.
Arguments drv {D W Rq}.
Arguments world {D W Rq}.
Arguments calls {D W Rq}.
Arguments debug {D W Rq}.

Definition M (S A : Type) : Type := S -> Res A * S.

Definition ret {S A} (a : A) : M S A := fun s => (Ok a, s).

Definition bind {S A B} (m : M S A) (f : A -> M S B) : M S B :=
  fun s =>
    match m s with
    | (Ok a, s') => f a s'
    | (Err e, s') => (Err e, s')
    | (Panic p, s') => (Panic p, s')
    end.

Declare Scope drv_scope.
Delimit Scope drv_scope with drv.
Notation "x <- m ;; k" := (bind m (fun x => k))
  (at level 100, m at next level, right associativity) : drv_scope.
Notation "m ;; k" := (bind m (fun _ => k))
  (at level 100, right associativity) : drv_scope.
Local Open Scope drv_scope.

(** [return err] with a non-nil error, and a run-time panic. *)
Definition fail {S A} (e : error) : M S A := fun s => (Err e, s).
Definition panic {S A} (msg : string) : M S A := fun s => (Panic msg, s).

Section StateOps.
Context {D W Rq : Type}.
Let S : Type := St D W Rq.

Definition getDrv : M S D := fun s => (Ok (drv s), s).

Definition modifyDrv (f : D -> D) : M S unit :=
  fun s => (Ok tt, mkSt (f (drv s)) (world s) (calls s) (debug s)).

(** [log.Debug] / [log.Debugf]: one more line in the debug log. *)
Definition logDebug (line : string) : M S unit :=
  fun s => (Ok tt, mkSt (drv s) (world s) (calls s) (debug s ++ [line])).

(** A remote call: the request is appended to the list of calls and the
    world answers with an error or a response. *)
Definition call {R} (rq : Rq) (h : W -> (error + R) * W) : M S R :=
  fun s =>
    let '(r, w') := h (world s) in
    let s' := mkSt (drv s) w' (calls s ++ [rq]) (debug s) in
    match r with
    | inl e => (Err e, s')
    | inr x => (Ok x, s')
    end.

(** A local effect (file system, timers): the world changes, no remote
    call is recorded. *)
Definition localEff {R} (h : W -> R * W) : M S R :=
  fun s =>
    let '(r, w') := h (world s) in
    (Ok r, mkSt (drv s) w' (calls s) (debug s)).

Definition liftErr {R} (r : error + R) : M S R :=
  match r with
  | inl e => fail e
  | inr x => ret x
  end.

(** [x, err := m()]: the error is handed back as a value for the caller
    to test; a panic still unwinds. *)
Definition attempt {R} (m : M S R) : M S (error + R) :=
  fun s =>
    match m s with
    | (Ok x, s') => (Ok (inr x), s')
    | (Err e, s') => (Ok (inl e), s')
    | (Panic p, s') => (Panic p, s')
    end.
End StateOps.

(** A workflow is a list of steps over the frame [F] of its local
    variables.  In the source each step is followed by
    [if err != nil { return err }]: the first failure ends the run. *)
Fixpoint runSteps {S F} (steps : list (F -> M S F)) (fr : F) : M S F :=
  match steps with
  | [] => ret fr
  | step :: rest => fr' <- step fr ;; runSteps rest fr'
  end.

(** ** The host's vocabulary (libmachine) *)

(** [state.State] of libmachine. *)
Module state.
Inductive State : Set :=
| None | Running | Paused | Saved | Stopped | Stopping | Starting
| Error | Timeout.

Definition eqb (a b : State) : bool :=
  match a, b with
  | None, None | Running, Running | Paused, Paused | Saved, Saved
  | Stopped, Stopped | Stopping, Stopping | Starting, Starting
  | Error, Error | Timeout, Timeout => true
  | _, _ => false
  end.
End state.

(** [mcnflag.Flag]: the two kinds of flag the driver declares, with
    their fields [Name], [Usage], [EnvVar], [Value]. *)
Inductive Flag : Type :=
| StringFlag (Name Usage EnvVar Value : string)
| IntFlag (Name Usage EnvVar : string) (Value : Z).

Definition flagName (f : Flag) : string :=
  match f with
  | StringFlag n _ _ _ => n
  | IntFlag n _ _ _ => n
  end.

Definition flagEnvVar (f : Flag) : string :=
  match f with
  | StringFlag _ _ e _ => e
  | IntFlag _ _ e _ => e
  end.

(** [drivers.DriverOptions]: the interface through which configuration
    binding reads option values by name. *)
Record DriverOptions : Type := {
  optString : string -> string;
  optInt : string -> Z
}.

(** The embedded [drivers.BaseDriver]: the fields the driver uses. *)
Record BaseDriver : Type := mkBase {
  MachineName : string;
  StorePath : string;
  SSHUser : string;
  SSHKeyPath : string
}.

(** [BaseDriver.GetSSHKeyPath]: the key path, resolved under the store on
    first use. *)
Definition resolveStorePath (b : BaseDriver) (file : string) : string :=
  StorePath b +:+ "/machines/" +:+ MachineName b +:+ "/" +:+ file.

Definition baseKeyPath (b : BaseDriver) : string :=
  if String.eqb (SSHKeyPath b) "" then resolveStorePath b "id_rsa"
  else SSHKeyPath b.

Definition baseWithKeyPath (b : BaseDriver) : BaseDriver :=
  mkBase (MachineName b) (StorePath b) (SSHUser b) (baseKeyPath b).

(** [mcnutils.WaitForSpecific f maxAttempts interval]: at most
    [maxAttempts] evaluations of [f], stopping at the first [true]. *)
Fixpoint WaitForSpecific {S} (f : M S bool) (remaining : nat) (maxAttempts : Z)
  : M S unit :=
  match remaining with
  | O => fail ("Maximum number of retries (" +:+ pretty maxAttempts +:+ ") exceeded")
  | Datatypes.S k =>
      b <- f ;;
      if b then ret tt else WaitForSpecific f k maxAttempts
  end.

(** ** The driver of [src/linode.go] (Linode API v3) *)

Module LinodeV3.

(** *** Data of the API client *)

(** [linodego.Client], built from the API key it is bound to. *)
Record Client : Type := NewClient { clientKey : string }.

(** An element of [LinodeIPListResponse.FullIPAddresses]. *)
Record FullIPAddress : Type := {
  ipIPAddress : string;
  IsPublic : Z
}.

(** [DiskJob] of a disk-creation response. *)
Record DiskJob : Type := {
  djJobId : Z;
  DiskId : Z
}.

(** An element of [LinodesListResponse.Linodes]. *)
Record Linode : Type := { Status : Z }.

(** An element of [JobResponse.Jobs]; [HostSuccess] is kept as the text
    that its [String()] method returns. *)
Record Job : Type := {
  JobId : Z;
  HostSuccess : string
}.

(** The remote requests the driver can issue, with their arguments. *)
Inductive Request : Type :=
| RqLinodeCreate (dataCenterId planId paymentTerm : Z)
| RqLinodeUpdate (linodeId : Z) (args : gmap string string)
| RqIpList (linodeId ipAddressId : Z)
| RqDiskCreateFromDistribution
    (distributionId linodeId : Z) (label : string) (size : Z)
    (args : gmap string string)
| RqDiskCreate (linodeId : Z) (diskType label : string) (size : Z)
    (args : option (gmap string string))
| RqConfigCreate (linodeId kernelId : Z) (label : string)
    (args : gmap string string)
| RqLinodeBoot (linodeId configId : Z)
| RqLinodeShutdown (linodeId : Z)
| RqLinodeReboot (linodeId configId : Z)
| RqLinodeDelete (linodeId : Z) (skipChecks : bool)
| RqLinodeList (linodeId : Z)
| RqJobList (linodeId jobId : Z) (pendingOnly : bool).

(** What the outside world answers.  [W] is the state of the world; a
    remote answer is an error or the part of the response the driver
    reads.  [select_ticks] is the Go runtime's part in [waitForJob]:
    how many times the ticker wins the [select] before the timeout
    channel (created by [time.After]) does. *)
Record API (W : Type) : Type := {
  ssh_GenerateSSHKey : string -> W -> (error + unit) * W;
  ioutil_ReadFile : string -> W -> (error + string) * W;
  Linode_Create : Client -> Z -> Z -> Z -> W -> (error + Z) * W;
  Linode_Update : Client -> Z -> gmap string string -> W -> (error + unit) * W;
  Ip_List : Client -> Z -> Z -> W -> (error + list FullIPAddress) * W;
  Disk_CreateFromDistribution :
    Client -> Z -> Z -> string -> Z -> gmap string string ->
    W -> (error + DiskJob) * W;
  Disk_Create :
    Client -> Z -> string -> string -> Z -> option (gmap string string) ->
    W -> (error + DiskJob) * W;
  Config_Create :
    Client -> Z -> Z -> string -> gmap string string -> W -> (error + unit) * W;
  Linode_Boot : Client -> Z -> Z -> W -> (error + Z) * W;
  Linode_Shutdown : Client -> Z -> W -> (error + Z) * W;
  Linode_Reboot : Client -> Z -> Z -> W -> (error + Z) * W;
  Linode_Delete : Client -> Z -> bool -> W -> (error + unit) * W;
  Linode_List : Client -> Z -> W -> (error + list Linode) * W;
  Job_List : Client -> Z -> Z -> bool -> W -> (error + list Job) * W;
  select_ticks : Z -> W -> nat * W
}.
Arguments ssh_GenerateSSHKey {W}.
Arguments ioutil_ReadFile {W}.
Arguments Linode_Create {W}.
Arguments Linode_Update {W}.
Arguments Ip_List {W}.
Arguments Disk_CreateFromDistribution {W}.
Arguments Disk_Create {W}.
Arguments Config_Create {W}.
Arguments Linode_Boot {W}.
Arguments Linode_Shutdown {W}.
Arguments Linode_Reboot {W}.
Arguments Linode_Delete {W}.
Arguments Linode_List {W}.
Arguments Job_List {W}.
Arguments select_ticks {W}.

(** *** The handle *)

Record Driver : Type := mkDriver {
  base : BaseDriver;
  client : option Client;
  APIKey : string;
  IPAddress : string;
  DockerPort : Z;
  LinodeId : Z;
  LinodeLabel : string;
  DataCenterId : Z;
  PlanId : Z;
  PaymentTerm : Z;
  RootPassword : string;
  SSHPort : Z;
  DistributionId : Z;
  KernelId : Z
}.

(** [NewDriver]: every field but the two of the base driver has Go's
    zero value. *)
Definition NewDriver (hostName storePath : string) : Driver :=
  mkDriver (mkBase hostName storePath "" "") Datatypes.None
    "" "" 0 0 "" 0 0 0 "" 0 0 0.

(** Field updates ([d.F = v]). *)
Definition set_base (v : BaseDriver) (d : Driver) : Driver :=
  mkDriver v (client d) (APIKey d) (IPAddress d) (DockerPort d) (LinodeId d)
    (LinodeLabel d) (DataCenterId d) (PlanId d) (PaymentTerm d)
    (RootPassword d) (SSHPort d) (DistributionId d) (KernelId d).
Definition set_client (v : option Client) (d : Driver) : Driver :=
  mkDriver (base d) v (APIKey d) (IPAddress d) (DockerPort d) (LinodeId d)
    (LinodeLabel d) (DataCenterId d) (PlanId d) (PaymentTerm d)
    (RootPassword d) (SSHPort d) (DistributionId d) (KernelId d).
Definition set_IPAddress (v : string) (d : Driver) : Driver :=
  mkDriver (base d) (client d) (APIKey d) v (DockerPort d) (LinodeId d)
    (LinodeLabel d) (DataCenterId d) (PlanId d) (PaymentTerm d)
    (RootPassword d) (SSHPort d) (DistributionId d) (KernelId d).
Definition set_LinodeId (v : Z) (d : Driver) : Driver :=
  mkDriver (base d) (client d) (APIKey d) (IPAddress d) (DockerPort d) v
    (LinodeLabel d) (DataCenterId d) (PlanId d) (PaymentTerm d)
    (RootPassword d) (SSHPort d) (DistributionId d) (KernelId d).

(** The ten assignments that open [SetConfigFromFlags]. *)
Definition bindFlags (flags : DriverOptions) (d : Driver) : Driver :=
  mkDriver (base d) (client d)
    (optString flags "linode-api-key")
    (IPAddress d)
    (optInt flags "linode-docker-port")
    (LinodeId d)
    (optString flags "linode-label")
    (optInt flags "linode-datacenter-id")
    (optInt flags "linode-plan-id")
    (optInt flags "linode-payment-term")
    (optString flags "linode-root-pass")
    (optInt flags "linode-ssh-port")
    (optInt flags "linode-distribution-id")
    (optInt flags "linode-kernel-id").

Definition GetCreateFlags : list Flag := [
  StringFlag "linode-api-key" "Linode API Key" "LINODE_API_KEY" "";
  StringFlag "linode-root-pass" "Root password" "LINODE_ROOT_PASSWORD" "";
  StringFlag "linode-label" "Linode label" "LINODE_LABEL" "";
  IntFlag "linode-datacenter-id" "Linode Data Center Id" "LINODE_DATACENTER_ID" 2;
  IntFlag "linode-plan-id" "Linode plan id" "LINODE_PLAN_ID" 1;
  IntFlag "linode-payment-term" "Linode Payment term" "LINODE_PAYMENT_TERM" 1;
  IntFlag "linode-ssh-port" "Linode SSH Port" "LINODE_SSH_PORT" 22;
  IntFlag "linode-distribution-id" "Linode Distribution Id" "LINODE_DISTRIBUTION_ID" 140;
  IntFlag "linode-kernel-id" "Linode Kernel Id" "LINODE_KERNEL_ID" 210;
  IntFlag "linode-docker-port" "Docker Port" "LINODE_DOCKER_PORT" 2376
].

Section Methods.
Context {W : Type} (api : API W).
Let S : Type := St Driver W Request.

(** [getClient]: the client is built on first use and kept. *)
Definition getClient : M S Client :=
  d <- getDrv ;;
  match client d with
  | Some c => ret c
  | Datatypes.None =>
      let c := NewClient (APIKey d) in
      modifyDrv (set_client (Some c)) ;;
      ret c
  end.

(** A direct use of the field [d.client]: a nil pointer panics. *)
Definition theClient : M S Client :=
  d <- getDrv ;;
  match client d with
  | Some c => ret c
  | Datatypes.None => panic "invalid memory address or nil pointer dereference"
  end.

Definition DriverName : string := "linode".

Definition GetIP : M S string :=
  d <- getDrv ;;
  if String.eqb (IPAddress d) "" then fail "IP address is not set"
  else ret (IPAddress d).

Definition GetSSHHostname : M S string := GetIP.

Definition GetSSHUsername : M S string :=
  d <- getDrv ;;
  (if String.eqb (SSHUser (base d)) "" then
     modifyDrv (set_base (mkBase (MachineName (base d)) (StorePath (base d))
                            "root" (SSHKeyPath (base d))))
   else ret tt) ;;
  d' <- getDrv ;;
  ret (SSHUser (base d')).

Definition GetSSHKeyPath : M S string :=
  d <- getDrv ;;
  modifyDrv (set_base (baseWithKeyPath (base d))) ;;
  ret (baseKeyPath (base d)).

Definition SetConfigFromFlags (flags : DriverOptions) : M S unit :=
  modifyDrv (bindFlags flags) ;;
  d <- getDrv ;;
  if String.eqb (APIKey d) "" then
    fail "linode driver requires the --linode-api-key option"
  else if String.eqb (RootPassword d) "" then
    fail "linode driver requires the --linode-root-pass option"
  else ret tt.

Definition PreCreateCheck : M S unit := ret tt.

(** [publicSSHKeyPath] *)
Definition publicSSHKeyPath : M S string :=
  p <- GetSSHKeyPath ;;
  ret (p +:+ ".pub").

Definition createSSHKey : M S string :=
  keyPath <- GetSSHKeyPath ;;
  g <- localEff (ssh_GenerateSSHKey api keyPath) ;;
  liftErr g ;;
  pubPath <- publicSSHKeyPath ;;
  r <- localEff (ioutil_ReadFile api pubPath) ;;
  liftErr r.

(** The status switch of [GetState]. *)
Definition stateOfStatus (status : Z) : state.State :=
  if decide (status = -1 \/ status = 0) then state.Starting
  else if decide (status = 1) then state.Running
  else if decide (status = -2 \/ status = 2 \/ status = 4) then state.Stopped
  else if decide (status = 3) then state.Stopping
  else state.None.

(** [GetState] returns a state and an error; [linodes.Linodes[0]]
    panics on an empty list. *)
Definition GetState : M S (state.State * option error) :=
  c <- getClient ;;
  d <- getDrv ;;
  r <- attempt (call (RqLinodeList (LinodeId d))
                     (Linode_List api c (LinodeId d))) ;;
  match r with
  | inl err => ret (state.Error, Some err)
  | inr linodes =>
      match linodes with
      | [] => panic "index out of range"
      | l0 :: _ => ret (stateOfStatus (Status l0), Datatypes.None)
      end
  end.

Definition Start : M S unit :=
  logDebug "Start..." ;;
  c <- getClient ;;
  d <- getDrv ;;
  call (RqLinodeBoot (LinodeId d) (-1)) (Linode_Boot api c (LinodeId d) (-1)) ;;
  ret tt.

Definition Stop : M S unit :=
  logDebug "Stop..." ;;
  c <- getClient ;;
  d <- getDrv ;;
  call (RqLinodeShutdown (LinodeId d)) (Linode_Shutdown api c (LinodeId d)) ;;
  ret tt.

Definition Remove : M S unit :=
  c <- getClient ;;
  d <- getDrv ;;
  logDebug ("Removing linode: " +:+ pretty (LinodeId d)) ;;
  call (RqLinodeDelete (LinodeId d) true)
       (Linode_Delete api c (LinodeId d) true).

Definition Restart : M S unit :=
  logDebug "Restarting..." ;;
  c <- getClient ;;
  d <- getDrv ;;
  call (RqLinodeReboot (LinodeId d) (-1)) (Linode_Reboot api c (LinodeId d) (-1)) ;;
  ret tt.

Definition Kill : M S unit :=
  logDebug "Killing..." ;;
  c <- getClient ;;
  d <- getDrv ;;
  call (RqLinodeShutdown (LinodeId d)) (Linode_Shutdown api c (LinodeId d)) ;;
  ret tt.

Definition GetURL : M S string :=
  ip <- GetIP ;;
  if String.eqb ip "" then ret ""
  else
    d <- getDrv ;;
    ret ("tcp://" +:+ ip +:+ ":" +:+ pretty (DockerPort d)).

(** *** The job-completion poller *)

(** One turn of the [case <-tick] branch of [waitForJob]: [true] when
    the job reports success, [false] when the loop goes on.  The guard
    [len(Jobs) < 0 || Jobs[0].JobId != jobId] evaluates its right
    operand whenever the left one is false, and indexing an empty
    slice panics. *)
Definition pollJob (jobId : Z) (jobName : string) : M S bool :=
  c <- getClient ;;
  d <- getDrv ;;
  jobs <- call (RqJobList (LinodeId d) jobId false)
               (Job_List api c (LinodeId d) jobId false) ;;
  if decide (Z.of_nat (length jobs) < 0) then
    fail ("Job " +:+ jobName +:+ " is not found.")
  else
    match jobs with
    | [] => panic "index out of range"
    | j0 :: _ =>
        if decide (JobId j0 <> jobId) then
          fail ("Job " +:+ jobName +:+ " is not found.")
        else if String.eqb (HostSuccess j0) "1" then
          logDebug ("Linode job " +:+ jobName +:+ " completed.") ;;
          ret true
        else ret false
    end.

(** The [for { select { ... } }] loop, given the number of ticks the
    runtime delivers before the timeout channel fires. *)
Fixpoint waitLoop (ticks : nat) (jobId : Z) (jobName : string)
    (timeOutSeconds : Z) : M S unit :=
  match ticks with
  | O =>
      fail ("Job " +:+ jobName +:+ " timed out after "
            +:+ pretty timeOutSeconds +:+ " seconds.")
  | Datatypes.S k =>
      finished <- pollJob jobId jobName ;;
      if (finished : bool) then ret tt
      else waitLoop k jobId jobName timeOutSeconds
  end.

Definition waitForJob (jobId : Z) (jobName : string) (timeOutSeconds : Z)
  : M S unit :=
  logDebug ("Wait for job " +:+ jobName +:+ " completion...") ;;
  ticks <- localEff (select_ticks api timeOutSeconds) ;;
  waitLoop ticks jobId jobName timeOutSeconds.

(** *** The create workflow *)

(** [drivers.MachineInState(d, desired)]: one evaluation of the
    predicate polled by [WaitForSpecific]. *)
Definition MachineInState (desired : state.State) : M S bool :=
  r <- GetState ;;
  match snd r with
  | Some e => logDebug ("Error getting machine state: " +:+ e)
  | Datatypes.None => ret tt
  end ;;
  ret (state.eqb (fst r) desired).

(** The local variables of [Create] that outlive the step that sets
    them. *)
Record Frame : Type := mkFrame {
  publicKey : string;
  clientVar : option Client;
  diskId : Z;
  swapDiskId : Z
}.

Definition frame0 : Frame := mkFrame "" Datatypes.None 0 0.

Definition frameClient (fr : Frame) : M S Client :=
  match clientVar fr with
  | Some c => ret c
  | Datatypes.None => panic "invalid memory address or nil pointer dereference"
  end.

(** Lines 173-180: the key pair, then the client. *)
Definition stepKeyGeneration (fr : Frame) : M S Frame :=
  logDebug "Creating Linode machine instance..." ;;
  key <- createSSHKey ;;
  c <- getClient ;;
  ret (mkFrame key (Some c) (diskId fr) (swapDiskId fr)).

(** Lines 182-194: allocation; the identifier is stored at once. *)
Definition stepAllocation (fr : Frame) : M S Frame :=
  c <- frameClient fr ;;
  logDebug "Creating linode instance" ;;
  d <- getDrv ;;
  linodeId <- call (RqLinodeCreate (DataCenterId d) (PlanId d) (PaymentTerm d))
                   (Linode_Create api c (DataCenterId d) (PlanId d) (PaymentTerm d)) ;;
  modifyDrv (set_LinodeId linodeId) ;;
  logDebug ("Linode created: " +:+ pretty linodeId) ;;
  ret fr.

(** Lines 196-202: the label, when one is configured. *)
Definition stepLabeling (fr : Frame) : M S Frame :=
  c <- frameClient fr ;;
  d <- getDrv ;;
  if String.eqb (LinodeLabel d) "" then ret fr
  else
    logDebug ("Updating linode label to " +:+ LinodeLabel d) ;;
    call (RqLinodeUpdate (LinodeId d) {[ "Label" := LinodeLabel d ]})
         (Linode_Update api c (LinodeId d) {[ "Label" := LinodeLabel d ]}) ;;
    ret fr.

(** The loop of lines 208-212: every address flagged public overwrites
    the recorded one. *)
Definition recordPublic (d : Driver) (a : FullIPAddress) : Driver :=
  if decide (IsPublic a = 1) then set_IPAddress (ipIPAddress a) d else d.

(** Lines 204-220: address discovery. *)
Definition stepAddressDiscovery (fr : Frame) : M S Frame :=
  c <- frameClient fr ;;
  d <- getDrv ;;
  ips <- call (RqIpList (LinodeId d) (-1)) (Ip_List api c (LinodeId d) (-1)) ;;
  modifyDrv (fun d0 => fold_left recordPublic ips d0) ;;
  d' <- getDrv ;;
  if String.eqb (IPAddress d') "" then fail "Linode IP Address is not found."
  else
    logDebug ("Created linode ID " +:+ pretty (LinodeId d')
              +:+ ", IP address " +:+ IPAddress d') ;;
    ret fr.

(** Lines 222-243: the primary disk and its job. *)
Definition stepPrimaryDisk (fr : Frame) : M S Frame :=
  d <- getDrv ;;
  let args : gmap string string :=
    <[ "rootSSHKey" := publicKey fr ]> (<[ "rootPass" := RootPassword d ]> ∅) in
  logDebug "Create disk" ;;
  c <- theClient ;;
  job <- call (RqDiskCreateFromDistribution (DistributionId d) (LinodeId d)
                 "Primary Disk" (24576 - 256) args)
              (Disk_CreateFromDistribution api c (DistributionId d) (LinodeId d)
                 "Primary Disk" (24576 - 256) args) ;;
  logDebug ("Linode create disk task :" +:+ pretty (djJobId job) +:+ ".") ;;
  waitForJob (djJobId job) "Create Disk Task" 60 ;;
  ret (mkFrame (publicKey fr) (clientVar fr) (DiskId job) (swapDiskId fr)).

(** Lines 245-260: the swap disk and its job. *)
Definition stepSwapDisk (fr : Frame) : M S Frame :=
  logDebug "Create swap disk" ;;
  c <- theClient ;;
  d <- getDrv ;;
  job <- call (RqDiskCreate (LinodeId d) "swap" "Swap Disk" 256 Datatypes.None)
              (Disk_Create api c (LinodeId d) "swap" "Swap Disk" 256 Datatypes.None) ;;
  logDebug ("Linode create swap disk task :" +:+ pretty (djJobId job) +:+ ".") ;;
  waitForJob (djJobId job) "Create Swap Disk Task" 60 ;;
  ret (mkFrame (publicKey fr) (clientVar fr) (diskId fr) (DiskId job)).

(** Lines 262-276: the boot configuration. *)
Definition stepBootConfig (fr : Frame) : M S Frame :=
  logDebug "Create configuration" ;;
  let args2 : gmap string string :=
    <[ "helper_distro" := "true" ]>
    (<[ "RootDeviceRO" := "true" ]>
    (<[ "RootDeviceNum" := "1" ]>
    (<[ "DiskList" := pretty (diskId fr) +:+ "," +:+ pretty (swapDiskId fr) ]> ∅))) in
  c <- theClient ;;
  d <- getDrv ;;
  call (RqConfigCreate (LinodeId d) (KernelId d)
          "My Docker Machine Configuration" args2)
       (Config_Create api c (LinodeId d) (KernelId d)
          "My Docker Machine Configuration" args2) ;;
  logDebug "Linode configuration created." ;;
  ret fr.

(** Lines 278-290: boot and its job. *)
Definition stepBoot (fr : Frame) : M S Frame :=
  logDebug "Booting" ;;
  c <- theClient ;;
  d <- getDrv ;;
  jobId <- call (RqLinodeBoot (LinodeId d) (-1))
                (Linode_Boot api c (LinodeId d) (-1)) ;;
  logDebug ("Booting linode, job id: " +:+ pretty jobId) ;;
  waitForJob jobId "Booting linode" 60 ;;
  ret fr.

(** The error built at line 294. *)
Definition wrapRunning (e : error) : error :=
  "wait for machine running failed: " +:+ e.

(** Lines 292-295: the poll for the running state. *)
Definition stepRunningPoll (fr : Frame) : M S Frame :=
  logDebug "Waiting for Machine Running..." ;;
  r <- attempt (WaitForSpecific (MachineInState state.Running) 120 120) ;;
  match r with
  | inl err => fail (wrapRunning err)
  | inr _ => ret fr
  end.

Definition createSteps : list (Frame -> M S Frame) :=
  [ stepKeyGeneration; stepAllocation; stepLabeling; stepAddressDiscovery;
    stepPrimaryDisk; stepSwapDisk; stepBootConfig; stepBoot;
    stepRunningPoll ].

Definition Create : M S unit :=
  runSteps createSteps frame0 ;; ret tt.

End Methods.

End LinodeV3.

(** ** Go's [net] package: what [privateIP] and [Create] use of it *)

Module net.

(** [net.IP] is a byte slice; [IPNet] a network number and a mask. *)
Definition IP : Type := list Z.

Record IPNet : Type := mkIPNet { netIP : IP; Mask : list Z }.

Definition isZeros (p : list Z) : bool := forallb (Z.eqb 0) p.

(** [IP.To4]: the 4-byte form of an IPv4 address, [None] for nil. *)
Definition To4 (ip : IP) : option IP :=
  if Nat.eqb (length ip) 4 then Some ip
  else if Nat.eqb (length ip) 16
          && isZeros (take 10 ip)
          && Z.eqb (nth 10 ip 0) 255 && Z.eqb (nth 11 ip 0) 255
  then Some (drop 12 ip)
  else Datatypes.None.

(** The byte-wise comparison under the mask that ends [IPNet.Contains]. *)
Fixpoint sameUnderMask (nn m ip : list Z) : bool :=
  match nn, m, ip with
  | n0 :: nn', m0 :: m', i0 :: ip' =>
      Z.eqb (Z.land n0 m0) (Z.land i0 m0) && sameUnderMask nn' m' ip'
  | _, _, _ => true
  end.

(** [IPNet.Contains], for the IPv4 networks built by [ParseCIDR]. *)
Definition Contains (n : IPNet) (ip : IP) : bool :=
  let ip' := match To4 ip with Some x => x | Datatypes.None => ip end in
  if Nat.eqb (length ip') (length (netIP n))
  then sameUnderMask (netIP n) (Mask n) ip'
  else false.

Definition hexDigit (d : Z) : string :=
  match d with
  | 0 => "0" | 1 => "1" | 2 => "2" | 3 => "3" | 4 => "4" | 5 => "5"
  | 6 => "6" | 7 => "7" | 8 => "8" | 9 => "9" | 10 => "a"
  | 11 => "b" | 12 => "c" | 13 => "d" | 14 => "e" | _ => "f"
  end.

(** [hexString]: two digits per byte. *)
Definition hexString (p : list Z) : string :=
  fold_right (fun b acc => hexDigit (Z.shiftr b 4) +:+ hexDigit (Z.land b 15) +:+ acc)
             "" p.

(** [appendHex]: a 16-bit group without leading zeros. *)
Definition groupHex (g : Z) : string :=
  if Z.eqb g 0 then "0"
  else
    let ds := [Z.shiftr g 12; Z.land (Z.shiftr g 8) 15;
               Z.land (Z.shiftr g 4) 15; Z.land g 15] in
    let fix strip (l : list Z) : list Z :=
      match l with
      | 0 :: l' => strip l'
      | _ => l
      end in
    fold_right (fun d acc => hexDigit d +:+ acc) "" (strip ds).

(** The eight 16-bit groups of a 16-byte address. *)
Fixpoint groups (p : list Z) : list Z :=
  match p with
  | hi :: lo :: rest => Z.lor (Z.shiftl hi 8) lo :: groups rest
  | _ => []
  end.

(** Length of the run of zero groups that starts the list. *)
Fixpoint zeroRun (gs : list Z) : nat :=
  match gs with
  | 0 :: gs' => Datatypes.S (zeroRun gs')
  | _ => O
  end.

(** The first longest run of zero groups, as (start, length), scanning
    from group [i]; [best] is the longest run found so far. *)
Fixpoint longestRun (fuel : nat) (gs : list Z) (i : nat) (best : nat * nat)
  : nat * nat :=
  match fuel with
  | O => best
  | Datatypes.S fuel' =>
      match gs with
      | [] => best
      | _ :: gs' =>
          let r := zeroRun gs in
          if Nat.ltb (snd best) r
          then longestRun fuel' (drop (Datatypes.S r) gs) (i + r + 1)%nat (i, r)
          else longestRun fuel' gs' (i + 1)%nat best
      end
  end.

(** The groups printed with [::] in place of the run of [len] groups
    that starts at group [e0]; [sep] tells whether a colon separates the
    next printed group from what precedes it. *)
Fixpoint printGroups (gs : list Z) (i e0 len : nat) (sep : bool) : string :=
  match gs with
  | [] => ""
  | g :: gs' =>
      if Nat.leb e0 i && Nat.ltb i (e0 + len) && Nat.ltb 1 len then
        (if Nat.eqb i e0 then "::" else "")
        +:+ printGroups gs' (i + 1) e0 len false
      else
        (if sep then ":" else "") +:+ groupHex g
        +:+ printGroups gs' (i + 1) e0 len true
  end.

(** [IP.String]. *)
Definition String_ (ip : IP) : string :=
  if Nat.eqb (length ip) 0 then "<nil>"
  else
    match To4 ip with
    | Some [a; b; c; d] =>
        pretty a +:+ "." +:+ pretty b +:+ "." +:+ pretty c +:+ "." +:+ pretty d
    | _ =>
        if negb (Nat.eqb (length ip) 16) then "?" +:+ hexString ip
        else
          let gs := groups ip in
          let '(e0, len) := longestRun 8 gs 0 (0%nat, 0%nat) in
          printGroups gs 0 e0 len false
    end.

End net.

(** ** The driver of [src/unnamed/part_000] (Linode API v4) *)

Module LinodeV4.

(** *** Data of the API client *)

Record Client : Type := NewClient { clientToken : string }.

(** [linodego.InstanceStatus] is a string type; these are the constants
    of the client library that [GetState] names. *)
Definition InstanceStatus : Type := string.
Definition InstanceBooting : InstanceStatus := "booting".
Definition InstanceRunning : InstanceStatus := "running".
Definition InstanceOffline : InstanceStatus := "offline".
Definition InstanceShuttingDown : InstanceStatus := "shutting_down".
Definition InstanceRebooting : InstanceStatus := "rebooting".
Definition InstanceProvisioning : InstanceStatus := "provisioning".
Definition InstanceDeleting : InstanceStatus := "deleting".
Definition InstanceMigrating : InstanceStatus := "migrating".
Definition InstanceRebuilding : InstanceStatus := "rebuilding".
Definition InstanceCloning : InstanceStatus := "cloning".
Definition InstanceRestoring : InstanceStatus := "restoring".

(** [linodego.Instance]: the fields the driver reads.  [IPv4] is a slice
    of pointers, [None] standing for a nil pointer. *)
Record Instance : Type := {
  ID : Z;
  Status : InstanceStatus;
  IPv4 : list (option net.IP)
}.

Record InstanceCreateOptions : Type := {
  Region : string;
  Type_ : string;
  Label : string;
  RootPass : string;
  AuthorizedKeys : list string;
  Image : string;
  optSwapSize : Z
}.

Inductive Request : Type :=
| RqCreateInstance (opts : InstanceCreateOptions)
| RqGetInstance (linodeID : Z)
| RqBootInstance (linodeID configID : Z)
| RqShutdownInstance (linodeID : Z)
| RqRebootInstance (linodeID : Z)
| RqDeleteInstance (linodeID : Z)
| RqWaitForInstanceStatus (linodeID : Z) (status : InstanceStatus)
    (timeoutSeconds : Z).

(** The answers of the outside world; [WaitForInstanceStatus] is the
    client library's own polling helper, taken as one call. *)
Record API (W : Type) : Type := {
  ssh_GenerateSSHKey : string -> W -> (error + unit) * W;
  ioutil_ReadFile : string -> W -> (error + string) * W;
  CreateInstance : Client -> InstanceCreateOptions -> W -> (error + Instance) * W;
  GetInstance : Client -> Z -> W -> (error + Instance) * W;
  BootInstance : Client -> Z -> Z -> W -> (error + bool) * W;
  ShutdownInstance : Client -> Z -> W -> (error + bool) * W;
  RebootInstance : Client -> Z -> W -> (error + bool) * W;
  DeleteInstance : Client -> Z -> W -> (error + unit) * W;
  WaitForInstanceStatus :
    Client -> Z -> InstanceStatus -> Z -> W -> (error + unit) * W
}.
Arguments ssh_GenerateSSHKey {W}.
Arguments ioutil_ReadFile {W}.
Arguments CreateInstance {W}.
Arguments GetInstance {W}.
Arguments BootInstance {W}.
Arguments ShutdownInstance {W}.
Arguments RebootInstance {W}.
Arguments DeleteInstance {W}.
Arguments WaitForInstanceStatus {W}.

(** *** The handle *)

Record Driver : Type := mkDriver {
  base : BaseDriver;
  client : option Client;
  APIToken : string;
  IPAddress : string;
  DockerPort : Z;
  InstanceID : Z;
  InstanceLabel : string;
  Region_ : string;
  InstanceType : string;
  RootPassword : string;
  SSHPort : Z;
  InstanceImage : string;
  InstanceKernel : string;
  SwapSize : Z
}.

Definition NewDriver (hostName storePath : string) : Driver :=
  mkDriver (mkBase hostName storePath "" "") Datatypes.None
    "" "" 0 0 "" "" "" "" 0 "" "" 0.

Definition set_base (v : BaseDriver) (d : Driver) : Driver :=
  mkDriver v (client d) (APIToken d) (IPAddress d) (DockerPort d)
    (InstanceID d) (InstanceLabel d) (Region_ d) (InstanceType d)
    (RootPassword d) (SSHPort d) (InstanceImage d) (InstanceKernel d)
    (SwapSize d).
Definition set_client (v : option Client) (d : Driver) : Driver :=
  mkDriver (base d) v (APIToken d) (IPAddress d) (DockerPort d)
    (InstanceID d) (InstanceLabel d) (Region_ d) (InstanceType d)
    (RootPassword d) (SSHPort d) (InstanceImage d) (InstanceKernel d)
    (SwapSize d).
Definition set_IPAddress (v : string) (d : Driver) : Driver :=
  mkDriver (base d) (client d) (APIToken d) v (DockerPort d)
    (InstanceID d) (InstanceLabel d) (Region_ d) (InstanceType d)
    (RootPassword d) (SSHPort d) (InstanceImage d) (InstanceKernel d)
    (SwapSize d).

(** The ten assignments that open [SetConfigFromFlags]. *)
Definition bindFlags (flags : DriverOptions) (d : Driver) : Driver :=
  mkDriver (base d) (client d)
    (optString flags "linode-token")
    (IPAddress d)
    (optInt flags "linode-docker-port")
    (InstanceID d)
    (optString flags "linode-label")
    (optString flags "linode-region")
    (optString flags "linode-type")
    (optString flags "linode-root-pass")
    (optInt flags "linode-ssh-port")
    (optString flags "linode-image")
    (optString flags "linode-kernel")
    (optInt flags "linode-swap-size").

Definition GetCreateFlags : list Flag := [
  StringFlag "linode-api-token" "Linode API Token" "LINODE_TOKEN" "";
  StringFlag "linode-root-pass" "Root Password" "LINODE_ROOT_PASSWORD" "";
  StringFlag "linode-label" "Linode Instance Label" "LINODE_LABEL" "";
  StringFlag "linode-region" "Linode Region" "LINODE_REGION" "us-east";
  StringFlag "linode-type" "Linode Instance Type" "LINODE_INSTANCE_TYPE" "g6-standard-4";
  IntFlag "linode-ssh-port" "Linode Instance SSH Port" "LINODE_SSH_PORT" 22;
  StringFlag "linode-image" "Linode Instance Image" "LINODE_IMAGE" "linode/debian8";
  StringFlag "linode-kernel" "Linode Instance Kernel" "LINODE_KERNEL" "linode/grub2";
  IntFlag "linode-docker-port" "Docker Port" "LINODE_DOCKER_PORT" 2376;
  IntFlag "linode-swap-size" "Linode Instance Swap Size (MB)" "LINODE_SWAP_SIZE" 512
].

(** [privateIP]: membership in one of the three RFC 1918 blocks, as
    [net.ParseCIDR] returns them. *)
Definition private24BitBlock : net.IPNet := net.mkIPNet [10; 0; 0; 0] [255; 0; 0; 0].
Definition private20BitBlock : net.IPNet := net.mkIPNet [172; 16; 0; 0] [255; 240; 0; 0].
Definition private16BitBlock : net.IPNet := net.mkIPNet [192; 168; 0; 0] [255; 255; 0; 0].

Definition privateIP (ip : net.IP) : bool :=
  net.Contains private24BitBlock ip
  || net.Contains private20BitBlock ip
  || net.Contains private16BitBlock ip.

Section Methods.
Context {W : Type} (api : API W).
Let S : Type := St Driver W Request.

Definition getClient : M S Client :=
  d <- getDrv ;;
  match client d with
  | Some c => ret c
  | Datatypes.None =>
      let c := NewClient (APIToken d) in
      modifyDrv (set_client (Some c)) ;;
      ret c
  end.

Definition DriverName : string := "linode".

Definition GetIP : M S string :=
  d <- getDrv ;;
  if String.eqb (IPAddress d) "" then fail "IP address is not set"
  else ret (IPAddress d).

Definition GetSSHHostname : M S string := GetIP.

Definition GetSSHUsername : M S string :=
  d <- getDrv ;;
  (if String.eqb (SSHUser (base d)) "" then
     modifyDrv (set_base (mkBase (MachineName (base d)) (StorePath (base d))
                            "root" (SSHKeyPath (base d))))
   else ret tt) ;;
  d' <- getDrv ;;
  ret (SSHUser (base d')).

Definition GetSSHKeyPath : M S string :=
  d <- getDrv ;;
  modifyDrv (set_base (baseWithKeyPath (base d))) ;;
  ret (baseKeyPath (base d)).

Definition SetConfigFromFlags (flags : DriverOptions) : M S unit :=
  modifyDrv (bindFlags flags) ;;
  d <- getDrv ;;
  if String.eqb (APIToken d) "" then
    fail "linode driver requires the --linode-token option"
  else if String.eqb (RootPassword d) "" then
    fail "linode driver requires the --linode-root-pass option"
  else ret tt.

Definition PreCreateCheck : M S unit := ret tt.

Definition publicSSHKeyPath : M S string :=
  p <- GetSSHKeyPath ;;
  ret (p +:+ ".pub").

Definition createSSHKey : M S string :=
  keyPath <- GetSSHKeyPath ;;
  g <- localEff (ssh_GenerateSSHKey api keyPath) ;;
  liftErr g ;;
  pubPath <- publicSSHKeyPath ;;
  r <- localEff (ioutil_ReadFile api pubPath) ;;
  liftErr r.

(** The loop of lines 199-204: the first address that is not private
    is recorded and ends the loop; dereferencing a nil pointer
    panics. *)
Fixpoint selectAddress (addrs : list (option net.IP)) : M S unit :=
  match addrs with
  | [] => ret tt
  | Datatypes.None :: _ => panic "invalid memory address or nil pointer dereference"
  | Some address :: rest =>
      if negb (privateIP address)
      then modifyDrv (set_IPAddress (net.String_ address))
      else selectAddress rest
  end.

(** The local variables of [Create] that outlive the step that sets
    them. *)
Record Frame : Type := mkFrame {
  publicKey : string;
  clientVar : option Client;
  linodeVar : option Instance
}.

Definition frame0 : Frame := mkFrame "" Datatypes.None Datatypes.None.

Definition deref {A} (p : option A) : M S A :=
  match p with
  | Some x => ret x
  | Datatypes.None => panic "invalid memory address or nil pointer dereference"
  end.

(** Lines 173-180: the key pair, then the client. *)
Definition stepKeyGeneration (fr : Frame) : M S Frame :=
  logDebug "Creating Linode machine instance..." ;;
  key <- createSSHKey ;;
  c <- getClient ;;
  ret (mkFrame key (Some c) (linodeVar fr)).

(** Lines 182-197: the one call that allocates, labels, images and
    boots the instance.  Its identifier is not stored in the handle. *)
Definition stepAllocation (fr : Frame) : M S Frame :=
  logDebug "Creating linode instance" ;;
  d <- getDrv ;;
  let createOpts :=
    Build_InstanceCreateOptions (Region_ d) (InstanceType d) (InstanceLabel d)
      (RootPassword d) [publicKey fr] (InstanceImage d) (SwapSize d) in
  c <- deref (clientVar fr) ;;
  linode <- call (RqCreateInstance createOpts) (CreateInstance api c createOpts) ;;
  ret (mkFrame (publicKey fr) (clientVar fr) (Some linode)).

(** Lines 199-216: address selection (the test of [err] at line 214
    cannot succeed: [err] is nil there). *)
Definition stepAddressDiscovery (fr : Frame) : M S Frame :=
  linode <- deref (linodeVar fr) ;;
  selectAddress (IPv4 linode) ;;
  d <- getDrv ;;
  if String.eqb (IPAddress d) "" then fail "Linode IP Address is not found"
  else
    logDebug ("Created Linode Instance ID " +:+ pretty (InstanceID d)
              +:+ ", IP address " +:+ IPAddress d) ;;
    ret fr.

(** The error built at line 220. *)
Definition wrapRunning (e : error) : error :=
  "wait for machine running failed: " +:+ e.

(** Lines 218-221: the wait for the running status. *)
Definition stepRunningPoll (fr : Frame) : M S Frame :=
  logDebug "Waiting for Machine Running..." ;;
  c <- deref (clientVar fr) ;;
  d <- getDrv ;;
  r <- attempt (call (RqWaitForInstanceStatus (InstanceID d) InstanceRunning 120)
                     (WaitForInstanceStatus api c (InstanceID d)
                        InstanceRunning 120)) ;;
  match r with
  | inl err => fail (wrapRunning err)
  | inr _ => ret fr
  end.

Definition createSteps : list (Frame -> M S Frame) :=
  [ stepKeyGeneration; stepAllocation; stepAddressDiscovery; stepRunningPoll ].

Definition Create : M S unit :=
  runSteps createSteps frame0 ;; ret tt.

(** The status switch of [GetState]. *)
Definition stateOfStatus (status : InstanceStatus) : state.State :=
  if String.eqb status InstanceRunning then state.Running
  else if String.eqb status InstanceOffline
          || String.eqb status InstanceRebuilding
          || String.eqb status InstanceMigrating then state.Stopped
  else if String.eqb status InstanceShuttingDown
          || String.eqb status InstanceDeleting then state.Stopping
  else if String.eqb status InstanceProvisioning
          || String.eqb status InstanceRebooting
          || String.eqb status InstanceBooting
          || String.eqb status InstanceCloning
          || String.eqb status InstanceRestoring then state.Starting
  else state.None.

Definition GetState : M S (state.State * option error) :=
  c <- getClient ;;
  d <- getDrv ;;
  r <- attempt (call (RqGetInstance (InstanceID d))
                     (GetInstance api c (InstanceID d))) ;;
  match r with
  | inl err => ret (state.Error, Some err)
  | inr linode => ret (stateOfStatus (Status linode), Datatypes.None)
  end.

Definition Start : M S unit :=
  logDebug "Start..." ;;
  c <- getClient ;;
  d <- getDrv ;;
  call (RqBootInstance (InstanceID d) 0) (BootInstance api c (InstanceID d) 0) ;;
  ret tt.

Definition Stop : M S unit :=
  logDebug "Stop..." ;;
  c <- getClient ;;
  d <- getDrv ;;
  call (RqShutdownInstance (InstanceID d)) (ShutdownInstance api c (InstanceID d)) ;;
  ret tt.

Definition Remove : M S unit :=
  c <- getClient ;;
  d <- getDrv ;;
  logDebug ("Removing linode: " +:+ pretty (InstanceID d)) ;;
  call (RqDeleteInstance (InstanceID d)) (DeleteInstance api c (InstanceID d)).

Definition Restart : M S unit :=
  logDebug "Restarting..." ;;
  c <- getClient ;;
  d <- getDrv ;;
  call (RqRebootInstance (InstanceID d)) (RebootInstance api c (InstanceID d)) ;;
  ret tt.

Definition Kill : M S unit :=
  logDebug "Killing..." ;;
  c <- getClient ;;
  d <- getDrv ;;
  call (RqShutdownInstance (InstanceID d)) (ShutdownInstance api c (InstanceID d)) ;;
  ret tt.

Definition GetURL : M S string :=
  ip <- GetIP ;;
  if String.eqb ip "" then ret ""
  else
    d <- getDrv ;;
    ret ("tcp://" +:+ ip +:+ ":" +:+ pretty (DockerPort d)).

End Methods.

End LinodeV4.

(** ** The host's side of configuration binding *)

Inductive FlagValue : Type :=
| VString (s : string)
| VInt (z : Z).

Definition declaredFlag (declared : list Flag) (key : string) : option Flag :=
  find (fun f => String.eqb (flagName f) key) declared.

(** The options libmachine hands to [SetConfigFromFlags]: the command
    line is parsed against the flags the driver declared, a flag that was
    not given takes its declared default, and a name that was never
    declared reads as Go's zero value. *)
Definition hostOptions (declared : list Flag) (given : gmap string FlagValue)
  : DriverOptions :=
  {| optString key :=
       match declaredFlag declared key with
       | Some (StringFlag _ _ _ dflt) =>
           match given !! key with
           | Some (VString v) => v
           | _ => dflt
           end
       | _ => ""
       end;
     optInt key :=
       match declaredFlag declared key with
       | Some (IntFlag _ _ _ dflt) =>
           match given !! key with
           | Some (VInt v) => v
           | _ => dflt
           end
       | _ => 0
       end |}.

(** Two option sets that agree on every declared name. *)
Definition agreeOn (declared : list Flag) (f g : DriverOptions) : Prop :=
  forall n, In n (map flagName declared) ->
    optString f n = optString g n /\ optInt f n = optInt g n.

(** ** The operations a host may run on a handle after [Create] *)

Module V3Ops.
Import LinodeV3.

Inductive Op : Type :=
| OpStart | OpStop | OpRestart | OpKill | OpRemove
| OpGetState | OpGetIP | OpGetURL
| OpGetSSHHostname | OpGetSSHUsername | OpPreCreateCheck
| OpSetConfigFromFlags (flags : DriverOptions).

Definition discard {S A} (m : M S A) : S -> S := fun s => snd (m s).

Definition runOp {W} (api : API W) (op : Op)
  : St Driver W Request -> St Driver W Request :=
  match op with
  | OpStart => discard (Start api)
  | OpStop => discard (Stop api)
  | OpRestart => discard (Restart api)
  | OpKill => discard (Kill api)
  | OpRemove => discard (Remove api)
  | OpGetState => discard (GetState api)
  | OpGetIP => discard GetIP
  | OpGetURL => discard GetURL
  | OpGetSSHHostname => discard GetSSHHostname
  | OpGetSSHUsername => discard GetSSHUsername
  | OpPreCreateCheck => discard PreCreateCheck
  | OpSetConfigFromFlags flags => discard (SetConfigFromFlags flags)
  end.

Definition runOps {W} (api : API W) (ops : list Op)
  (s : St Driver W Request) : St Driver W Request :=
  fold_left (fun s0 op => runOp api op s0) ops s.
End V3Ops.

Module V4Ops.
Import LinodeV4.

Inductive Op : Type :=
| OpStart | OpStop | OpRestart | OpKill | OpRemove
| OpGetState | OpGetIP | OpGetURL
| OpGetSSHHostname | OpGetSSHUsername | OpPreCreateCheck
| OpSetConfigFromFlags (flags : DriverOptions).

Definition discard {S A} (m : M S A) : S -> S := fun s => snd (m s).

Definition runOp {W} (api : API W) (op : Op)
  : St Driver W Request -> St Driver W Request :=
  match op with
  | OpStart => discard (Start api)
  | OpStop => discard (Stop api)
  | OpRestart => discard (Restart api)
  | OpKill => discard (Kill api)
  | OpRemove => discard (Remove api)
  | OpGetState => discard (GetState api)
  | OpGetIP => discard GetIP
  | OpGetURL => discard GetURL
  | OpGetSSHHostname => discard GetSSHHostname
  | OpGetSSHUsername => discard GetSSHUsername
  | OpPreCreateCheck => discard PreCreateCheck
  | OpSetConfigFromFlags flags => discard (SetConfigFromFlags flags)
  end.

Definition runOps {W} (api : API W) (ops : list Op)
  (s : St Driver W Request) : St Driver W Request :=
  fold_left (fun s0 op => runOp api op s0) ops s.
End V4Ops.

(** ** Scripted worlds, for running the drivers on concrete inputs *)

Module Script.

(** A v3 world without state: every call succeeds, except that the
    label update answers [labelAnswer], the address list is [ips] and
    the job list of job [j] is [jobs j]. *)
Definition v3 (ips : list LinodeV3.FullIPAddress) (labelAnswer : error + unit)
    (jobs : Z -> list LinodeV3.Job) : LinodeV3.API unit :=
  {| LinodeV3.ssh_GenerateSSHKey := fun _ w => (inr tt, w);
     LinodeV3.ioutil_ReadFile := fun _ w => (inr "ssh-rsa AAAA", w);
     LinodeV3.Linode_Create := fun _ _ _ _ w => (inr 42, w);
     LinodeV3.Linode_Update := fun _ _ _ w => (labelAnswer, w);
     LinodeV3.Ip_List := fun _ _ _ w => (inr ips, w);
     LinodeV3.Disk_CreateFromDistribution := fun _ _ _ _ _ _ w =>
       (inr (LinodeV3.Build_DiskJob 7 11), w);
     LinodeV3.Disk_Create := fun _ _ _ _ _ _ w =>
       (inr (LinodeV3.Build_DiskJob 8 12), w);
     LinodeV3.Config_Create := fun _ _ _ _ _ w => (inr tt, w);
     LinodeV3.Linode_Boot := fun _ _ _ w => (inr 9, w);
     LinodeV3.Linode_Shutdown := fun _ _ w => (inr 10, w);
     LinodeV3.Linode_Reboot := fun _ _ _ w => (inr 13, w);
     LinodeV3.Linode_Delete := fun _ _ _ w => (inr tt, w);
     LinodeV3.Linode_List := fun _ _ w => (inr [LinodeV3.Build_Linode 1], w);
     LinodeV3.Job_List := fun _ _ j _ w => (inr (jobs j), w);
     LinodeV3.select_ticks := fun t w => (Z.to_nat t, w) |}.

Definition jobDone (j : Z) : list LinodeV3.Job := [LinodeV3.Build_Job j "1"].

Definition onePublic : list LinodeV3.FullIPAddress :=
  [LinodeV3.Build_FullIPAddress "50.116.1.1" 1].

(** A v4 world without state: allocation answers [created], every
    other call succeeds with the instance in status [status]. *)
Definition v4 (created : error + LinodeV4.Instance)
    (status : LinodeV4.InstanceStatus) : LinodeV4.API unit :=
  {| LinodeV4.ssh_GenerateSSHKey := fun _ w => (inr tt, w);
     LinodeV4.ioutil_ReadFile := fun _ w => (inr "ssh-rsa AAAA", w);
     LinodeV4.CreateInstance := fun _ _ w => (created, w);
     LinodeV4.GetInstance := fun _ i w =>
       (inr (LinodeV4.Build_Instance i status []), w);
     LinodeV4.BootInstance := fun _ _ _ w => (inr true, w);
     LinodeV4.ShutdownInstance := fun _ _ w => (inr true, w);
     LinodeV4.RebootInstance := fun _ _ w => (inr true, w);
     LinodeV4.DeleteInstance := fun _ _ w => (inr tt, w);
     LinodeV4.WaitForInstanceStatus := fun _ _ _ _ w => (inr tt, w) |}.

(** A handle as the host makes it, and the state a run starts from. *)
Definition start3 (d : LinodeV3.Driver) : St LinodeV3.Driver unit LinodeV3.Request :=
  mkSt d tt [] [].
Definition start4 (d : LinodeV4.Driver) : St LinodeV4.Driver unit LinodeV4.Request :=
  mkSt d tt [] [].

Definition fresh3 : LinodeV3.Driver := LinodeV3.NewDriver "box" "/store".
Definition fresh4 : LinodeV4.Driver := LinodeV4.NewDriver "box" "/store".

(** What the user types: a credential and a root password. *)
Definition given3 : gmap string FlagValue :=
  <[ "linode-root-pass" := VString "s3cret" ]>
  (<[ "linode-api-key" := VString "abc" ]> ∅).
Definition given4 : gmap string FlagValue :=
  <[ "linode-root-pass" := VString "s3cret" ]>
  (<[ "linode-api-token" := VString "abc" ]> ∅).

(** A v3 handle after configuration binding succeeded, without and with
    a label. *)
Definition bound3 : LinodeV3.Driver :=
  LinodeV3.bindFlags (hostOptions LinodeV3.GetCreateFlags given3) fresh3.

Definition labelled3 : LinodeV3.Driver :=
  LinodeV3.bindFlags
    (hostOptions LinodeV3.GetCreateFlags
       (<[ "linode-label" := VString "web" ]> given3))
    fresh3.

(** A v4 instance whose only address is private. *)
Definition privateOnly : LinodeV4.Instance :=
  LinodeV4.Build_Instance 77 LinodeV4.InstanceProvisioning
    [Some [192; 168; 1; 5]].

End Script.

(** ** Vocabulary of the properties *)

(** [m] relates by [R] the state it starts from to the state it ends in,
    whatever its result. *)
Definition stable {S A} (R : S -> S -> Prop) (m : M S A) : Prop :=
  forall s r s', m s = (r, s') -> R s s'.

(** The three relations used below. *)

(** The projection [proj] of the handle is not changed. *)
Definition keeps {D W Rq X} (proj : D -> X) (s s' : St D W Rq) : Prop :=
  proj (drv s') = proj (drv s).

(** Remote calls are only added, and each added call satisfies [P]. *)
Definition extends {D W Rq} (P : Rq -> Prop) (s s' : St D W Rq) : Prop :=
  exists l, calls s' = calls s ++ l /\ Forall P l.

(** No remote call is issued and the world is left as it is. *)
Definition quiet {D W Rq} (s s' : St D W Rq) : Prop :=
  calls s' = calls s /\ world s' = world s.

(** The shutdown request that [Stop] and [Kill] issue on a handle. *)
Definition shutdown3 (d : LinodeV3.Driver) : LinodeV3.Request :=
  LinodeV3.RqLinodeShutdown (LinodeV3.LinodeId d).
Definition shutdown4 (d : LinodeV4.Driver) : LinodeV4.Request :=
  LinodeV4.RqShutdownInstance (LinodeV4.InstanceID d).

(** The identifier and the address recorded in a handle. *)
Definition idAndIP3 (d : LinodeV3.Driver) : Z * string :=
  (LinodeV3.LinodeId d, LinodeV3.IPAddress d).
Definition idAndIP4 (d : LinodeV4.Driver) : Z * string :=
  (LinodeV4.InstanceID d, LinodeV4.IPAddress d).

(** An option the user left out, or gave as the empty text. *)
Definition absent (given : gmap string FlagValue) (key : string) : Prop :=
  given !! key = None \/ given !! key = Some (VString "").

(** The client a method obtains from [getClient] on a handle. *)
Definition clientOf3 (d : LinodeV3.Driver) : LinodeV3.Client :=
  match LinodeV3.client d with
  | Some c => c
  | None => LinodeV3.NewClient (LinodeV3.APIKey d)
  end.
Definition clientOf4 (d : LinodeV4.Driver) : LinodeV4.Client :=
  match LinodeV4.client d with
  | Some c => c
  | None => LinodeV4.NewClient (LinodeV4.APIToken d)
  end.

(** The vocabulary of the state mapping. *)
Definition sixStates : list state.State :=
  [state.Starting; state.Running; state.Stopping; state.Stopped;
   state.Error; state.None].

(** What [GetState] returns for an answer of the remote API. *)
Definition stateOfAnswer3 (a : error + list LinodeV3.Linode)
  : Res (state.State * option error) :=
  match a with
  | inl e => Ok (state.Error, Some e)
  | inr [] => Panic "index out of range"
  | inr (l0 :: _) => Ok (LinodeV3.stateOfStatus (LinodeV3.Status l0), None)
  end.

Definition stateOfAnswer4 (a : error + LinodeV4.Instance)
  : Res (state.State * option error) :=
  match a with
  | inl e => Ok (state.Error, Some e)
  | inr i => Ok (LinodeV4.stateOfStatus (LinodeV4.Status i), None)
  end.

(** The addresses of a v3 answer that are flagged public, and the first
    address of a v4 answer that [privateIP] does not hold private. *)
Definition publicOnes (ips : list LinodeV3.FullIPAddress)
  : list LinodeV3.FullIPAddress :=
  filter (fun a => LinodeV3.IsPublic a = 1) ips.

Definition firstRoutable (ips : list net.IP) : option net.IP :=
  find (fun a => negb (LinodeV4.privateIP a)) ips.

(** The three private blocks, for a dotted address [a.b.c.d]. *)
Definition inPrivateBlocks (a b : Z) : Prop :=
  a = 10 \/ (a = 172 /\ 16 <= b <= 31) \/ (a = 192 /\ b = 168).

(** Requests other than the deletion of the instance. *)
Definition notDelete3 (rq : LinodeV3.Request) : Prop :=
  match rq with
  | LinodeV3.RqLinodeDelete _ _ => False
  | _ => True
  end.

Definition notDelete4 (rq : LinodeV4.Request) : Prop :=
  match rq with
  | LinodeV4.RqDeleteInstance _ => False
  | _ => True
  end.

(** The allocation call of a run of the v3 [Create] from [s] returned the
    identifier [id]: key generation succeeded and the remote API, asked
    for a new instance in the state that followed, answered [id]. *)
Definition allocated3 {W} (api : LinodeV3.API W)
    (s : St LinodeV3.Driver W LinodeV3.Request) (id : Z) : Prop :=
  exists fr s1 w',
    LinodeV3.stepKeyGeneration api LinodeV3.frame0 s = (Ok fr, s1)
    /\ LinodeV3.Linode_Create api (clientOf3 (drv s1))
         (LinodeV3.DataCenterId (drv s1)) (LinodeV3.PlanId (drv s1))
         (LinodeV3.PaymentTerm (drv s1)) (world s1)
       = (inr id, w').

(** The steps of [Create] that come before address discovery. *)
Definition beforeDiscovery3 {W} (api : LinodeV3.API W)
  : list (LinodeV3.Frame -> M (St LinodeV3.Driver W LinodeV3.Request) LinodeV3.Frame) :=
  take 3 (LinodeV3.createSteps api).

Definition beforeDiscovery4 {W} (api : LinodeV4.API W)
  : list (LinodeV4.Frame -> M (St LinodeV4.Driver W LinodeV4.Request) LinodeV4.Frame) :=
  take 2 (LinodeV4.createSteps api).

(** The messages of the two "no address" errors. *)
Definition noAddress3 : error := "Linode IP Address is not found.".
Definition noAddress4 : error := "Linode IP Address is not found".

(** [runs m s Q]: whatever [m] returns when started in [s], the result
    and the end state satisfy [Q]. *)
Definition runs {S A} (m : M S A) (s : S) (Q : Res A -> S -> Prop) : Prop :=
  forall r s', m s = (r, s') -> Q r s'.

(** What must hold after the first half of a [bind] for [Q] to hold after
    the whole. *)
Definition thenPost {S A B} (f : A -> M S B) (Q : Res B -> S -> Prop)
  : Res A -> S -> Prop :=
  fun r s1 =>
    match r with
    | Ok a => runs (f a) s1 Q
    | Err e => Q (Err e) s1
    | Panic p => Q (Panic p) s1
    end.

(** The same for [attempt], which hands the error back as a value. *)
Definition attemptPost {S A} (Q : Res (error + A) -> S -> Prop)
  : Res A -> S -> Prop :=
  fun r s1 =>
    match r with
    | Ok x => Q (Ok (inr x)) s1
    | Err e => Q (Ok (inl e)) s1
    | Panic p => Q (Panic p) s1
    end.

(** A property of the handle that, once it holds, goes on holding. *)
Definition holds {D W Rq} (P : D -> Prop) (s s' : St D W Rq) : Prop :=
  P (drv s) -> P (drv s').

(** The URL that [GetURL] builds from an address and a port. *)
Definition dockerURL (ip : string) (port : Z) : string :=
  "tcp://" +:+ ip +:+ ":" +:+ pretty port.

(** The user [GetSSHUsername] settles on. *)
Definition sshUserOf (b : BaseDriver) : string :=
  if String.eqb (SSHUser b) "" then "root" else SSHUser b.

(** The 16-byte form of the IPv4 address [a.b.c.d]. *)
Definition mapped (a b c d : Z) : net.IP :=
  [0; 0; 0; 0; 0; 0; 0; 0; 0; 0; 255; 255; a; b; c; d].

(** The request each lifecycle verb issues on a handle, in each driver. *)
Definition boot3 (d : LinodeV3.Driver) : LinodeV3.Request :=
  LinodeV3.RqLinodeBoot (LinodeV3.LinodeId d) (-1).
Definition reboot3 (d : LinodeV3.Driver) : LinodeV3.Request :=
  LinodeV3.RqLinodeReboot (LinodeV3.LinodeId d) (-1).
Definition delete3 (d : LinodeV3.Driver) : LinodeV3.Request :=
  LinodeV3.RqLinodeDelete (LinodeV3.LinodeId d) true.
Definition boot4 (d : LinodeV4.Driver) : LinodeV4.Request :=
  LinodeV4.RqBootInstance (LinodeV4.InstanceID d) 0.
Definition reboot4 (d : LinodeV4.Driver) : LinodeV4.Request :=
  LinodeV4.RqRebootInstance (LinodeV4.InstanceID d).
Definition delete4 (d : LinodeV4.Driver) : LinodeV4.Request :=
  LinodeV4.RqDeleteInstance (LinodeV4.InstanceID d).

(** The result of a verb whose answer, but for the error, is dropped. *)
Definition errorOnly {A} (a : error + A) : Res unit :=
  match a with
  | inl e => Err e
  | inr _ => Ok tt
  end.

(** The query of the poller, and its timeout error. *)
Definition jobQuery (d : LinodeV3.Driver) (jobId : Z) : LinodeV3.Request :=
  LinodeV3.RqJobList (LinodeV3.LinodeId d) jobId false.

Definition timedOut (jobName : string) (timeOutSeconds : Z) : error :=
  "Job " +:+ jobName +:+ " timed out after " +:+ pretty timeOutSeconds
  +:+ " seconds.".

(** A remote API on which the job [jobId] is always listed first, and
    always with (resp. never with) the success mark. *)
Definition jobAlways {W} (api : LinodeV3.API W) (jobId : Z)
    (mark : string -> Prop) : Prop :=
  forall c id w, exists j js,
    fst (LinodeV3.Job_List api c id jobId false w) = inr (j :: js)
    /\ LinodeV3.JobId j = jobId /\ mark (LinodeV3.HostSuccess j).

(** The status query of the v3 driver, and a remote API on which the
    instance never shows as running: each query fails or lists first an
    instance in another state. *)
Definition statusQuery (d : LinodeV3.Driver) : LinodeV3.Request :=
  LinodeV3.RqLinodeList (LinodeV3.LinodeId d).

Definition neverRunning {W} (api : LinodeV3.API W) : Prop :=
  forall c id w,
    match fst (LinodeV3.Linode_List api c id w) with
    | inl _ => True
    | inr [] => False
    | inr (l :: _) => LinodeV3.stateOfStatus (LinodeV3.Status l) <> state.Running
    end.

(** The instance a v3 request is addressed to; the allocation request is
    addressed to none. *)
Definition targetOf3 (rq : LinodeV3.Request) : option Z :=
  match rq with
  | LinodeV3.RqLinodeCreate _ _ _ => None
  | LinodeV3.RqLinodeUpdate id _ => Some id
  | LinodeV3.RqIpList id _ => Some id
  | LinodeV3.RqDiskCreateFromDistribution _ id _ _ _ => Some id
  | LinodeV3.RqDiskCreate id _ _ _ _ => Some id
  | LinodeV3.RqConfigCreate id _ _ _ => Some id
  | LinodeV3.RqLinodeBoot id _ => Some id
  | LinodeV3.RqLinodeShutdown id => Some id
  | LinodeV3.RqLinodeReboot id _ => Some id
  | LinodeV3.RqLinodeDelete id _ => Some id
  | LinodeV3.RqLinodeList id => Some id
  | LinodeV3.RqJobList id _ _ => Some id
  end.

(** From a handle that holds the identifier [id]: the identifier stays
    and every request issued is addressed to [id]. *)
Definition addresses (id : Z) {W}
    (s s' : St LinodeV3.Driver W LinodeV3.Request) : Prop :=
  LinodeV3.LinodeId (drv s) = id ->
  LinodeV3.LinodeId (drv s') = id
  /\ exists l, calls s' = calls s ++ l
               /\ Forall (fun rq => targetOf3 rq = Some id) l.

(** The allocation request of the v3 [Create]. *)
Definition create3 (d : LinodeV3.Driver) : LinodeV3.Request :=
  LinodeV3.RqLinodeCreate (LinodeV3.DataCenterId d) (LinodeV3.PlanId d)
    (LinodeV3.PaymentTerm d).

(** The requests of the v4 [Create] from a handle whose identifier is
    [i]: an allocation, or the wait for the running status of instance
    [i]. *)
Definition createRequest4 (i : Z) (rq : LinodeV4.Request) : Prop :=
  match rq with
  | LinodeV4.RqCreateInstance _ => True
  | LinodeV4.RqWaitForInstanceStatus id status timeout =>
      id = i /\ status = LinodeV4.InstanceRunning /\ timeout = 120
  | _ => False
  end.

Definition waitsOn (i : Z) {W}
    (s s' : St LinodeV4.Driver W LinodeV4.Request) : Prop :=
  LinodeV4.InstanceID (drv s) = i ->
  LinodeV4.InstanceID (drv s') = i
  /\ exists l, calls s' = calls s ++ l /\ Forall (createRequest4 i) l.

(** A result that is not a panic. *)
Definition noPanic {A} (r : Res A) : Prop :=
  match r with
  | Panic _ => False
  | _ => True
  end.

(** A remote API whose new instances have no nil address pointer. *)
Definition noNilAddress {W} (api : LinodeV4.API W) : Prop :=
  forall c opts w,
    match fst (LinodeV4.CreateInstance api c opts w) with
    | inl _ => True
    | inr linode => Forall (fun a => a <> None) (LinodeV4.IPv4 linode)
    end.

(** A request that the remote API answered with an empty list, leaving
    the world [w']: the job list that [waitForJob] reads at [Jobs[0]], or
    the instance list that [GetState] reads at [Linodes[0]]. *)
Definition emptyAnswer {W} (api : LinodeV3.API W) (rq : LinodeV3.Request)
    (w' : W) : Prop :=
  match rq with
  | LinodeV3.RqJobList id jobId pendingOnly =>
      exists c w, LinodeV3.Job_List api c id jobId pendingOnly w = (inr [], w')
  | LinodeV3.RqLinodeList id =>
      exists c w, LinodeV3.Linode_List api c id w = (inr [], w')
  | _ => False
  end.

(** The panic [p] of a run that ended in [s'] is the read of the first
    element of the empty list that answered the last request of the run. *)
Definition emptyListRead {W} (api : LinodeV3.API W) (p : string)
    (s' : St LinodeV3.Driver W LinodeV3.Request) : Prop :=
  p = "index out of range"
  /\ exists l rq, calls s' = l ++ [rq] /\ emptyAnswer api rq (world s').

(** The request that follows the allocation of instance [id] in the v3
    [Create]: the label update when the handle has a label, the address
    list otherwise. *)
Definition afterAllocation3 (d : LinodeV3.Driver) (id : Z) : LinodeV3.Request :=
  if String.eqb (LinodeV3.LinodeLabel d) ""
  then LinodeV3.RqIpList id (-1)
  else LinodeV3.RqLinodeUpdate id {[ "Label" := LinodeV3.LinodeLabel d ]}.

(** The statuses that the comment on the last line of the v4 [GetState]
    (line 262) lists beside its [return state.None]. *)
Definition commentedStatuses : list LinodeV4.InstanceStatus :=
  [LinodeV4.InstanceDeleting; LinodeV4.InstanceMigrating;
   LinodeV4.InstanceRebuilding; LinodeV4.InstanceCloning;
   LinodeV4.InstanceRestoring].


(** * Properties *)

(** ** Relations that every step of a computation maintains *)

Section Stable.
Context {S : Type} (R : S -> S -> Prop).
Hypothesis R_refl : forall s, R s s.
Hypothesis R_trans : forall a b c, R a b -> R b c -> R a c.

Lemma stable_ret {A} (a : A) : stable R (ret a).
Proof using R_refl. intros s r s' [= <- <-]. apply R_refl. Qed.

Lemma stable_fail {A} (e : error) : stable R (@fail S A e).
Proof using R_refl. intros s r s' [= <- <-]. apply R_refl. Qed.

Lemma stable_panic {A} (p : string) : stable R (@panic S A p).
Proof using R_refl. intros s r s' [= <- <-]. apply R_refl. Qed.

Lemma stable_bind {A B} (m : M S A) (f : A -> M S B) :
  stable R m -> (forall a, stable R (f a)) -> stable R (bind m f).
Proof using R_trans.
  intros Hm Hf s r s'. unfold bind.
  destruct (m s) as [[a | e | p] s1] eqn:E; intros H.
  - eapply R_trans; [eapply Hm, E | eapply Hf, H].
  - injection H as <- <-. eapply Hm, E.
  - injection H as <- <-. eapply Hm, E.
Qed.

Lemma stable_runSteps {F} (steps : list (F -> M S F)) :
  Forall (fun step => forall fr, stable R (step fr)) steps ->
  forall fr, stable R (runSteps steps fr).
Proof using R_refl R_trans.
  induction 1 as [| step rest Hstep _ IH]; intros fr; simpl.
  - apply stable_ret.
  - apply stable_bind; auto.
Qed.

Lemma stable_WaitForSpecific (f : M S bool) (n : nat) (maxAttempts : Z) :
  stable R f -> stable R (WaitForSpecific f n maxAttempts).
Proof using R_refl R_trans.
  intros Hf. induction n as [| n IH]; simpl.
  - apply stable_fail.
  - apply stable_bind; [exact Hf |].
    intros [|]; [apply stable_ret | exact IH].
Qed.
End Stable.

Section StablePrimitives.
Context {D W Rq : Type} (R : St D W Rq -> St D W Rq -> Prop).
Hypothesis R_refl : forall s, R s s.

Lemma stable_getDrv : stable R getDrv.
Proof using R_refl. intros s r s' [= <- <-]. apply R_refl. Qed.

Lemma stable_liftErr {A} (r : error + A) : stable R (liftErr r).
Proof using R_refl.
  destruct r; [apply stable_fail | apply stable_ret]; exact R_refl.
Qed.

Lemma stable_modifyDrv (f : D -> D) :
  (forall s, R s (mkSt (f (drv s)) (world s) (calls s) (debug s))) ->
  stable R (modifyDrv f).
Proof. intros H s r s' [= <- <-]. apply H. Qed.

Lemma stable_logDebug (line : string) :
  (forall s, R s (mkSt (drv s) (world s) (calls s) (debug s ++ [line]))) ->
  stable R (logDebug line).
Proof. intros H s r s' [= <- <-]. apply H. Qed.

Lemma stable_call {A} (rq : Rq) (h : W -> (error + A) * W) :
  (forall s w', R s (mkSt (drv s) w' (calls s ++ [rq]) (debug s))) ->
  stable R (call rq h).
Proof.
  intros H s r s'. unfold call.
  destruct (h (world s)) as [[e | x] w']; intros [= <- <-]; apply H.
Qed.

Lemma stable_localEff {A} (h : W -> A * W) :
  (forall s w', R s (mkSt (drv s) w' (calls s) (debug s))) ->
  stable R (localEff h).
Proof.
  intros H s r s'. unfold localEff.
  destruct (h (world s)) as [x w']; intros [= <- <-]; apply H.
Qed.

Lemma stable_attempt {A} (m : M (St D W Rq) A) :
  stable R m -> stable R (attempt m).
Proof.
  intros H s r s'. unfold attempt.
  destruct (m s) as [[x | e | p] s1] eqn:E; intros [= <- <-]; eapply H, E.
Qed.
End StablePrimitives.

Lemma keeps_refl {D W Rq X} (proj : D -> X) (s : St D W Rq) : keeps proj s s.
Proof. reflexivity. Qed.

Lemma keeps_trans {D W Rq X} (proj : D -> X) (a b c : St D W Rq) :
  keeps proj a b -> keeps proj b c -> keeps proj a c.
Proof. unfold keeps. congruence. Qed.

Lemma extends_refl {D W Rq} (P : Rq -> Prop) (s : St D W Rq) : extends P s s.
Proof. exists []. split; [symmetry; apply app_nil_r | constructor]. Qed.

Lemma extends_trans {D W Rq} (P : Rq -> Prop) (a b c : St D W Rq) :
  extends P a b -> extends P b c -> extends P a c.
Proof.
  intros (l1 & E1 & F1) (l2 & E2 & F2). exists (l1 ++ l2). split.
  - rewrite E2, E1. symmetry. apply app_assoc.
  - apply Forall_app. split; assumption.
Qed.

Lemma quiet_refl {D W Rq} (s : St D W Rq) : quiet s s.
Proof. split; reflexivity. Qed.

Lemma quiet_trans {D W Rq} (a b c : St D W Rq) :
  quiet a b -> quiet b c -> quiet a c.
Proof. unfold quiet. intros [-> ->] [-> ->]. split; reflexivity. Qed.

(** The two loops of the drivers. *)
Lemma stable_waitLoop {W} (R : St LinodeV3.Driver W LinodeV3.Request ->
                               St LinodeV3.Driver W LinodeV3.Request -> Prop)
    (api : LinodeV3.API W) (jobId : Z) (jobName : string) (T : Z) :
  (forall s, R s s) -> (forall a b c, R a b -> R b c -> R a c) ->
  stable R (LinodeV3.pollJob api jobId jobName) ->
  forall n, stable R (LinodeV3.waitLoop api n jobId jobName T).
Proof.
  intros Hrefl Htrans Hpoll. induction n as [| n IH]; simpl.
  - apply stable_fail, Hrefl.
  - apply stable_bind; [exact Htrans | exact Hpoll |].
    intros [|]; [apply stable_ret, Hrefl | exact IH].
Qed.

Lemma stable_selectAddress {W} (R : St LinodeV4.Driver W LinodeV4.Request ->
                                    St LinodeV4.Driver W LinodeV4.Request -> Prop) :
  (forall s, R s s) ->
  (forall ip, stable R (modifyDrv (LinodeV4.set_IPAddress ip))) ->
  forall addrs, stable R (LinodeV4.selectAddress addrs).
Proof.
  intros Hrefl Hset. induction addrs as [| [a |] addrs IH]; simpl.
  - apply stable_ret, Hrefl.
  - destruct (negb (LinodeV4.privateIP a)); [apply Hset | exact IH].
  - apply stable_panic, Hrefl.
Qed.

(** Proof automation: a computation built from the primitives maintains
    a relation as soon as each primitive in it does. *)
Create HintDb drv discriminated.

#[global] Hint Unfold
  LinodeV3.getClient LinodeV3.theClient LinodeV3.GetIP LinodeV3.GetSSHHostname
  LinodeV3.GetSSHUsername LinodeV3.GetSSHKeyPath LinodeV3.SetConfigFromFlags
  LinodeV3.PreCreateCheck LinodeV3.publicSSHKeyPath LinodeV3.createSSHKey
  LinodeV3.GetState LinodeV3.Start LinodeV3.Stop LinodeV3.Remove
  LinodeV3.Restart LinodeV3.Kill LinodeV3.GetURL LinodeV3.pollJob
  LinodeV3.waitForJob LinodeV3.MachineInState LinodeV3.frameClient
  LinodeV3.stepKeyGeneration LinodeV3.stepAllocation LinodeV3.stepLabeling
  LinodeV3.stepAddressDiscovery LinodeV3.stepPrimaryDisk LinodeV3.stepSwapDisk
  LinodeV3.stepBootConfig LinodeV3.stepBoot LinodeV3.stepRunningPoll
  LinodeV4.getClient LinodeV4.GetIP LinodeV4.GetSSHHostname
  LinodeV4.GetSSHUsername LinodeV4.GetSSHKeyPath LinodeV4.SetConfigFromFlags
  LinodeV4.PreCreateCheck LinodeV4.publicSSHKeyPath LinodeV4.createSSHKey
  LinodeV4.GetState LinodeV4.Start LinodeV4.Stop LinodeV4.Remove
  LinodeV4.Restart LinodeV4.Kill LinodeV4.GetURL LinodeV4.deref
  LinodeV4.stepKeyGeneration LinodeV4.stepAllocation
  LinodeV4.stepAddressDiscovery LinodeV4.stepRunningPoll : drv.

Ltac stab_side :=
  first [ exact (keeps_refl _) | exact (keeps_trans _)
        | exact (extends_refl _) | exact (extends_trans _)
        | exact quiet_refl | exact quiet_trans ].

Ltac stab_step :=
  first
    [ apply stable_ret; stab_side
    | apply stable_fail; stab_side
    | apply stable_panic; stab_side
    | apply stable_getDrv; stab_side
    | apply stable_liftErr; stab_side
    | apply stable_bind; [stab_side | | intros ?]
    | apply stable_attempt
    | apply stable_WaitForSpecific; [stab_side | stab_side |]
    | apply stable_waitLoop; [stab_side | stab_side |]
    | apply stable_selectAddress; [stab_side | intros ?]
    | apply stable_modifyDrv; intros ?
    | apply stable_logDebug; intros ?
    | apply stable_call; intros ? ?
    | apply stable_localEff; intros ? ?
    | match goal with
      | |- stable _ (if ?c then _ else _) => destruct c
      | |- stable _ (match ?x with _ => _ end) => destruct x
      end
    | progress autounfold with drv ].

Ltac stab := repeat stab_step.

(** ** Stop and Kill *)

(** C9: in both drivers [Kill] and [Stop] return the same result, leave
    the same handle and the same world behind, and each adds to the calls
    issued so far exactly one request: the shutdown of the handle's
    instance.  (They differ in the line they write to the debug log.) *)
Theorem C9_kill_is_stop :
  (forall W (api : LinodeV3.API W) (s : St LinodeV3.Driver W LinodeV3.Request),
     let k := LinodeV3.Kill api s in
     let t := LinodeV3.Stop api s in
     fst k = fst t /\ drv (snd k) = drv (snd t) /\ world (snd k) = world (snd t)
     /\ calls (snd t) = calls s ++ [shutdown3 (drv s)]
     /\ calls (snd k) = calls s ++ [shutdown3 (drv s)])
  /\
  (forall W (api : LinodeV4.API W) (s : St LinodeV4.Driver W LinodeV4.Request),
     let k := LinodeV4.Kill api s in
     let t := LinodeV4.Stop api s in
     fst k = fst t /\ drv (snd k) = drv (snd t) /\ world (snd k) = world (snd t)
     /\ calls (snd t) = calls s ++ [shutdown4 (drv s)]
     /\ calls (snd k) = calls s ++ [shutdown4 (drv s)]).
Proof.
  split; intros W api s; cbv zeta.
  - unfold LinodeV3.Kill, LinodeV3.Stop, LinodeV3.getClient, shutdown3,
      bind, logDebug, getDrv, modifyDrv, call, ret; simpl.
    destruct (LinodeV3.client (drv s)) as [c |]; simpl;
      destruct (LinodeV3.Linode_Shutdown api _ _ (world s)) as [[e | j] w'];
      simpl; repeat split; reflexivity.
  - unfold LinodeV4.Kill, LinodeV4.Stop, LinodeV4.getClient, shutdown4,
      bind, logDebug, getDrv, modifyDrv, call, ret; simpl.
    destruct (LinodeV4.client (drv s)) as [c |]; simpl;
      destruct (LinodeV4.ShutdownInstance api _ _ (world s)) as [[e | j] w'];
      simpl; repeat split; reflexivity.
Qed.

(** ** Operations that leave the identifier and the address alone *)

Lemma runOp3_keeps W (api : LinodeV3.API W) (op : V3Ops.Op)
    (s : St LinodeV3.Driver W LinodeV3.Request) :
  keeps idAndIP3 s (V3Ops.runOp api op s).
Proof.
  assert (H : forall A (m : M _ A), stable (keeps idAndIP3) m ->
                keeps idAndIP3 s (V3Ops.discard m s)).
  { intros A m Hm. unfold V3Ops.discard.
    destruct (m s) as [r s'] eqn:E. simpl. eapply Hm, E. }
  destruct op; simpl; apply H; stab; reflexivity.
Qed.

Lemma runOps3_keeps W (api : LinodeV3.API W) (ops : list V3Ops.Op) :
  forall s : St LinodeV3.Driver W LinodeV3.Request,
    keeps idAndIP3 s (V3Ops.runOps api ops s).
Proof.
  unfold V3Ops.runOps.
  induction ops as [| op ops IH]; intros s; simpl.
  - reflexivity.
  - eapply keeps_trans; [apply runOp3_keeps | apply IH].
Qed.

Lemma runOp4_keeps W (api : LinodeV4.API W) (op : V4Ops.Op)
    (s : St LinodeV4.Driver W LinodeV4.Request) :
  keeps idAndIP4 s (V4Ops.runOp api op s).
Proof.
  assert (H : forall A (m : M _ A), stable (keeps idAndIP4) m ->
                keeps idAndIP4 s (V4Ops.discard m s)).
  { intros A m Hm. unfold V4Ops.discard.
    destruct (m s) as [r s'] eqn:E. simpl. eapply Hm, E. }
  destruct op; simpl; apply H; stab; reflexivity.
Qed.

Lemma runOps4_keeps W (api : LinodeV4.API W) (ops : list V4Ops.Op) :
  forall s : St LinodeV4.Driver W LinodeV4.Request,
    keeps idAndIP4 s (V4Ops.runOps api ops s).
Proof.
  unfold V4Ops.runOps.
  induction ops as [| op ops IH]; intros s; simpl.
  - reflexivity.
  - eapply keeps_trans; [apply runOp4_keeps | apply IH].
Qed.

(** ** The cached address *)

Lemma GetIP3_cached W (s : St LinodeV3.Driver W LinodeV3.Request) :
  LinodeV3.IPAddress (drv s) <> "" ->
  LinodeV3.GetIP s = (Ok (LinodeV3.IPAddress (drv s)), s).
Proof.
  intros H. unfold LinodeV3.GetIP, bind, getDrv. simpl.
  destruct (String.eqb_spec (LinodeV3.IPAddress (drv s)) ""); [contradiction |].
  reflexivity.
Qed.

Lemma GetIP4_cached W (s : St LinodeV4.Driver W LinodeV4.Request) :
  LinodeV4.IPAddress (drv s) <> "" ->
  LinodeV4.GetIP s = (Ok (LinodeV4.IPAddress (drv s)), s).
Proof.
  intros H. unfold LinodeV4.GetIP, bind, getDrv. simpl.
  destruct (String.eqb_spec (LinodeV4.IPAddress (drv s)) ""); [contradiction |].
  reflexivity.
Qed.

(** C8: on a handle whose address is recorded, [GetIP] returns the
    recorded address and issues no remote call (the state it leaves is the
    state it found); and whatever operations other than [Create] the host
    runs in between, a second [GetIP] returns the same address, again
    without a remote call.  This holds in both drivers. *)
Theorem C8_GetIP_returns_the_cached_address :
  (forall W (api : LinodeV3.API W) (ops : list V3Ops.Op)
          (s : St LinodeV3.Driver W LinodeV3.Request),
     LinodeV3.IPAddress (drv s) <> "" ->
     let first := LinodeV3.GetIP s in
     let between := V3Ops.runOps api ops (snd first) in
     let second := LinodeV3.GetIP between in
     fst first = Ok (LinodeV3.IPAddress (drv s)) /\ fst second = fst first
     /\ snd first = s /\ snd second = between)
  /\
  (forall W (api : LinodeV4.API W) (ops : list V4Ops.Op)
          (s : St LinodeV4.Driver W LinodeV4.Request),
     LinodeV4.IPAddress (drv s) <> "" ->
     let first := LinodeV4.GetIP s in
     let between := V4Ops.runOps api ops (snd first) in
     let second := LinodeV4.GetIP between in
     fst first = Ok (LinodeV4.IPAddress (drv s)) /\ fst second = fst first
     /\ snd first = s /\ snd second = between).
Proof.
  split; intros W api ops s Hip; cbv zeta.
  - rewrite (GetIP3_cached W s Hip). simpl.
    pose proof (runOps3_keeps W api ops s) as K.
    unfold keeps, idAndIP3 in K. injection K as _ Kip.
    rewrite GetIP3_cached by (rewrite Kip; exact Hip).
    simpl. rewrite Kip. auto.
  - rewrite (GetIP4_cached W s Hip). simpl.
    pose proof (runOps4_keeps W api ops s) as K.
    unfold keeps, idAndIP4 in K. injection K as _ Kip.
    rewrite GetIP4_cached by (rewrite Kip; exact Hip).
    simpl. rewrite Kip. auto.
Qed.

(** C8 on a v3 handle after a successful [Create], with a stop, a state
    query and a restart between the two calls of [GetIP]. *)
Lemma C8_witness_after_create :
  let api := Script.v3 Script.onePublic (inr tt) Script.jobDone in
  let s := snd (LinodeV3.Create api (Script.start3 Script.bound3)) in
  let first := LinodeV3.GetIP s in
  let between :=
    V3Ops.runOps api [V3Ops.OpStop; V3Ops.OpGetState; V3Ops.OpRestart]
      (snd first) in
  let second := LinodeV3.GetIP between in
  fst first = Ok "50.116.1.1" /\ fst second = fst first
  /\ snd first = s /\ snd second = between.
Proof.
  cbv zeta.
  pose proof (proj1 C8_GetIP_returns_the_cached_address unit
                (Script.v3 Script.onePublic (inr tt) Script.jobDone)
                [V3Ops.OpStop; V3Ops.OpGetState; V3Ops.OpRestart]
                (snd (LinodeV3.Create
                        (Script.v3 Script.onePublic (inr tt) Script.jobDone)
                        (Script.start3 Script.bound3)))
                ltac:(vm_compute; discriminate)) as H.
  cbv zeta in H. destruct H as (H1 & H2 & H3 & H4).
  split; [rewrite H1; vm_compute; reflexivity |]. auto.
Defined.

(** ** Configuration binding *)

Lemma SetConfigFromFlags3_quiet W (flags : DriverOptions) :
  stable (quiet (W := W)) (LinodeV3.SetConfigFromFlags flags).
Proof. stab; split; reflexivity. Qed.

Lemma SetConfigFromFlags4_quiet W (flags : DriverOptions) :
  stable (quiet (W := W)) (LinodeV4.SetConfigFromFlags flags).
Proof. stab; split; reflexivity. Qed.

Lemma SetConfigFromFlags3_fails W (flags : DriverOptions)
    (s : St LinodeV3.Driver W LinodeV3.Request) :
  optString flags "linode-api-key" = "" \/ optString flags "linode-root-pass" = "" ->
  exists e, fst (LinodeV3.SetConfigFromFlags flags s) = Err e.
Proof.
  intros H.
  unfold LinodeV3.SetConfigFromFlags, bind, modifyDrv, getDrv, fail. simpl.
  destruct (String.eqb_spec (optString flags "linode-api-key") "") as [| Hk];
    [eauto |].
  destruct (String.eqb_spec (optString flags "linode-root-pass") "") as [| Hp];
    [eauto |].
  destruct H; contradiction.
Qed.

Lemma SetConfigFromFlags4_fails W (flags : DriverOptions)
    (s : St LinodeV4.Driver W LinodeV4.Request) :
  optString flags "linode-token" = "" \/ optString flags "linode-root-pass" = "" ->
  exists e, fst (LinodeV4.SetConfigFromFlags flags s) = Err e.
Proof.
  intros H.
  unfold LinodeV4.SetConfigFromFlags, bind, modifyDrv, getDrv, fail. simpl.
  destruct (String.eqb_spec (optString flags "linode-token") "") as [| Hk];
    [eauto |].
  destruct (String.eqb_spec (optString flags "linode-root-pass") "") as [| Hp];
    [eauto |].
  destruct H; contradiction.
Qed.

(** What the host hands over for an absent string option without a
    default. *)
Lemma hostOptions_absent3 (given : gmap string FlagValue) (key : string) :
  key = "linode-api-key" \/ key = "linode-root-pass" ->
  absent given key ->
  optString (hostOptions LinodeV3.GetCreateFlags given) key = "".
Proof.
  intros [-> | ->] [H | H]; cbn; rewrite H; reflexivity.
Qed.

Lemma hostOptions_absent4 (given : gmap string FlagValue) :
  absent given "linode-root-pass" ->
  optString (hostOptions LinodeV4.GetCreateFlags given) "linode-root-pass" = "".
Proof.
  intros [H | H]; cbn; rewrite H; reflexivity.
Qed.

(** C5: in both drivers, when the credential or the root password that
    [SetConfigFromFlags] reads is empty, it returns an error, having
    issued no remote call and left the world untouched.  The same holds
    of the options the host builds from the declared flags when the user
    gave no credential or no root password. *)
Theorem C5_binding_fails_without_credential_or_password :
  (forall W (flags : DriverOptions) (s : St LinodeV3.Driver W LinodeV3.Request),
     optString flags "linode-api-key" = ""
     \/ optString flags "linode-root-pass" = "" ->
     (exists e, fst (LinodeV3.SetConfigFromFlags flags s) = Err e)
     /\ quiet s (snd (LinodeV3.SetConfigFromFlags flags s)))
  /\
  (forall W (flags : DriverOptions) (s : St LinodeV4.Driver W LinodeV4.Request),
     optString flags "linode-token" = ""
     \/ optString flags "linode-root-pass" = "" ->
     (exists e, fst (LinodeV4.SetConfigFromFlags flags s) = Err e)
     /\ quiet s (snd (LinodeV4.SetConfigFromFlags flags s)))
  /\
  (forall W (given : gmap string FlagValue)
          (s : St LinodeV3.Driver W LinodeV3.Request),
     absent given "linode-api-key" \/ absent given "linode-root-pass" ->
     let flags := hostOptions LinodeV3.GetCreateFlags given in
     (exists e, fst (LinodeV3.SetConfigFromFlags flags s) = Err e)
     /\ quiet s (snd (LinodeV3.SetConfigFromFlags flags s)))
  /\
  (forall W (given : gmap string FlagValue)
          (s : St LinodeV4.Driver W LinodeV4.Request),
     absent given "linode-api-token" \/ absent given "linode-root-pass" ->
     let flags := hostOptions LinodeV4.GetCreateFlags given in
     (exists e, fst (LinodeV4.SetConfigFromFlags flags s) = Err e)
     /\ quiet s (snd (LinodeV4.SetConfigFromFlags flags s))).
Proof.
  assert (Q3 : forall W flags (s : St LinodeV3.Driver W LinodeV3.Request),
             quiet s (snd (LinodeV3.SetConfigFromFlags flags s))).
  { intros W flags s.
    destruct (LinodeV3.SetConfigFromFlags flags s) as [r s'] eqn:E.
    eapply SetConfigFromFlags3_quiet, E. }
  assert (Q4 : forall W flags (s : St LinodeV4.Driver W LinodeV4.Request),
             quiet s (snd (LinodeV4.SetConfigFromFlags flags s))).
  { intros W flags s.
    destruct (LinodeV4.SetConfigFromFlags flags s) as [r s'] eqn:E.
    eapply SetConfigFromFlags4_quiet, E. }
  split; [| split; [| split]]; intros W x s H; cbv zeta;
    (split; [| first [apply Q3 | apply Q4]]).
  - apply SetConfigFromFlags3_fails; assumption.
  - apply SetConfigFromFlags4_fails; assumption.
  - apply SetConfigFromFlags3_fails.
    destruct H as [H | H]; [left | right];
      apply hostOptions_absent3; auto.
  - apply SetConfigFromFlags4_fails. left. reflexivity.
Qed.

(** C5 on the options of a user who gave no root password (v3) and of
    one who gave no credential (v4). *)
Lemma C5_witness_missing_options :
  (let flags := hostOptions LinodeV3.GetCreateFlags
                  (<[ "linode-api-key" := VString "abc" ]> ∅) in
   (exists e, fst (LinodeV3.SetConfigFromFlags flags
                     (Script.start3 Script.fresh3)) = Err e)
   /\ quiet (Script.start3 Script.fresh3)
            (snd (LinodeV3.SetConfigFromFlags flags
                    (Script.start3 Script.fresh3))))
  /\
  (let flags := hostOptions LinodeV4.GetCreateFlags
                  (<[ "linode-root-pass" := VString "s3cret" ]> ∅) in
   (exists e, fst (LinodeV4.SetConfigFromFlags flags
                     (Script.start4 Script.fresh4)) = Err e)
   /\ quiet (Script.start4 Script.fresh4)
            (snd (LinodeV4.SetConfigFromFlags flags
                    (Script.start4 Script.fresh4)))).
Proof.
  split.
  - apply (proj1 (proj2 (proj2
             C5_binding_fails_without_credential_or_password)) unit).
    right. left. reflexivity.
  - apply (proj2 (proj2 (proj2
             C5_binding_fails_without_credential_or_password)) unit).
    left. left. reflexivity.
Defined.

(** In the v3 driver the outcome of configuration binding depends on the
    declared options only. *)
Lemma SetConfigFromFlags3_reads_declared W (f g : DriverOptions)
    (s : St LinodeV3.Driver W LinodeV3.Request) :
  agreeOn LinodeV3.GetCreateFlags f g ->
  LinodeV3.SetConfigFromFlags f s = LinodeV3.SetConfigFromFlags g s.
Proof.
  intros H.
  assert (Hs : forall n, In n (map flagName LinodeV3.GetCreateFlags) ->
                 optString f n = optString g n) by (intros; apply H; auto).
  assert (Hi : forall n, In n (map flagName LinodeV3.GetCreateFlags) ->
                 optInt f n = optInt g n) by (intros; apply H; auto).
  unfold LinodeV3.SetConfigFromFlags, LinodeV3.bindFlags, bind, modifyDrv,
    getDrv. simpl.
  rewrite !Hs, !Hi by (simpl; tauto). reflexivity.
Qed.

(** C10: in the v4 driver the credential is declared under the name
    [linode-api-token] (with the fallback variable [LINODE_TOKEN]) but
    read under the name [linode-token], which no declared flag bears.
    Hence binding the options of a user who gave both the credential and
    the root password fails, and the outcome of binding depends on an
    option outside the declared ones. *)
Theorem C10_v4_reads_the_credential_under_an_undeclared_name :
  In (StringFlag "linode-api-token" "Linode API Token" "LINODE_TOKEN" "")
     LinodeV4.GetCreateFlags
  /\ ~ In "linode-token" (map flagName LinodeV4.GetCreateFlags)
  /\ fst (LinodeV4.SetConfigFromFlags
            (hostOptions LinodeV4.GetCreateFlags Script.given4)
            (Script.start4 Script.fresh4))
     = Err "linode driver requires the --linode-token option"
  /\ (let f := hostOptions LinodeV4.GetCreateFlags Script.given4 in
      let g := {| optString := fun key =>
                    if String.eqb key "linode-token" then "abc"
                    else optString f key;
                  optInt := optInt f |} in
      agreeOn LinodeV4.GetCreateFlags f g
      /\ fst (LinodeV4.SetConfigFromFlags g (Script.start4 Script.fresh4))
         = Ok tt).
Proof.
  split; [simpl; tauto |].
  split; [simpl; intros H; repeat destruct H as [H | H];
          first [discriminate | contradiction] |].
  split; [vm_compute; reflexivity |].
  cbv zeta. split; [| vm_compute; reflexivity].
  intros n Hn. simpl in Hn.
  repeat destruct Hn as [<- | Hn]; try contradiction; split; reflexivity.
Qed.

(** ** The state mapping *)

Lemma GetState3_answer W (api : LinodeV3.API W)
    (s : St LinodeV3.Driver W LinodeV3.Request) :
  fst (LinodeV3.GetState api s)
  = stateOfAnswer3
      (fst (LinodeV3.Linode_List api (clientOf3 (drv s))
              (LinodeV3.LinodeId (drv s)) (world s))).
Proof.
  unfold LinodeV3.GetState, LinodeV3.getClient, clientOf3, bind, getDrv,
    modifyDrv, attempt, call, ret, panic. simpl.
  destruct (LinodeV3.client (drv s)) as [c |]; simpl;
    destruct (LinodeV3.Linode_List api _ _ (world s)) as [[e | [| l0 ls]] w'];
    reflexivity.
Qed.

Lemma GetState4_answer W (api : LinodeV4.API W)
    (s : St LinodeV4.Driver W LinodeV4.Request) :
  fst (LinodeV4.GetState api s)
  = stateOfAnswer4
      (fst (LinodeV4.GetInstance api (clientOf4 (drv s))
              (LinodeV4.InstanceID (drv s)) (world s))).
Proof.
  unfold LinodeV4.GetState, LinodeV4.getClient, clientOf4, bind, getDrv,
    modifyDrv, attempt, call, ret. simpl.
  destruct (LinodeV4.client (drv s)) as [c |]; simpl;
    destruct (LinodeV4.GetInstance api _ _ (world s)) as [[e | i] w'];
    reflexivity.
Qed.

Lemma stateOfStatus3_six (st : Z) : In (LinodeV3.stateOfStatus st) sixStates.
Proof.
  unfold LinodeV3.stateOfStatus, sixStates.
  repeat case_decide; simpl; tauto.
Qed.

Lemma stateOfStatus4_six (st : LinodeV4.InstanceStatus) :
  In (LinodeV4.stateOfStatus st) sixStates.
Proof.
  unfold LinodeV4.stateOfStatus, sixStates.
  repeat match goal with
         | |- context [if ?c then _ else _] => destruct c
         end; simpl; tauto.
Qed.

(** C1, and where the code departs from it.  As the claim says, in both
    drivers [GetState] maps the answer of the remote API to a state by a
    function, the state is one of starting, running, stopping, stopped,
    error and none, and it is error exactly when the call itself fails
    (then the error is returned too).  But the v4 [GetState] does not
    leave to none the statuses that the claim, and the comment on its
    own last line, leave to none: when the remote API reports the
    instance as deleting, migrating, rebuilding, cloning or restoring,
    [GetState] returns stopping, stopped, stopped, starting and starting,
    never none. *)
Theorem C1_v4_GetState_classifies_the_statuses_its_comment_leaves_to_none :
  (forall W (api : LinodeV3.API W) (s : St LinodeV3.Driver W LinodeV3.Request),
     fst (LinodeV3.GetState api s)
     = stateOfAnswer3
         (fst (LinodeV3.Linode_List api (clientOf3 (drv s))
                 (LinodeV3.LinodeId (drv s)) (world s))))
  /\ (forall e, stateOfAnswer3 (inl e) = Ok (state.Error, Some e))
  /\ (forall l0 ls,
        stateOfAnswer3 (inr (l0 :: ls))
        = Ok (LinodeV3.stateOfStatus (LinodeV3.Status l0), None))
  /\ (forall st, In (LinodeV3.stateOfStatus st) sixStates
                 /\ LinodeV3.stateOfStatus st <> state.Error)
  /\
  (forall W (api : LinodeV4.API W) (s : St LinodeV4.Driver W LinodeV4.Request),
     fst (LinodeV4.GetState api s)
     = stateOfAnswer4
         (fst (LinodeV4.GetInstance api (clientOf4 (drv s))
                 (LinodeV4.InstanceID (drv s)) (world s))))
  /\ (forall e, stateOfAnswer4 (inl e) = Ok (state.Error, Some e))
  /\ (forall i,
        stateOfAnswer4 (inr i)
        = Ok (LinodeV4.stateOfStatus (LinodeV4.Status i), None))
  /\ (forall st, In (LinodeV4.stateOfStatus st) sixStates
                 /\ LinodeV4.stateOfStatus st <> state.Error)
  /\
  (forall W (api : LinodeV4.API W) (s : St LinodeV4.Driver W LinodeV4.Request)
          (i : LinodeV4.Instance) (w' : W),
     LinodeV4.GetInstance api (clientOf4 (drv s))
       (LinodeV4.InstanceID (drv s)) (world s) = (inr i, w') ->
     In (LinodeV4.Status i) commentedStatuses ->
     fst (LinodeV4.GetState api s)
     = Ok (LinodeV4.stateOfStatus (LinodeV4.Status i), None)
     /\ LinodeV4.stateOfStatus (LinodeV4.Status i) <> state.None)
  /\ map LinodeV4.stateOfStatus commentedStatuses
     = [state.Stopping; state.Stopped; state.Stopped;
        state.Starting; state.Starting].
Proof.
  split; [exact GetState3_answer |].
  split; [reflexivity |].
  split; [reflexivity |].
  split.
  { intros st. split; [apply stateOfStatus3_six |].
    unfold LinodeV3.stateOfStatus. repeat case_decide; discriminate. }
  split; [exact GetState4_answer |].
  split; [reflexivity |].
  split; [reflexivity |].
  split.
  { intros st. split; [apply stateOfStatus4_six |].
    unfold LinodeV4.stateOfStatus.
    repeat match goal with
           | |- context [if ?c then _ else _] => destruct c
           end; discriminate. }
  split; [| reflexivity].
  intros W api s i w' Hans Hin.
  rewrite GetState4_answer, Hans. cbn [fst stateOfAnswer4].
  split; [reflexivity |].
  unfold commentedStatuses in Hin. simpl in Hin.
  destruct Hin as [<- | [<- | [<- | [<- | [<- | []]]]]]; discriminate.
Qed.

(** C1 on a v4 world that reports the instance as migrating: [GetState]
    returns stopped, not none. *)
Lemma C1_witness_migrating :
  let api := Script.v4 (inl "unused") LinodeV4.InstanceMigrating in
  let s := Script.start4 Script.fresh4 in
  fst (LinodeV4.GetState api s) = Ok (state.Stopped, None)
  /\ state.Stopped <> state.None.
Proof.
  intros api s.
  destruct C1_v4_GetState_classifies_the_statuses_its_comment_leaves_to_none
    as (_ & _ & _ & _ & _ & _ & _ & _ & H & _).
  apply (H unit api s
           (LinodeV4.Build_Instance 0 LinodeV4.InstanceMigrating []) tt).
  - reflexivity.
  - simpl. tauto.
Defined.

(** ** The job-completion poller *)

Lemma pollJob_answer W (api : LinodeV3.API W) (jobId : Z) (jobName : string)
    (s : St LinodeV3.Driver W LinodeV3.Request) :
  fst (LinodeV3.pollJob api jobId jobName s)
  = match fst (LinodeV3.Job_List api (clientOf3 (drv s))
                 (LinodeV3.LinodeId (drv s)) jobId false (world s)) with
    | inl e => Err e
    | inr [] => Panic "index out of range"
    | inr (j0 :: _) =>
        if decide (LinodeV3.JobId j0 <> jobId)
        then Err ("Job " +:+ jobName +:+ " is not found.")
        else Ok (String.eqb (LinodeV3.HostSuccess j0) "1")
    end.
Proof.
  unfold LinodeV3.pollJob, LinodeV3.getClient, clientOf3, bind, getDrv,
    modifyDrv, call, ret, panic, fail, logDebug. simpl.
  destruct (LinodeV3.client (drv s)) as [c |]; simpl;
    destruct (LinodeV3.Job_List api _ _ jobId false (world s))
      as [[e | [| j0 js]] w']; simpl; try reflexivity;
    (destruct (decide (Z.of_nat (Datatypes.S (length js)) < 0)); [lia |]);
    destruct (decide (LinodeV3.JobId j0 <> jobId)); try reflexivity;
    destruct (String.eqb (LinodeV3.HostSuccess j0) "1"); reflexivity.
Qed.

(** The handle and the requested identifiers as the first poll of
    [waitForJob] finds them. *)
Lemma waitForJob_first_poll W (api : LinodeV3.API W) (jobId : Z)
    (jobName : string) (T : Z) (s : St LinodeV3.Driver W LinodeV3.Request)
    (n : nat) (w1 : W) :
  LinodeV3.select_ticks api T (world s) = (Datatypes.S n, w1) ->
  let s1 := mkSt (drv s) w1 (calls s)
              (debug s ++ ["Wait for job " +:+ jobName +:+ " completion..."]) in
  LinodeV3.waitForJob api jobId jobName T s
  = bind (LinodeV3.pollJob api jobId jobName)
         (fun finished : bool =>
            if finished then ret tt
            else LinodeV3.waitLoop api n jobId jobName T) s1.
Proof.
  intros E. unfold LinodeV3.waitForJob.
  unfold bind at 1. unfold logDebug at 1. simpl.
  unfold bind at 1. unfold localEff at 1. simpl. rewrite E. reflexivity.
Qed.

(** C3, at the failing input and beside it: when the timer lets
    [waitForJob] poll at least once and the job list of the first poll is
    empty, [waitForJob] does not return a "not found" error: indexing the
    empty list panics.  When the first job of that list bears another
    identifier, it does return the "not found" error. *)
Theorem C3_waitForJob_on_missing_jobs :
  forall W (api : LinodeV3.API W) (s : St LinodeV3.Driver W LinodeV3.Request)
         (jobId : Z) (jobName : string) (T : Z) (n : nat) (w1 w2 : W)
         (jobs : list LinodeV3.Job),
    LinodeV3.select_ticks api T (world s) = (Datatypes.S n, w1) ->
    LinodeV3.Job_List api (clientOf3 (drv s)) (LinodeV3.LinodeId (drv s))
      jobId false w1 = (inr jobs, w2) ->
    (jobs = [] ->
     fst (LinodeV3.waitForJob api jobId jobName T s) = Panic "index out of range")
    /\ (forall j0 js, jobs = j0 :: js -> LinodeV3.JobId j0 <> jobId ->
        fst (LinodeV3.waitForJob api jobId jobName T s)
        = Err ("Job " +:+ jobName +:+ " is not found.")).
Proof.
  intros W api s jobId jobName T n w1 w2 jobs Etick Ejobs.
  rewrite (waitForJob_first_poll W api jobId jobName T s n w1 Etick).
  cbv zeta. unfold bind at 1 2.
  match goal with
  | |- context [LinodeV3.pollJob api jobId jobName ?s1] =>
      pose proof (pollJob_answer W api jobId jobName s1) as P;
      destruct (LinodeV3.pollJob api jobId jobName s1) as [r s2]
  end.
  simpl in P. rewrite Ejobs in P. simpl in P.
  split.
  - intros ->. subst r. reflexivity.
  - intros j0 js -> Hne.
    destruct (decide (LinodeV3.JobId j0 <> jobId)); [| contradiction].
    subst r. reflexivity.
Qed.

(** C3 on a world whose job lists are empty. *)
Lemma C3_witness_empty_job_list :
  fst (LinodeV3.waitForJob (Script.v3 Script.onePublic (inr tt) (fun _ => []))
         7 "Create Disk Task" 60 (Script.start3 Script.bound3))
  = Panic "index out of range".
Proof.
  refine (proj1 (C3_waitForJob_on_missing_jobs unit
            (Script.v3 Script.onePublic (inr tt) (fun _ => []))
            (Script.start3 Script.bound3) 7 "Create Disk Task" 60
            59%nat tt tt [] _ _) _); reflexivity.
Defined.

(** ** Address selection *)

(** The v3 loop keeps the last address flagged public. *)
Lemma recordPublic_fold (ips : list LinodeV3.FullIPAddress) :
  forall d : LinodeV3.Driver,
    LinodeV3.IPAddress (fold_left LinodeV3.recordPublic ips d)
    = match last (publicOnes ips) with
      | Some a => LinodeV3.ipIPAddress a
      | None => LinodeV3.IPAddress d
      end.
Proof.
  induction ips as [| a ips IH]; intros d; simpl.
  - reflexivity.
  - rewrite IH. unfold publicOnes. rewrite filter_cons.
    unfold LinodeV3.recordPublic.
    destruct (decide (LinodeV3.IsPublic a = 1)) as [Hp | Hp].
    + rewrite last_cons.
      destruct (last (filter _ ips)); reflexivity.
    + reflexivity.
Qed.

(** The v4 loop records the first address that is not private, and
    nothing when there is none. *)
Lemma selectAddress_first W (ips : list net.IP)
    (s : St LinodeV4.Driver W LinodeV4.Request) :
  LinodeV4.selectAddress (map Some ips) s
  = (Ok tt,
     match firstRoutable ips with
     | Some a =>
         mkSt (LinodeV4.set_IPAddress (net.String_ a) (drv s))
              (world s) (calls s) (debug s)
     | None => s
     end).
Proof.
  unfold firstRoutable. induction ips as [| a ips IH]; simpl.
  - reflexivity.
  - destruct (negb (LinodeV4.privateIP a)); [reflexivity | exact IH].
Qed.

(** In the v4 driver, on a handle without a recorded address, address
    discovery records the first address that is not private, or fails
    with its own error and records nothing when every address is
    private. *)
Lemma stepAddressDiscovery4_first_routable W (fr : LinodeV4.Frame)
    (linode : LinodeV4.Instance) (ips : list net.IP)
    (s : St LinodeV4.Driver W LinodeV4.Request) :
  LinodeV4.linodeVar fr = Some linode ->
  LinodeV4.IPv4 linode = map Some ips ->
  LinodeV4.IPAddress (drv s) = "" ->
  match firstRoutable ips with
  | Some a =>
      LinodeV4.IPAddress (drv (snd (LinodeV4.stepAddressDiscovery fr s)))
      = net.String_ a
  | None =>
      LinodeV4.stepAddressDiscovery fr s
      = (Err "Linode IP Address is not found", s)
  end.
Proof.
  intros Hl Hips Hip.
  pose proof (selectAddress_first W ips s) as Hsel.
  destruct (firstRoutable ips) as [a |];
    unfold LinodeV4.stepAddressDiscovery, LinodeV4.deref; rewrite Hl;
    unfold bind at 1; unfold ret at 1; unfold bind at 1;
    rewrite Hips, Hsel.
  - unfold bind, getDrv, fail, logDebug, ret. simpl.
    destruct (String.eqb (net.String_ a) ""); reflexivity.
  - unfold bind, getDrv, fail. simpl. rewrite Hip. reflexivity.
Qed.

(** [privateIP] on a dotted address is membership in the three blocks. *)
Lemma bytes_forall (P : Z -> bool) :
  forallb P (seqZ 0 256) = true -> forall b, 0 <= b < 256 -> P b = true.
Proof.
  intros H b Hb. rewrite forallb_forall in H. apply H.
  apply list_elem_of_In, elem_of_seqZ. lia.
Qed.

Lemma privateIP_dotted (a b c d : Z) :
  0 <= a < 256 -> 0 <= b < 256 ->
  (LinodeV4.privateIP [a; b; c; d] = true <-> inPrivateBlocks a b).
Proof.
  intros Ha Hb.
  set (f := fun a b : Z =>
         Z.eqb 10 (Z.land a 255)
         || Z.eqb 172 (Z.land a 255) && Z.eqb 16 (Z.land b 240)
         || Z.eqb 192 (Z.land a 255) && Z.eqb 168 (Z.land b 255)).
  set (g := fun a b : Z =>
         Z.eqb a 10 || Z.eqb a 172 && Z.leb 16 b && Z.leb b 31
         || Z.eqb a 192 && Z.eqb b 168).
  assert (E1 : LinodeV4.privateIP [a; b; c; d] = f a b).
  { unfold LinodeV4.privateIP, net.Contains, f. simpl.
    rewrite !Z.land_0_r. simpl. rewrite !andb_true_r. reflexivity. }
  assert (E2 : f a b = g a b).
  { pose proof (bytes_forall
        (fun x => forallb (fun y => Bool.eqb (f x y) (g x y)) (seqZ 0 256))
        ltac:(vm_compute; reflexivity) a Ha) as H.
    simpl in H.
    pose proof (bytes_forall (fun y => Bool.eqb (f a y) (g a y)) H b Hb) as H'.
    apply Bool.eqb_prop, H'. }
  rewrite E1, E2. unfold g, inPrivateBlocks.
  rewrite !orb_true_iff, !andb_true_iff, !Z.eqb_eq, !Z.leb_le. tauto.
Qed.

(** ** The create workflow *)

Lemma runSteps_app {S F} (pre rest : list (F -> M S F)) :
  forall (fr : F) (s : S),
    runSteps (pre ++ rest) fr s = bind (runSteps pre fr) (runSteps rest) s.
Proof.
  induction pre as [| step pre IH]; intros fr s; simpl.
  - reflexivity.
  - unfold bind at 1 2 3. destruct (step fr s) as [[fr' | e | p] s1].
    + rewrite IH. reflexivity.
    + reflexivity.
    + reflexivity.
Qed.

(** A run that fails in the step that follows [pre] ends there. *)
Lemma runSteps_fails_at {S F} (pre post : list (F -> M S F)) (step : F -> M S F)
    (fr0 fr : F) (s s1 s' : S) (e : error) :
  runSteps pre fr0 s = (Ok fr, s1) ->
  step fr s1 = (Err e, s') ->
  runSteps (pre ++ step :: post) fr0 s = (Err e, s').
Proof.
  intros Hpre Hstep. rewrite runSteps_app. unfold bind at 1. rewrite Hpre.
  simpl. unfold bind at 1. rewrite Hstep. reflexivity.
Qed.

Lemma runSteps_split {S F} (pre post : list (F -> M S F)) (step : F -> M S F)
    (fr0 fr : F) (s s1 : S) :
  runSteps pre fr0 s = (Ok fr, s1) ->
  runSteps (pre ++ step :: post) fr0 s = bind (step fr) (runSteps post) s1.
Proof.
  intros Hpre. rewrite runSteps_app. unfold bind at 1. rewrite Hpre.
  reflexivity.
Qed.

Ltac close_extends :=
  first
    [ exists []; split; [simpl; rewrite app_nil_r; reflexivity | constructor]
    | eexists [_]; split; [reflexivity | repeat constructor] ].

Lemma createSteps3_no_delete W (api : LinodeV3.API W) :
  Forall (fun step => forall fr, stable (extends notDelete3) (step fr))
         (LinodeV3.createSteps api).
Proof.
  unfold LinodeV3.createSteps.
  repeat (apply Forall_cons_2; [intros fr; stab; close_extends |]).
  apply Forall_nil_2.
Qed.

Lemma createSteps4_no_delete W (api : LinodeV4.API W) :
  Forall (fun step => forall fr, stable (extends notDelete4) (step fr))
         (LinodeV4.createSteps api).
Proof.
  unfold LinodeV4.createSteps.
  repeat (apply Forall_cons_2; [intros fr; stab; close_extends |]).
  apply Forall_nil_2.
Qed.

Lemma Create3_no_delete W (api : LinodeV3.API W) :
  stable (extends notDelete3) (LinodeV3.Create api).
Proof.
  unfold LinodeV3.Create.
  apply stable_bind; [exact (extends_trans _) | |].
  - apply stable_runSteps;
      [exact (extends_refl _) | exact (extends_trans _) |].
    apply createSteps3_no_delete.
  - intros _. apply stable_ret. exact (extends_refl _).
Qed.

Lemma Create4_no_delete W (api : LinodeV4.API W) :
  stable (extends notDelete4) (LinodeV4.Create api).
Proof.
  unfold LinodeV4.Create.
  apply stable_bind; [exact (extends_trans _) | |].
  - apply stable_runSteps;
      [exact (extends_refl _) | exact (extends_trans _) |].
    apply createSteps4_no_delete.
  - intros _. apply stable_ret. exact (extends_refl _).
Qed.

(** The error of the last step is built from the error of the wait. *)
Lemma stepRunningPoll3_error W (api : LinodeV3.API W) (fr : LinodeV3.Frame)
    (s s' : St LinodeV3.Driver W LinodeV3.Request) (e : error) :
  WaitForSpecific (LinodeV3.MachineInState api state.Running) 120 120
    (mkSt (drv s) (world s) (calls s)
          (debug s ++ ["Waiting for Machine Running..."]))
  = (Err e, s') ->
  LinodeV3.stepRunningPoll api fr s = (Err (LinodeV3.wrapRunning e), s').
Proof.
  intros H. unfold LinodeV3.stepRunningPoll.
  unfold bind at 1. unfold logDebug at 1. cbn beta iota.
  unfold bind at 1. unfold attempt at 1. rewrite H. reflexivity.
Qed.

Lemma stepRunningPoll4_error W (api : LinodeV4.API W) (fr : LinodeV4.Frame)
    (c : LinodeV4.Client) (s : St LinodeV4.Driver W LinodeV4.Request)
    (e : error) (w' : W) :
  LinodeV4.clientVar fr = Some c ->
  LinodeV4.WaitForInstanceStatus api c (LinodeV4.InstanceID (drv s))
    LinodeV4.InstanceRunning 120 (world s) = (inl e, w') ->
  fst (LinodeV4.stepRunningPoll api fr s) = Err (LinodeV4.wrapRunning e).
Proof.
  intros Hc H. unfold LinodeV4.stepRunningPoll, LinodeV4.deref. rewrite Hc.
  unfold bind, logDebug, ret, getDrv, attempt, call, fail. simpl.
  rewrite H. reflexivity.
Qed.

(** C6: in both drivers, when the steps of [Create] that precede a step
    succeed and that step returns an error, [Create] returns that very
    error in the very state the step ended in: no later step runs and
    the world is as the failing step left it.  No request issued from
    the start of [Create] to that point is a deletion, and no run of
    [Create], whatever its outcome, issues one.  The error of the last
    step is the one built at the end of [Create]: the message of the
    failed wait after a fixed prefix. *)
Theorem C6_create_stops_at_the_first_failing_step :
  (forall W (api : LinodeV3.API W)
          (pre post : list (LinodeV3.Frame -> M _ LinodeV3.Frame))
          (step : LinodeV3.Frame -> M _ LinodeV3.Frame)
          (s s1 s' : St LinodeV3.Driver W LinodeV3.Request)
          (fr : LinodeV3.Frame) (e : error),
     LinodeV3.createSteps api = pre ++ step :: post ->
     runSteps pre LinodeV3.frame0 s = (Ok fr, s1) ->
     step fr s1 = (Err e, s') ->
     LinodeV3.Create api s = (Err e, s') /\ extends notDelete3 s s')
  /\ (forall W (api : LinodeV3.API W),
        stable (extends notDelete3) (LinodeV3.Create api))
  /\
  (forall W (api : LinodeV4.API W)
          (pre post : list (LinodeV4.Frame -> M _ LinodeV4.Frame))
          (step : LinodeV4.Frame -> M _ LinodeV4.Frame)
          (s s1 s' : St LinodeV4.Driver W LinodeV4.Request)
          (fr : LinodeV4.Frame) (e : error),
     LinodeV4.createSteps api = pre ++ step :: post ->
     runSteps pre LinodeV4.frame0 s = (Ok fr, s1) ->
     step fr s1 = (Err e, s') ->
     LinodeV4.Create api s = (Err e, s') /\ extends notDelete4 s s')
  /\ (forall W (api : LinodeV4.API W),
        stable (extends notDelete4) (LinodeV4.Create api))
  /\
  (forall W (api : LinodeV3.API W) (fr : LinodeV3.Frame)
          (s s' : St LinodeV3.Driver W LinodeV3.Request) (e : error),
     WaitForSpecific (LinodeV3.MachineInState api state.Running) 120 120
       (mkSt (drv s) (world s) (calls s)
             (debug s ++ ["Waiting for Machine Running..."]))
     = (Err e, s') ->
     LinodeV3.stepRunningPoll api fr s = (Err (LinodeV3.wrapRunning e), s'))
  /\
  (forall W (api : LinodeV4.API W) (fr : LinodeV4.Frame) (c : LinodeV4.Client)
          (s : St LinodeV4.Driver W LinodeV4.Request) (e : error) (w' : W),
     LinodeV4.clientVar fr = Some c ->
     LinodeV4.WaitForInstanceStatus api c (LinodeV4.InstanceID (drv s))
       LinodeV4.InstanceRunning 120 (world s) = (inl e, w') ->
     fst (LinodeV4.stepRunningPoll api fr s) = Err (LinodeV4.wrapRunning e)).
Proof.
  split; [| split; [exact Create3_no_delete | split;
                    [| split; [exact Create4_no_delete | split;
                       [exact stepRunningPoll3_error
                       | exact stepRunningPoll4_error]]]]].
  - intros W api pre post step s s1 s' fr e Hsteps Hpre Hstep.
    assert (Hrun : LinodeV3.Create api s = (Err e, s')).
    { unfold LinodeV3.Create. rewrite Hsteps. unfold bind at 1.
      rewrite (runSteps_fails_at pre post step _ fr s s1 s' e Hpre Hstep).
      reflexivity. }
    split; [exact Hrun |]. eapply Create3_no_delete, Hrun.
  - intros W api pre post step s s1 s' fr e Hsteps Hpre Hstep.
    assert (Hrun : LinodeV4.Create api s = (Err e, s')).
    { unfold LinodeV4.Create. rewrite Hsteps. unfold bind at 1.
      rewrite (runSteps_fails_at pre post step _ fr s s1 s' e Hpre Hstep).
      reflexivity. }
    split; [exact Hrun |]. eapply Create4_no_delete, Hrun.
Qed.

(** C6 on a v3 world that refuses the label: [Create] ends at the
    labeling step, the allocated instance is not deleted. *)
Lemma C6_witness_label_refused :
  let api := Script.v3 Script.onePublic (inl "label taken") Script.jobDone in
  let s := Script.start3 Script.labelled3 in
  exists s',
    (LinodeV3.Create api s = (Err "label taken", s')
     /\ extends notDelete3 s s')
    /\ calls s' = [LinodeV3.RqLinodeCreate 2 1 1;
                   LinodeV3.RqLinodeUpdate 42 {[ "Label" := "web" ]}].
Proof.
  intros api s. eexists. split.
  - eapply (proj1 C6_create_stops_at_the_first_failing_step unit api
              [LinodeV3.stepKeyGeneration api; LinodeV3.stepAllocation api]
              (drop 3 (LinodeV3.createSteps api))
              (LinodeV3.stepLabeling api)).
    + reflexivity.
    + vm_compute. reflexivity.
    + vm_compute. reflexivity.
  - vm_compute. reflexivity.
Defined.

(** ** The identifier of the instance *)

Lemma bind_Ok_inv {S A B} (m : M S A) (f : A -> M S B) (s s' : S) (b : B) :
  bind m f s = (Ok b, s') ->
  exists a s1, m s = (Ok a, s1) /\ f a s1 = (Ok b, s').
Proof.
  unfold bind. destruct (m s) as [[a | e | p] s1]; intros H;
    [eauto | discriminate | discriminate].
Qed.

Lemma getClient3_inv W (s s' : St LinodeV3.Driver W LinodeV3.Request)
    (c : LinodeV3.Client) :
  LinodeV3.getClient s = (Ok c, s') ->
  c = clientOf3 (drv s') /\ LinodeV3.client (drv s') = Some c.
Proof.
  unfold LinodeV3.getClient, clientOf3, bind, getDrv, modifyDrv, ret. simpl.
  destruct (LinodeV3.client (drv s)) as [c0 |] eqn:E; simpl;
    intros [= <- <-]; simpl; [rewrite E |]; auto.
Qed.

Lemma stepKeyGeneration3_client W (api : LinodeV3.API W)
    (fr0 fr : LinodeV3.Frame) (s s1 : St LinodeV3.Driver W LinodeV3.Request) :
  LinodeV3.stepKeyGeneration api fr0 s = (Ok fr, s1) ->
  LinodeV3.clientVar fr = Some (clientOf3 (drv s1)).
Proof.
  unfold LinodeV3.stepKeyGeneration. intros H.
  apply bind_Ok_inv in H as (? & sa & _ & H).
  apply bind_Ok_inv in H as (key & sb & _ & H).
  apply bind_Ok_inv in H as (c & sc & Hc & H).
  injection H as <- <-. simpl.
  apply getClient3_inv in Hc as [-> _]. reflexivity.
Qed.

Lemma stepAllocation3_run W (api : LinodeV3.API W) (fr : LinodeV3.Frame)
    (c : LinodeV3.Client) (s : St LinodeV3.Driver W LinodeV3.Request) :
  LinodeV3.clientVar fr = Some c ->
  let d := drv s in
  let rq := LinodeV3.RqLinodeCreate (LinodeV3.DataCenterId d)
              (LinodeV3.PlanId d) (LinodeV3.PaymentTerm d) in
  LinodeV3.stepAllocation api fr s
  = match LinodeV3.Linode_Create api c (LinodeV3.DataCenterId d)
            (LinodeV3.PlanId d) (LinodeV3.PaymentTerm d) (world s) with
    | (inl e, w') =>
        (Err e, mkSt d w' (calls s ++ [rq])
                  (debug s ++ ["Creating linode instance"]))
    | (inr id, w') =>
        (Ok fr, mkSt (LinodeV3.set_LinodeId id d) w' (calls s ++ [rq])
                  ((debug s ++ ["Creating linode instance"])
                   ++ ["Linode created: " +:+ pretty id]))
    end.
Proof.
  intros Hc. cbv zeta.
  unfold LinodeV3.stepAllocation, LinodeV3.frameClient. rewrite Hc.
  unfold bind, ret, logDebug, getDrv, call, modifyDrv. simpl.
  destruct (LinodeV3.Linode_Create api c _ _ _ (world s)) as [[e | id] w'];
    reflexivity.
Qed.

Lemma recordPublic_fold_id (ips : list LinodeV3.FullIPAddress) :
  forall d : LinodeV3.Driver,
    LinodeV3.LinodeId (fold_left LinodeV3.recordPublic ips d)
    = LinodeV3.LinodeId d.
Proof.
  induction ips as [| a ips IH]; intros d; simpl; [reflexivity |].
  rewrite IH. unfold LinodeV3.recordPublic.
  destruct (decide (LinodeV3.IsPublic a = 1)); reflexivity.
Qed.

Lemma stepKeyGeneration3_keeps_id W (api : LinodeV3.API W) (fr : LinodeV3.Frame) :
  stable (keeps LinodeV3.LinodeId) (LinodeV3.stepKeyGeneration api fr).
Proof. stab; reflexivity. Qed.

Lemma laterSteps3_keep_id W (api : LinodeV3.API W) :
  Forall (fun step => forall fr, stable (keeps LinodeV3.LinodeId) (step fr))
         (drop 2 (LinodeV3.createSteps api)).
Proof.
  unfold LinodeV3.createSteps. simpl.
  repeat (apply Forall_cons_2;
          [intros fr; stab;
           first [reflexivity | apply recordPublic_fold_id] |]).
  apply Forall_nil_2.
Qed.

(** How a run of the v3 [Create] treats the identifier: either key
    generation or the allocation call fails, [Create] fails and the
    identifier is the one the handle had; or the allocation call returns
    an identifier, which the handle holds from then on. *)
Lemma Create3_identifier W (api : LinodeV3.API W)
    (s s' : St LinodeV3.Driver W LinodeV3.Request) (r : Res unit) :
  LinodeV3.Create api s = (r, s') ->
  (LinodeV3.LinodeId (drv s') = LinodeV3.LinodeId (drv s) /\ r <> Ok tt
   /\ forall id, ~ allocated3 api s id)
  \/ (exists id, allocated3 api s id /\ LinodeV3.LinodeId (drv s') = id
                 /\ forall id', allocated3 api s id' -> id' = id).
Proof.
  unfold LinodeV3.Create, LinodeV3.createSteps.
  change (runSteps (?a :: ?b :: ?rest) ?f)
    with (bind (a f) (fun f1 => bind (b f1) (fun f2 => runSteps rest f2))).
  unfold bind at 1 2.
  destruct (LinodeV3.stepKeyGeneration api LinodeV3.frame0 s)
    as [[fr | e | p] s1] eqn:Ekey.
  2,3: intros [= <- <-]; left; split;
       [ eapply stepKeyGeneration3_keeps_id, Ekey
       | split; [discriminate
                | intros id (? & ? & ? & Hk & _); rewrite Ekey in Hk;
                  discriminate] ].
  pose proof (stepKeyGeneration3_keeps_id W api _ _ _ _ Ekey) as Kkey.
  pose proof (stepKeyGeneration3_client W api _ _ _ _ Ekey) as Hc.
  unfold bind at 1.
  rewrite (stepAllocation3_run W api fr _ s1 Hc). cbv zeta.
  destruct (LinodeV3.Linode_Create api (clientOf3 (drv s1)) _ _ _ (world s1))
    as [[e | id] w'] eqn:Ealloc.
  - intros [= <- <-]. left. simpl. split; [exact Kkey |].
    split; [discriminate |].
    intros id (fr' & s1' & w'' & Hk & Ha). rewrite Ekey in Hk.
    injection Hk as <- <-. rewrite Ealloc in Ha. discriminate.
  - intros Hrest. right. exists id.
    assert (Hal : allocated3 api s id) by (exists fr, s1, w'; auto).
    split; [exact Hal |]. split.
    + match type of Hrest with
      | context [runSteps ?rest fr ?s2] =>
          destruct (runSteps rest fr s2) as [rr s3] eqn:Erest;
          assert (K : keeps LinodeV3.LinodeId s2 s3)
            by (eapply (stable_runSteps _ (keeps_refl _) (keeps_trans _));
                [apply (laterSteps3_keep_id W api) | exact Erest])
      end.
      unfold keeps in K. simpl in K.
      destruct rr; injection Hrest as <- <-; exact K.
    + intros id' (fr' & s1' & w'' & Hk & Ha). rewrite Ekey in Hk.
      injection Hk as <- <-. rewrite Ealloc in Ha. congruence.
Qed.

(** C7, as the code has it: in the v3 driver the identifier of the handle
    keeps the value it had until the allocation call inside [Create]
    returns an identifier (a run in which it does not cannot succeed);
    from then on, whether or not [Create] goes on to succeed, the handle
    holds the identifier the allocation call returned; in particular it
    does after a successful [Create].  In both drivers no sequence of
    later operations (start, stop, restart, kill, remove, get-state,
    get-IP, get-URL and the other methods but [Create]) changes the
    identifier or the recorded address. *)
Theorem C7_identifier_set_at_allocation_then_kept :
  (forall W (api : LinodeV3.API W)
          (s s' : St LinodeV3.Driver W LinodeV3.Request) (r : Res unit),
     LinodeV3.Create api s = (r, s') ->
     (LinodeV3.LinodeId (drv s') = LinodeV3.LinodeId (drv s) /\ r <> Ok tt
      /\ forall id, ~ allocated3 api s id)
     \/ (exists id, allocated3 api s id /\ LinodeV3.LinodeId (drv s') = id
                    /\ forall id', allocated3 api s id' -> id' = id))
  /\
  (forall W (api : LinodeV3.API W)
          (s s' : St LinodeV3.Driver W LinodeV3.Request),
     LinodeV3.Create api s = (Ok tt, s') ->
     exists id, allocated3 api s id /\ LinodeV3.LinodeId (drv s') = id)
  /\
  (forall W (api : LinodeV3.API W) (ops : list V3Ops.Op)
          (s : St LinodeV3.Driver W LinodeV3.Request),
     LinodeV3.LinodeId (drv (V3Ops.runOps api ops s)) = LinodeV3.LinodeId (drv s)
     /\ LinodeV3.IPAddress (drv (V3Ops.runOps api ops s))
        = LinodeV3.IPAddress (drv s))
  /\
  (forall W (api : LinodeV4.API W) (ops : list V4Ops.Op)
          (s : St LinodeV4.Driver W LinodeV4.Request),
     LinodeV4.InstanceID (drv (V4Ops.runOps api ops s))
     = LinodeV4.InstanceID (drv s)
     /\ LinodeV4.IPAddress (drv (V4Ops.runOps api ops s))
        = LinodeV4.IPAddress (drv s)).
Proof.
  split; [exact Create3_identifier |].
  split.
  { intros W api s s' H.
    destruct (Create3_identifier W api s s' (Ok tt) H)
      as [(_ & Hne & _) | (id & Ha & Hid & _)].
    - contradiction.
    - exists id. auto. }
  split.
  - intros W api ops s. pose proof (runOps3_keeps W api ops s) as K.
    unfold keeps, idAndIP3 in K. injection K as K1 K2. auto.
  - intros W api ops s. pose proof (runOps4_keeps W api ops s) as K.
    unfold keeps, idAndIP4 in K. injection K as K1 K2. auto.
Qed.

(** C7 on a v3 world in which every call succeeds: after [Create] the
    handle holds the identifier 42 that the allocation call returned. *)
Lemma C7_witness_successful_create :
  let api := Script.v3 Script.onePublic (inr tt) Script.jobDone in
  let s := Script.start3 Script.bound3 in
  exists id, allocated3 api s id
             /\ LinodeV3.LinodeId (drv (snd (LinodeV3.Create api s))) = id.
Proof.
  cbv zeta.
  apply (proj1 (proj2 C7_identifier_set_at_allocation_then_kept) unit
           (Script.v3 Script.onePublic (inr tt) Script.jobDone)
           (Script.start3 Script.bound3)).
  vm_compute. reflexivity.
Defined.

(** C7 fails as stated: on a v3 world that refuses the label, [Create]
    fails, and yet the handle, which held no identifier before, holds
    the identifier of the instance that was allocated. *)
Lemma C7_counterexample_identifier_without_success :
  let api := Script.v3 Script.onePublic (inl "label taken") Script.jobDone in
  let run := LinodeV3.Create api (Script.start3 Script.labelled3) in
  LinodeV3.LinodeId Script.labelled3 = 0
  /\ fst run = Err "label taken"
  /\ LinodeV3.LinodeId (drv (snd run)) = 42.
Proof.
  cbv zeta. repeat split; vm_compute; reflexivity.
Qed.

(** ** Address selection inside Create *)

Lemma stepAddressDiscovery3_run W (api : LinodeV3.API W) (fr : LinodeV3.Frame)
    (c : LinodeV3.Client) (ips : list LinodeV3.FullIPAddress)
    (s : St LinodeV3.Driver W LinodeV3.Request) (w' : W) :
  LinodeV3.clientVar fr = Some c ->
  LinodeV3.Ip_List api c (LinodeV3.LinodeId (drv s)) (-1) (world s)
  = (inr ips, w') ->
  let d' := fold_left LinodeV3.recordPublic ips (drv s) in
  fst (LinodeV3.stepAddressDiscovery api fr s)
  = (if String.eqb (LinodeV3.IPAddress d') "" then Err noAddress3 else Ok fr)
  /\ drv (snd (LinodeV3.stepAddressDiscovery api fr s)) = d'.
Proof.
  intros Hc Hips. cbv zeta.
  unfold LinodeV3.stepAddressDiscovery, LinodeV3.frameClient. rewrite Hc.
  unfold bind, ret, getDrv, call, modifyDrv, fail, logDebug. simpl.
  rewrite Hips. simpl.
  destruct (String.eqb
              (LinodeV3.IPAddress (fold_left LinodeV3.recordPublic ips (drv s)))
              ""); split; reflexivity.
Qed.

Lemma stepsButDiscovery3_keep_ip W (api : LinodeV3.API W) :
  Forall (fun step => forall fr, stable (keeps LinodeV3.IPAddress) (step fr))
         (beforeDiscovery3 api ++ drop 4 (LinodeV3.createSteps api)).
Proof.
  unfold beforeDiscovery3, LinodeV3.createSteps. simpl.
  repeat (apply Forall_cons_2; [intros fr; stab; reflexivity |]).
  apply Forall_nil_2.
Qed.

Lemma stepsButDiscovery4_keep_ip W (api : LinodeV4.API W) :
  Forall (fun step => forall fr, stable (keeps LinodeV4.IPAddress) (step fr))
         (beforeDiscovery4 api ++ drop 3 (LinodeV4.createSteps api)).
Proof.
  unfold beforeDiscovery4, LinodeV4.createSteps. simpl.
  repeat (apply Forall_cons_2; [intros fr; stab; reflexivity |]).
  apply Forall_nil_2.
Qed.

(** A run of [Create] whose steps before address discovery succeed ends
    with the address that discovery leaves in the handle, and fails with
    the error of discovery when discovery fails. *)
Lemma Create3_after_discovery W (api : LinodeV3.API W)
    (s s1 : St LinodeV3.Driver W LinodeV3.Request) (fr : LinodeV3.Frame) :
  runSteps (beforeDiscovery3 api) LinodeV3.frame0 s = (Ok fr, s1) ->
  LinodeV3.IPAddress (drv s1) = LinodeV3.IPAddress (drv s)
  /\ LinodeV3.IPAddress (drv (snd (LinodeV3.Create api s)))
     = LinodeV3.IPAddress (drv (snd (LinodeV3.stepAddressDiscovery api fr s1)))
  /\ forall e, fst (LinodeV3.stepAddressDiscovery api fr s1) = Err e ->
               fst (LinodeV3.Create api s) = Err e.
Proof.
  intros Hpre.
  pose proof (stepsButDiscovery3_keep_ip W api) as K.
  apply Forall_app in K as [Kpre Kpost].
  split.
  { change (keeps LinodeV3.IPAddress s s1).
    eapply (stable_runSteps _ (keeps_refl _) (keeps_trans _) _ Kpre), Hpre. }
  assert (E : LinodeV3.Create api s
              = match bind (LinodeV3.stepAddressDiscovery api fr)
                        (runSteps (drop 4 (LinodeV3.createSteps api))) s1 with
                | (Ok _, s') => (Ok tt, s')
                | (Err e, s') => (Err e, s')
                | (Panic p, s') => (Panic p, s')
                end).
  { unfold LinodeV3.Create.
    change (LinodeV3.createSteps api)
      with (beforeDiscovery3 api
            ++ LinodeV3.stepAddressDiscovery api
               :: drop 4 (LinodeV3.createSteps api)).
    unfold bind at 1. rewrite (runSteps_split _ _ _ _ _ _ _ Hpre).
    destruct (bind _ _ s1) as [[? | ? | ?] ?]; reflexivity. }
  rewrite E. unfold bind.
  destruct (LinodeV3.stepAddressDiscovery api fr s1) as [[fr' | e | p] s2];
    cbn [fst snd];
    [| split; [reflexivity | intros ? [= <-]; reflexivity]
     | split; [reflexivity | discriminate] ].
  match goal with
  | |- context [runSteps ?rest fr' s2] =>
      destruct (runSteps rest fr' s2) as [rr s3] eqn:Erest;
      assert (K3 : keeps LinodeV3.IPAddress s2 s3)
        by (eapply (stable_runSteps _ (keeps_refl _) (keeps_trans _));
            [exact Kpost | exact Erest])
  end.
  split; [| discriminate].
  destruct rr; cbn [fst snd]; exact K3.
Qed.

Lemma Create4_after_discovery W (api : LinodeV4.API W)
    (s s1 : St LinodeV4.Driver W LinodeV4.Request) (fr : LinodeV4.Frame) :
  runSteps (beforeDiscovery4 api) LinodeV4.frame0 s = (Ok fr, s1) ->
  LinodeV4.IPAddress (drv s1) = LinodeV4.IPAddress (drv s)
  /\ LinodeV4.IPAddress (drv (snd (LinodeV4.Create api s)))
     = LinodeV4.IPAddress (drv (snd (LinodeV4.stepAddressDiscovery fr s1)))
  /\ forall e, fst (LinodeV4.stepAddressDiscovery fr s1) = Err e ->
               fst (LinodeV4.Create api s) = Err e.
Proof.
  intros Hpre.
  pose proof (stepsButDiscovery4_keep_ip W api) as K.
  apply Forall_app in K as [Kpre Kpost].
  split.
  { change (keeps LinodeV4.IPAddress s s1).
    eapply (stable_runSteps _ (keeps_refl _) (keeps_trans _) _ Kpre), Hpre. }
  assert (E : LinodeV4.Create api s
              = match bind (LinodeV4.stepAddressDiscovery fr)
                        (runSteps (drop 3 (LinodeV4.createSteps api))) s1 with
                | (Ok _, s') => (Ok tt, s')
                | (Err e, s') => (Err e, s')
                | (Panic p, s') => (Panic p, s')
                end).
  { unfold LinodeV4.Create.
    change (LinodeV4.createSteps api)
      with (beforeDiscovery4 api
            ++ LinodeV4.stepAddressDiscovery
               :: drop 3 (LinodeV4.createSteps api)).
    unfold bind at 1. rewrite (runSteps_split _ _ _ _ _ _ _ Hpre).
    destruct (bind _ _ s1) as [[? | ? | ?] ?]; reflexivity. }
  rewrite E. unfold bind.
  destruct (LinodeV4.stepAddressDiscovery fr s1) as [[fr' | e | p] s2];
    cbn [fst snd];
    [| split; [reflexivity | intros ? [= <-]; reflexivity]
     | split; [reflexivity | discriminate] ].
  match goal with
  | |- context [runSteps ?rest fr' s2] =>
      destruct (runSteps rest fr' s2) as [rr s3] eqn:Erest;
      assert (K3 : keeps LinodeV4.IPAddress s2 s3)
        by (eapply (stable_runSteps _ (keeps_refl _) (keeps_trans _));
            [exact Kpost | exact Erest])
  end.
  split; [| discriminate].
  destruct rr; cbn [fst snd]; exact K3.
Qed.

(** [firstRoutable] is the first address that [privateIP] rejects. *)
Lemma firstRoutable_spec (ips : list net.IP) :
  match firstRoutable ips with
  | Some a =>
      exists before after,
        ips = before ++ a :: after
        /\ LinodeV4.privateIP a = false
        /\ Forall (fun b => LinodeV4.privateIP b = true) before
  | None => Forall (fun b => LinodeV4.privateIP b = true) ips
  end.
Proof.
  unfold firstRoutable. induction ips as [| x ips IH]; simpl.
  - apply Forall_nil_2.
  - destruct (LinodeV4.privateIP x) eqn:Ex; simpl.
    + destruct (find _ ips) as [a |].
      * destruct IH as (before & after & -> & Ha & Hb).
        exists (x :: before), after. repeat split; auto.
      * apply Forall_cons_2; assumption.
    + exists [], ips. repeat split; auto.
Qed.

(** C2, as the code has it.  On a handle without a recorded address, once
    the steps before address discovery have succeeded: the v4 [Create]
    records the text of the first address of the answer that lies
    outside the three private blocks, whatever follows, and when every
    address is private it returns its "not found" error and records
    nothing; the v3 [Create] records an address that the API flags
    public, and when the API flags none it returns its "not found" error
    and records nothing. *)
Theorem C2_create_records_a_public_address_or_fails :
  (forall W (api : LinodeV4.API W)
          (s s1 : St LinodeV4.Driver W LinodeV4.Request)
          (fr : LinodeV4.Frame) (linode : LinodeV4.Instance)
          (ips : list net.IP),
     LinodeV4.IPAddress (drv s) = "" ->
     runSteps (beforeDiscovery4 api) LinodeV4.frame0 s = (Ok fr, s1) ->
     LinodeV4.linodeVar fr = Some linode ->
     LinodeV4.IPv4 linode = map Some ips ->
     match firstRoutable ips with
     | Some a =>
         LinodeV4.IPAddress (drv (snd (LinodeV4.Create api s))) = net.String_ a
         /\ exists before after,
              ips = before ++ a :: after
              /\ LinodeV4.privateIP a = false
              /\ Forall (fun b => LinodeV4.privateIP b = true) before
     | None =>
         fst (LinodeV4.Create api s) = Err noAddress4
         /\ LinodeV4.IPAddress (drv (snd (LinodeV4.Create api s))) = ""
     end)
  /\
  (forall a b c d, 0 <= a < 256 -> 0 <= b < 256 ->
     (LinodeV4.privateIP [a; b; c; d] = true <-> inPrivateBlocks a b))
  /\
  (forall W (api : LinodeV3.API W)
          (s s1 : St LinodeV3.Driver W LinodeV3.Request)
          (fr : LinodeV3.Frame) (c : LinodeV3.Client)
          (ips : list LinodeV3.FullIPAddress) (w' : W),
     LinodeV3.IPAddress (drv s) = "" ->
     runSteps (beforeDiscovery3 api) LinodeV3.frame0 s = (Ok fr, s1) ->
     LinodeV3.clientVar fr = Some c ->
     LinodeV3.Ip_List api c (LinodeV3.LinodeId (drv s1)) (-1) (world s1)
     = (inr ips, w') ->
     (publicOnes ips = [] ->
      fst (LinodeV3.Create api s) = Err noAddress3
      /\ LinodeV3.IPAddress (drv (snd (LinodeV3.Create api s))) = "")
     /\ (publicOnes ips <> [] ->
         exists a, In a (publicOnes ips)
                   /\ LinodeV3.IPAddress (drv (snd (LinodeV3.Create api s)))
                      = LinodeV3.ipIPAddress a)).
Proof.
  split; [| split; [exact privateIP_dotted |]].
  - intros W api s s1 fr linode ips Hip Hpre Hl Hips.
    destruct (Create4_after_discovery W api s s1 fr Hpre) as (K1 & K2 & K3).
    rewrite Hip in K1.
    pose proof (stepAddressDiscovery4_first_routable W fr linode ips s1
                  Hl Hips K1) as D.
    pose proof (firstRoutable_spec ips) as F.
    destruct (firstRoutable ips) as [a |].
    + split; [congruence | exact F].
    + rewrite D in K2, K3. simpl in K2, K3. split; [| congruence].
      apply K3. reflexivity.
  - intros W api s s1 fr c ips w' Hip Hpre Hc Hips.
    destruct (Create3_after_discovery W api s s1 fr Hpre) as (K1 & K2 & K3).
    rewrite Hip in K1.
    destruct (stepAddressDiscovery3_run W api fr c ips s1 w' Hc Hips)
      as [D1 D2].
    rewrite D2, recordPublic_fold in K2.
    rewrite recordPublic_fold in D1.
    split.
    + intros Hnone. rewrite Hnone in K2, D1. simpl in K2, D1.
      rewrite K1 in K2, D1. simpl in D1. split; [apply K3, D1 | exact K2].
    + intros Hsome. apply last_is_Some in Hsome as [a Ha].
      rewrite Ha in K2. exists a. split; [| exact K2].
      apply list_elem_of_In, last_Some_elem_of, Ha.
Qed.

(** C2 on a v4 world whose new instance has a private address only:
    [Create] fails with the "not found" error and records no address. *)
Lemma C2_witness_private_only :
  let api := Script.v4 (inr Script.privateOnly) LinodeV4.InstanceRunning in
  let s := Script.start4 Script.fresh4 in
  fst (LinodeV4.Create api s) = Err noAddress4
  /\ LinodeV4.IPAddress (drv (snd (LinodeV4.Create api s))) = "".
Proof.
  intros api s.
  eapply (proj1 C2_create_records_a_public_address_or_fails unit api s _ _
            Script.privateOnly [[192; 168; 1; 5]]).
  - reflexivity.
  - vm_compute. reflexivity.
  - reflexivity.
  - reflexivity.
Defined.

(** C2 fails as stated: the v3 driver is given two addresses, both
    flagged public and both outside the private blocks; [Create] succeeds
    and records the second one, not the first. *)
Lemma C2_counterexample_v3_records_the_last_public_address :
  let ips := [LinodeV3.Build_FullIPAddress "50.116.1.1" 1;
              LinodeV3.Build_FullIPAddress "50.116.1.2" 1] in
  let run := LinodeV3.Create (Script.v3 ips (inr tt) Script.jobDone)
               (Script.start3 Script.bound3) in
  fst run = Ok tt
  /\ LinodeV3.IPAddress (drv (snd run)) = "50.116.1.2"
  /\ LinodeV4.privateIP [50; 116; 1; 1] = false.
Proof.
  cbv zeta. repeat split; vm_compute; reflexivity.
Qed.

(** * Further properties of the drivers *)

(** ** Reasoning forward through a computation *)

Section Runs.
Context {S : Type}.

Lemma runs_bind {A B} (m : M S A) (f : A -> M S B) (s : S)
    (Q : Res B -> S -> Prop) :
  runs m s (thenPost f Q) -> runs (bind m f) s Q.
Proof.
  intros H r s'. unfold bind.
  destruct (m s) as [[a | e | p] s1] eqn:E; intros H';
    specialize (H _ _ E); simpl in H.
  - apply H, H'.
  - injection H' as <- <-. exact H.
  - injection H' as <- <-. exact H.
Qed.

Lemma runs_ret {A} (a : A) (s : S) (Q : Res A -> S -> Prop) :
  Q (Ok a) s -> runs (ret a) s Q.
Proof. intros H r s' [= <- <-]. exact H. Qed.

Lemma runs_fail {A} (e : error) (s : S) (Q : Res A -> S -> Prop) :
  Q (Err e) s -> runs (fail e) s Q.
Proof. intros H r s' [= <- <-]. exact H. Qed.

Lemma runs_panic {A} (p : string) (s : S) (Q : Res A -> S -> Prop) :
  Q (Panic p) s -> runs (panic p) s Q.
Proof. intros H r s' [= <- <-]. exact H. Qed.

Lemma runs_conseq {A} (m : M S A) (s : S) (Q Q' : Res A -> S -> Prop) :
  runs m s Q -> (forall r s', Q r s' -> Q' r s') -> runs m s Q'.
Proof. intros H HQ r s' E. apply HQ, H, E. Qed.

Lemma runs_of_stable {A} (R : S -> S -> Prop) (m : M S A) (s : S)
    (Q : Res A -> S -> Prop) :
  stable R m -> (forall r s', R s s' -> Q r s') -> runs m s Q.
Proof. intros H HQ r s' E. apply HQ. eapply H, E. Qed.

Lemma stable_of_runs {A} (R : S -> S -> Prop) (m : M S A) :
  (forall s, runs m s (fun _ s' => R s s')) -> stable R m.
Proof. intros H s r s' E. exact (H s r s' E). Qed.
End Runs.

Section RunsPrimitives.
Context {D W Rq : Type}.

Lemma runs_getDrv (s : St D W Rq) (Q : Res D -> St D W Rq -> Prop) :
  Q (Ok (drv s)) s -> runs getDrv s Q.
Proof. intros H r s' [= <- <-]. exact H. Qed.

Lemma runs_modifyDrv (f : D -> D) (s : St D W Rq)
    (Q : Res unit -> St D W Rq -> Prop) :
  Q (Ok tt) (mkSt (f (drv s)) (world s) (calls s) (debug s)) ->
  runs (modifyDrv f) s Q.
Proof. intros H r s' [= <- <-]. exact H. Qed.

Lemma runs_logDebug (line : string) (s : St D W Rq)
    (Q : Res unit -> St D W Rq -> Prop) :
  Q (Ok tt) (mkSt (drv s) (world s) (calls s) (debug s ++ [line])) ->
  runs (logDebug line) s Q.
Proof. intros H r s' [= <- <-]. exact H. Qed.

Lemma runs_call {A} (rq : Rq) (h : W -> (error + A) * W) (s : St D W Rq)
    (Q : Res A -> St D W Rq -> Prop) :
  (forall e w', h (world s) = (inl e, w') ->
     Q (Err e) (mkSt (drv s) w' (calls s ++ [rq]) (debug s))) ->
  (forall x w', h (world s) = (inr x, w') ->
     Q (Ok x) (mkSt (drv s) w' (calls s ++ [rq]) (debug s))) ->
  runs (call rq h) s Q.
Proof.
  intros He Hx r s'. unfold call.
  destruct (h (world s)) as [[e | x] w'] eqn:E; intros [= <- <-]; eauto.
Qed.

Lemma runs_localEff {A} (h : W -> A * W) (s : St D W Rq)
    (Q : Res A -> St D W Rq -> Prop) :
  (forall x w', h (world s) = (x, w') ->
     Q (Ok x) (mkSt (drv s) w' (calls s) (debug s))) ->
  runs (localEff h) s Q.
Proof.
  intros H r s'. unfold localEff.
  destruct (h (world s)) as [x w'] eqn:E; intros [= <- <-]; eauto.
Qed.

Lemma runs_liftErr {A} (x : error + A) (s : St D W Rq)
    (Q : Res A -> St D W Rq -> Prop) :
  (forall e, x = inl e -> Q (Err e) s) ->
  (forall a, x = inr a -> Q (Ok a) s) ->
  runs (liftErr x) s Q.
Proof.
  intros He Ha. destruct x; simpl;
    [apply runs_fail | apply runs_ret]; eauto.
Qed.

Lemma runs_attempt {A} (m : M (St D W Rq) A) (s : St D W Rq)
    (Q : Res (error + A) -> St D W Rq -> Prop) :
  runs m s (attemptPost Q) -> runs (attempt m) s Q.
Proof.
  intros H r s'. unfold attempt.
  destruct (m s) as [[x | e | p] s1] eqn:E; intros [= <- <-];
    exact (H _ _ E).
Qed.
End RunsPrimitives.

Ltac head_of t :=
  match t with
  | ?f _ => head_of f
  | _ => t
  end.

Ltac tidy := cbn [drv world calls debug fst snd thenPost attemptPost] in *.

(** One step forward; [known] is tried first, for the computations whose
    behaviour is already established. *)
Ltac fwd_step known :=
  tidy;
  first
    [ known
    | match goal with
      | |- runs (bind _ _) _ _ => apply runs_bind
      | |- runs (ret _) _ _ => apply runs_ret
      | |- runs (fail _) _ _ => apply runs_fail
      | |- runs (panic _) _ _ => apply runs_panic
      | |- runs getDrv _ _ => apply runs_getDrv
      | |- runs (modifyDrv _) _ _ => apply runs_modifyDrv
      | |- runs (logDebug _) _ _ => apply runs_logDebug
      | |- runs (call _ _) _ _ => apply runs_call; intros ? ? ?
      | |- runs (localEff _) _ _ => apply runs_localEff; intros ? ? ?
      | |- runs (liftErr _) _ _ => apply runs_liftErr; intros ? ?
      | |- runs (attempt _) _ _ => apply runs_attempt
      | |- runs (if ?c then _ else _) _ _ => destruct c eqn:?
      | |- runs (match ?x with _ => _ end) _ _ => destruct x eqn:?
      | |- runs (LinodeV3.waitLoop _ _ _ _ _) _ _ => fail 1
      | |- runs (LinodeV4.selectAddress _) _ _ => fail 1
      | |- runs (WaitForSpecific _ _ _) _ _ => fail 1
      | |- runs (runSteps _ _) _ _ => fail 1
      | |- runs ?m _ _ => let h := head_of m in progress unfold h
      end ].

Ltac fwd_with known := repeat fwd_step known.
Ltac fwd := fwd_with fail.

Lemma holds_refl {D W Rq} (P : D -> Prop) (s : St D W Rq) : holds P s s.
Proof. intros H. exact H. Qed.

Lemma holds_trans {D W Rq} (P : D -> Prop) (a b c : St D W Rq) :
  holds P a b -> holds P b c -> holds P a c.
Proof. unfold holds. auto. Qed.

Ltac rel_side :=
  first [ exact (holds_refl _) | exact (holds_trans _) | stab_side ].

(** The loops, for a relation [R] that one turn of each maintains. *)
Ltac fwd_loops R :=
  first
    [ apply (runs_of_stable R);
      [ apply stable_waitLoop;
        [rel_side | rel_side | apply stable_of_runs; intros ?]
      | intros [? | ? | ?] ? ?; tidy ]
    | apply (runs_of_stable R);
      [ apply stable_WaitForSpecific;
        [rel_side | rel_side | apply stable_of_runs; intros ?]
      | intros [? | ? | ?] ? ?; tidy ]
    | apply (runs_of_stable R);
      [ apply stable_selectAddress;
        [rel_side | intros ?; apply stable_of_runs; intros ?]
      | intros [? | ? | ?] ? ?; tidy ] ].

(** [stable R m], by going forward through [m] from any state. *)
Ltac via_runs :=
  match goal with
  | |- stable ?R _ =>
      apply stable_of_runs; intros ?; fwd_with ltac:(fwd_loops R)
  end.

(** ** The client is built once *)

Lemma getClient3_run W (s : St LinodeV3.Driver W LinodeV3.Request) :
  runs LinodeV3.getClient s
    (fun r s' =>
       r = Ok (clientOf3 (drv s))
       /\ LinodeV3.client (drv s') = Some (clientOf3 (drv s))
       /\ quiet s s' /\ debug s' = debug s).
Proof.
  unfold clientOf3. fwd; tidy;
    try match goal with H : LinodeV3.client _ = _ |- _ => rewrite H end;
    repeat split; reflexivity.
Qed.

Lemma getClient4_run W (s : St LinodeV4.Driver W LinodeV4.Request) :
  runs LinodeV4.getClient s
    (fun r s' =>
       r = Ok (clientOf4 (drv s))
       /\ LinodeV4.client (drv s') = Some (clientOf4 (drv s))
       /\ quiet s s' /\ debug s' = debug s).
Proof.
  unfold clientOf4. fwd; tidy;
    try match goal with H : LinodeV4.client _ = _ |- _ => rewrite H end;
    repeat split; reflexivity.
Qed.

(** The v3 address loop changes no field but the address. *)
Lemma recordPublic_fold_shape (ips : list LinodeV3.FullIPAddress) :
  forall d : LinodeV3.Driver,
    fold_left LinodeV3.recordPublic ips d = d
    \/ exists v, fold_left LinodeV3.recordPublic ips d
                 = LinodeV3.set_IPAddress v d.
Proof.
  induction ips as [| a ips IH]; intros d; simpl; [left; reflexivity |].
  assert (E : LinodeV3.recordPublic d a = d
              \/ LinodeV3.recordPublic d a
                 = LinodeV3.set_IPAddress (LinodeV3.ipIPAddress a) d).
  { unfold LinodeV3.recordPublic.
    destruct (decide (LinodeV3.IsPublic a = 1)); auto. }
  destruct E as [-> | ->]; [apply IH |].
  destruct (IH (LinodeV3.set_IPAddress (LinodeV3.ipIPAddress a) d))
    as [-> | [v ->]]; right; eexists; reflexivity.
Qed.

Ltac open_fold :=
  repeat match goal with
         | |- context [fold_left LinodeV3.recordPublic ?x ?d] =>
             destruct (recordPublic_fold_shape x d) as [-> | [? ->]]
         end.

Ltac close_holds :=
  unfold holds in *; open_fold; cbn in *; intuition congruence.

Ltac keep_client := via_runs; try close_holds.

Lemma runOp3_keeps_client W (api : LinodeV3.API W) (c : LinodeV3.Client)
    (op : V3Ops.Op) (s : St LinodeV3.Driver W LinodeV3.Request) :
  holds (fun d => LinodeV3.client d = Some c) s (V3Ops.runOp api op s).
Proof.
  assert (H : forall A (m : M _ A),
             stable (holds (fun d => LinodeV3.client d = Some c)) m ->
             holds (fun d => LinodeV3.client d = Some c) s (V3Ops.discard m s)).
  { intros A m Hm. unfold V3Ops.discard.
    destruct (m s) as [r s'] eqn:E. simpl. eapply Hm, E. }
  destruct op; simpl; apply H; keep_client.
Qed.

Lemma Create3_keeps_client W (api : LinodeV3.API W) (c : LinodeV3.Client) :
  stable (holds (fun d => LinodeV3.client d = Some c)) (LinodeV3.Create api).
Proof.
  unfold LinodeV3.Create.
  apply stable_bind; [exact (holds_trans _) | |].
  - apply stable_runSteps; [exact (holds_refl _) | exact (holds_trans _) |].
    unfold LinodeV3.createSteps.
    repeat (apply Forall_cons_2; [intros fr; keep_client |]).
    apply Forall_nil_2.
  - intros _. apply stable_ret. exact (holds_refl _).
Qed.

Lemma runOp4_keeps_client W (api : LinodeV4.API W) (c : LinodeV4.Client)
    (op : V4Ops.Op) (s : St LinodeV4.Driver W LinodeV4.Request) :
  holds (fun d => LinodeV4.client d = Some c) s (V4Ops.runOp api op s).
Proof.
  assert (H : forall A (m : M _ A),
             stable (holds (fun d => LinodeV4.client d = Some c)) m ->
             holds (fun d => LinodeV4.client d = Some c) s (V4Ops.discard m s)).
  { intros A m Hm. unfold V4Ops.discard.
    destruct (m s) as [r s'] eqn:E. simpl. eapply Hm, E. }
  destruct op; simpl; apply H; keep_client.
Qed.

Lemma Create4_keeps_client W (api : LinodeV4.API W) (c : LinodeV4.Client) :
  stable (holds (fun d => LinodeV4.client d = Some c)) (LinodeV4.Create api).
Proof.
  unfold LinodeV4.Create.
  apply stable_bind; [exact (holds_trans _) | |].
  - apply stable_runSteps; [exact (holds_refl _) | exact (holds_trans _) |].
    unfold LinodeV4.createSteps.
    repeat (apply Forall_cons_2; [intros fr; keep_client |]).
    apply Forall_nil_2.
  - intros _. apply stable_ret. exact (holds_refl _).
Qed.

Lemma runOps3_keeps_client W (api : LinodeV3.API W) (c : LinodeV3.Client)
    (ops : list V3Ops.Op) :
  forall s : St LinodeV3.Driver W LinodeV3.Request,
    holds (fun d => LinodeV3.client d = Some c) s (V3Ops.runOps api ops s).
Proof.
  unfold V3Ops.runOps. induction ops as [| op ops IH]; intros s; simpl.
  - apply holds_refl.
  - eapply holds_trans; [apply runOp3_keeps_client | apply IH].
Qed.

Lemma runOps4_keeps_client W (api : LinodeV4.API W) (c : LinodeV4.Client)
    (ops : list V4Ops.Op) :
  forall s : St LinodeV4.Driver W LinodeV4.Request,
    holds (fun d => LinodeV4.client d = Some c) s (V4Ops.runOps api ops s).
Proof.
  unfold V4Ops.runOps. induction ops as [| op ops IH]; intros s; simpl.
  - apply holds_refl.
  - eapply holds_trans; [apply runOp4_keeps_client | apply IH].
Qed.

(** X1: in both drivers [getClient] returns the client the handle holds,
    or builds one from the credential of the moment and stores it,
    without a remote call.  Once a handle holds a client, no sequence of
    operations and no run of [Create] replaces it: a later
    [SetConfigFromFlags] changes the credential of the handle but not the
    client that the calls go through. *)
Theorem X1_the_client_is_built_once :
  (forall W (s : St LinodeV3.Driver W LinodeV3.Request),
     fst (LinodeV3.getClient s) = Ok (clientOf3 (drv s))
     /\ LinodeV3.client (drv (snd (LinodeV3.getClient s)))
        = Some (clientOf3 (drv s))
     /\ quiet s (snd (LinodeV3.getClient s)))
  /\
  (forall W (api : LinodeV3.API W) (ops : list V3Ops.Op)
          (s : St LinodeV3.Driver W LinodeV3.Request) (c : LinodeV3.Client),
     LinodeV3.client (drv s) = Some c ->
     LinodeV3.client (drv (V3Ops.runOps api ops s)) = Some c
     /\ LinodeV3.client (drv (snd (LinodeV3.Create api s))) = Some c)
  /\
  (forall W (s : St LinodeV4.Driver W LinodeV4.Request),
     fst (LinodeV4.getClient s) = Ok (clientOf4 (drv s))
     /\ LinodeV4.client (drv (snd (LinodeV4.getClient s)))
        = Some (clientOf4 (drv s))
     /\ quiet s (snd (LinodeV4.getClient s)))
  /\
  (forall W (api : LinodeV4.API W) (ops : list V4Ops.Op)
          (s : St LinodeV4.Driver W LinodeV4.Request) (c : LinodeV4.Client),
     LinodeV4.client (drv s) = Some c ->
     LinodeV4.client (drv (V4Ops.runOps api ops s)) = Some c
     /\ LinodeV4.client (drv (snd (LinodeV4.Create api s))) = Some c).
Proof.
  split; [| split; [| split]].
  - intros W s. destruct (LinodeV3.getClient s) as [r s'] eqn:E.
    destruct (getClient3_run W s r s' E) as (-> & H2 & H3 & _). auto.
  - intros W api ops s c H. split.
    + exact (runOps3_keeps_client W api c ops s H).
    + destruct (LinodeV3.Create api s) as [r s'] eqn:E.
      exact (Create3_keeps_client W api c s r s' E H).
  - intros W s. destruct (LinodeV4.getClient s) as [r s'] eqn:E.
    destruct (getClient4_run W s r s' E) as (-> & H2 & H3 & _). auto.
  - intros W api ops s c H. split.
    + exact (runOps4_keeps_client W api c ops s H).
    + destruct (LinodeV4.Create api s) as [r s'] eqn:E.
      exact (Create4_keeps_client W api c s r s' E H).
Qed.

(** X1 on a v3 handle bound with the credential [abc], used once, then
    bound again with the credential [xyz]: the client is still the one
    built from [abc]. *)
Lemma X1_witness_stale_credential :
  let s1 := snd (LinodeV3.getClient (Script.start3 Script.bound3)) in
  let again := hostOptions LinodeV3.GetCreateFlags
                 (<[ "linode-api-key" := VString "xyz" ]> Script.given3) in
  let s2 := V3Ops.runOps (Script.v3 Script.onePublic (inr tt) Script.jobDone)
              [V3Ops.OpSetConfigFromFlags again] s1 in
  LinodeV3.APIKey (drv s2) = "xyz"
  /\ LinodeV3.client (drv s2) = Some (LinodeV3.NewClient "abc").
Proof.
  cbv zeta. split; [vm_compute; reflexivity |].
  apply (proj1 (proj2 X1_the_client_is_built_once) unit
           (Script.v3 Script.onePublic (inr tt) Script.jobDone)
           [V3Ops.OpSetConfigFromFlags
              (hostOptions LinodeV3.GetCreateFlags
                 (<[ "linode-api-key" := VString "xyz" ]> Script.given3))]
           (snd (LinodeV3.getClient (Script.start3 Script.bound3)))
           (LinodeV3.NewClient "abc")).
  vm_compute. reflexivity.
Defined.

(** ** The address and the URL *)

(** X2: in both drivers [GetURL] changes nothing and issues no call; on
    a handle without a recorded address it returns the error of [GetIP],
    otherwise the URL made of the recorded address and the Docker port.
    It never returns an empty URL without an error: the test of an empty
    address after a successful [GetIP] cannot hold. *)
Theorem X2_GetURL_is_the_recorded_address_or_an_error :
  (forall W (s : St LinodeV3.Driver W LinodeV3.Request),
     LinodeV3.GetURL s
     = (if String.eqb (LinodeV3.IPAddress (drv s)) ""
        then Err "IP address is not set"
        else Ok (dockerURL (LinodeV3.IPAddress (drv s))
                   (LinodeV3.DockerPort (drv s))), s)
     /\ fst (LinodeV3.GetURL s) <> Ok "")
  /\
  (forall W (s : St LinodeV4.Driver W LinodeV4.Request),
     LinodeV4.GetURL s
     = (if String.eqb (LinodeV4.IPAddress (drv s)) ""
        then Err "IP address is not set"
        else Ok (dockerURL (LinodeV4.IPAddress (drv s))
                   (LinodeV4.DockerPort (drv s))), s)
     /\ fst (LinodeV4.GetURL s) <> Ok "").
Proof.
  split; intros W s.
  - assert (E : LinodeV3.GetURL s
                = (if String.eqb (LinodeV3.IPAddress (drv s)) ""
                   then Err "IP address is not set"
                   else Ok (dockerURL (LinodeV3.IPAddress (drv s))
                              (LinodeV3.DockerPort (drv s))), s)).
    { unfold LinodeV3.GetURL, LinodeV3.GetIP, dockerURL, bind, getDrv, fail,
        ret. simpl.
      destruct (String.eqb (LinodeV3.IPAddress (drv s)) "") eqn:E;
        simpl; [reflexivity | rewrite E; reflexivity]. }
    split; [exact E |]. rewrite E. simpl.
    destruct (String.eqb (LinodeV3.IPAddress (drv s)) ""); discriminate.
  - assert (E : LinodeV4.GetURL s
                = (if String.eqb (LinodeV4.IPAddress (drv s)) ""
                   then Err "IP address is not set"
                   else Ok (dockerURL (LinodeV4.IPAddress (drv s))
                              (LinodeV4.DockerPort (drv s))), s)).
    { unfold LinodeV4.GetURL, LinodeV4.GetIP, dockerURL, bind, getDrv, fail,
        ret. simpl.
      destruct (String.eqb (LinodeV4.IPAddress (drv s)) "") eqn:E;
        simpl; [reflexivity | rewrite E; reflexivity]. }
    split; [exact E |]. rewrite E. simpl.
    destruct (String.eqb (LinodeV4.IPAddress (drv s)) ""); discriminate.
Qed.

(** ** The SSH user *)

(** X3: in both drivers [GetSSHUsername] returns the user of the handle,
    or "root" when the handle has none, and leaves that user in the
    handle; a second call returns the same user and changes nothing.  It
    issues no call. *)
Theorem X3_GetSSHUsername_defaults_to_root_once :
  (forall W (s : St LinodeV3.Driver W LinodeV3.Request),
     let s1 := snd (LinodeV3.GetSSHUsername s) in
     fst (LinodeV3.GetSSHUsername s) = Ok (sshUserOf (LinodeV3.base (drv s)))
     /\ SSHUser (LinodeV3.base (drv s1)) = sshUserOf (LinodeV3.base (drv s))
     /\ quiet s s1
     /\ LinodeV3.GetSSHUsername s1
        = (Ok (sshUserOf (LinodeV3.base (drv s))), s1))
  /\
  (forall W (s : St LinodeV4.Driver W LinodeV4.Request),
     let s1 := snd (LinodeV4.GetSSHUsername s) in
     fst (LinodeV4.GetSSHUsername s) = Ok (sshUserOf (LinodeV4.base (drv s)))
     /\ SSHUser (LinodeV4.base (drv s1)) = sshUserOf (LinodeV4.base (drv s))
     /\ quiet s s1
     /\ LinodeV4.GetSSHUsername s1
        = (Ok (sshUserOf (LinodeV4.base (drv s))), s1)).
Proof.
  split; intros W s; cbv zeta.
  - unfold LinodeV3.GetSSHUsername, sshUserOf, bind, getDrv, modifyDrv, ret,
      quiet. simpl.
    destruct (String.eqb (SSHUser (LinodeV3.base (drv s))) "") eqn:E; simpl;
      [| rewrite E]; repeat split; reflexivity.
  - unfold LinodeV4.GetSSHUsername, sshUserOf, bind, getDrv, modifyDrv, ret,
      quiet. simpl.
    destruct (String.eqb (SSHUser (LinodeV4.base (drv s))) "") eqn:E; simpl;
      [| rewrite E]; repeat split; reflexivity.
Qed.

(** ** Private addresses *)

Lemma Contains_other_length (n : net.IPNet) (ip : net.IP) :
  length (net.netIP n) = 4%nat ->
  net.To4 ip = None ->
  net.Contains n ip = false.
Proof.
  intros Hn Hip. unfold net.Contains. rewrite Hip, Hn.
  unfold net.To4 in Hip.
  destruct (Nat.eqb (length ip) 4); [discriminate | reflexivity].
Qed.

(** X4: [privateIP] holds of no address that is not IPv4: a slice whose
    length is neither 4 nor 16, and a 16-byte address that is not the
    mapped form of an IPv4 address, are never private.  On the 16-byte
    mapped form of an IPv4 address it answers as on the 4-byte form. *)
Theorem X4_privateIP_is_about_IPv4_only :
  (forall ip : net.IP,
     length ip <> 4%nat -> length ip <> 16%nat ->
     LinodeV4.privateIP ip = false)
  /\ (forall ip : net.IP,
        net.To4 ip = None -> LinodeV4.privateIP ip = false)
  /\ (forall a b c d : Z,
        LinodeV4.privateIP (mapped a b c d) = LinodeV4.privateIP [a; b; c; d]).
Proof.
  assert (H : forall ip, net.To4 ip = None -> LinodeV4.privateIP ip = false).
  { intros ip Hip. unfold LinodeV4.privateIP.
    rewrite !Contains_other_length by (assumption || reflexivity).
    reflexivity. }
  split; [| split; [exact H | reflexivity]].
  intros ip H4 H16. apply H. unfold net.To4.
  destruct (Nat.eqb_spec (length ip) 4); [contradiction |].
  destruct (Nat.eqb_spec (length ip) 16); [contradiction |].
  reflexivity.
Qed.

(** X4 on the loopback address of IPv6 and on a slice of three bytes. *)
Lemma X4_witness_not_IPv4 :
  LinodeV4.privateIP [0; 0; 0; 0; 0; 0; 0; 0; 0; 0; 0; 0; 0; 0; 0; 1] = false
  /\ LinodeV4.privateIP [10; 0; 0] = false.
Proof.
  split.
  - apply (proj1 (proj2 X4_privateIP_is_about_IPv4_only)). reflexivity.
  - apply (proj1 X4_privateIP_is_about_IPv4_only); simpl; lia.
Defined.

(** ** What configuration binding writes and reads *)

(** X5: in both drivers [SetConfigFromFlags] first writes the ten options
    into the handle and only then validates: whether it succeeds or
    fails, the handle it leaves holds the options read, while the base
    driver, the client, the recorded address and the identifier are the
    ones it found.  It succeeds exactly when the credential and the root
    password it read are both non-empty. *)
Theorem X5_binding_writes_before_it_validates :
  (forall W (flags : DriverOptions) (s : St LinodeV3.Driver W LinodeV3.Request),
     let run := LinodeV3.SetConfigFromFlags flags s in
     snd run = mkSt (LinodeV3.bindFlags flags (drv s))
                 (world s) (calls s) (debug s)
     /\ (fst run = Ok tt <->
         optString flags "linode-api-key" <> ""
         /\ optString flags "linode-root-pass" <> "")
     /\ LinodeV3.base (drv (snd run)) = LinodeV3.base (drv s)
     /\ LinodeV3.client (drv (snd run)) = LinodeV3.client (drv s)
     /\ LinodeV3.IPAddress (drv (snd run)) = LinodeV3.IPAddress (drv s)
     /\ LinodeV3.LinodeId (drv (snd run)) = LinodeV3.LinodeId (drv s))
  /\
  (forall W (flags : DriverOptions) (s : St LinodeV4.Driver W LinodeV4.Request),
     let run := LinodeV4.SetConfigFromFlags flags s in
     snd run = mkSt (LinodeV4.bindFlags flags (drv s))
                 (world s) (calls s) (debug s)
     /\ (fst run = Ok tt <->
         optString flags "linode-token" <> ""
         /\ optString flags "linode-root-pass" <> "")
     /\ LinodeV4.base (drv (snd run)) = LinodeV4.base (drv s)
     /\ LinodeV4.client (drv (snd run)) = LinodeV4.client (drv s)
     /\ LinodeV4.IPAddress (drv (snd run)) = LinodeV4.IPAddress (drv s)
     /\ LinodeV4.InstanceID (drv (snd run)) = LinodeV4.InstanceID (drv s)).
Proof.
  split; intros W flags s; cbv zeta.
  - unfold LinodeV3.SetConfigFromFlags, bind, modifyDrv, getDrv, fail, ret.
    simpl.
    destruct (String.eqb_spec (optString flags "linode-api-key") "") as [Ek | Ek];
      [| destruct (String.eqb_spec (optString flags "linode-root-pass") "")
           as [Ep | Ep]];
      simpl; repeat split; try reflexivity; try tauto; try discriminate;
      intros [? ?]; contradiction.
  - unfold LinodeV4.SetConfigFromFlags, bind, modifyDrv, getDrv, fail, ret.
    simpl.
    destruct (String.eqb_spec (optString flags "linode-token") "") as [Ek | Ek];
      [| destruct (String.eqb_spec (optString flags "linode-root-pass") "")
           as [Ep | Ep]];
      simpl; repeat split; try reflexivity; try tauto; try discriminate;
      intros [? ?]; contradiction.
Qed.

(** X5 on the options of a user who gave a credential and no root
    password: binding fails, and the handle holds the credential. *)
Lemma X5_witness_failed_binding_has_written :
  let flags := hostOptions LinodeV3.GetCreateFlags
                 (<[ "linode-api-key" := VString "abc" ]> ∅) in
  let run := LinodeV3.SetConfigFromFlags flags (Script.start3 Script.fresh3) in
  fst run <> Ok tt /\ LinodeV3.APIKey (drv (snd run)) = "abc".
Proof.
  cbv zeta.
  destruct (proj1 X5_binding_writes_before_it_validates unit
              (hostOptions LinodeV3.GetCreateFlags
                 (<[ "linode-api-key" := VString "abc" ]> ∅))
              (Script.start3 Script.fresh3)) as (Hs & Hok & _).
  cbv zeta in Hs, Hok. split.
  - intros H. apply Hok in H as [_ H]. apply H. reflexivity.
  - rewrite Hs. reflexivity.
Defined.

(** X6: the outcome of configuration binding is a function of the options
    the driver declares, and in the v4 driver of the undeclared option
    [linode-token] besides: two option sets that agree on these leave the
    same handle and return the same result. *)
Theorem X6_binding_depends_on_the_options_it_names :
  (forall W (f g : DriverOptions) (s : St LinodeV3.Driver W LinodeV3.Request),
     agreeOn LinodeV3.GetCreateFlags f g ->
     LinodeV3.SetConfigFromFlags f s = LinodeV3.SetConfigFromFlags g s)
  /\
  (forall W (f g : DriverOptions) (s : St LinodeV4.Driver W LinodeV4.Request),
     agreeOn LinodeV4.GetCreateFlags f g ->
     optString f "linode-token" = optString g "linode-token" ->
     LinodeV4.SetConfigFromFlags f s = LinodeV4.SetConfigFromFlags g s).
Proof.
  split.
  - exact SetConfigFromFlags3_reads_declared.
  - intros W f g s H Ht.
    assert (Hs : forall n, In n (map flagName LinodeV4.GetCreateFlags) ->
                   optString f n = optString g n) by (intros; apply H; auto).
    assert (Hi : forall n, In n (map flagName LinodeV4.GetCreateFlags) ->
                   optInt f n = optInt g n) by (intros; apply H; auto).
    unfold LinodeV4.SetConfigFromFlags, LinodeV4.bindFlags, bind, modifyDrv,
      getDrv. simpl.
    rewrite Ht, !Hs, !Hi by (simpl; tauto). reflexivity.
Qed.

(** X6 on two option sets that differ in an option no driver names. *)
Lemma X6_witness_foreign_option :
  let f := hostOptions LinodeV3.GetCreateFlags Script.given3 in
  let g := {| optString := fun key =>
                if String.eqb key "amazonec2-region" then "eu-west-1"
                else optString f key;
              optInt := optInt f |} in
  LinodeV3.SetConfigFromFlags f (Script.start3 Script.fresh3)
  = LinodeV3.SetConfigFromFlags g (Script.start3 Script.fresh3).
Proof.
  cbv zeta.
  apply (proj1 X6_binding_depends_on_the_options_it_names unit).
  intros n Hn. simpl in Hn.
  repeat destruct Hn as [<- | Hn]; try contradiction; split; reflexivity.
Defined.

(** ** The lifecycle verbs *)

(** X7: in both drivers each of [Start], [Restart] and [Remove] issues
    exactly one request, addressed to the identifier of the handle,
    whether the remote API accepts it or not (there is no retry); it
    returns the error of the API or nothing, and leaves the world as the
    call left it. *)
Theorem X7_each_verb_is_one_request :
  (forall W (api : LinodeV3.API W) (s : St LinodeV3.Driver W LinodeV3.Request),
     let c := clientOf3 (drv s) in
     let id := LinodeV3.LinodeId (drv s) in
     (let a := LinodeV3.Linode_Boot api c id (-1) (world s) in
      let run := LinodeV3.Start api s in
      fst run = errorOnly (fst a) /\ world (snd run) = snd a
      /\ calls (snd run) = calls s ++ [boot3 (drv s)])
     /\ (let a := LinodeV3.Linode_Reboot api c id (-1) (world s) in
         let run := LinodeV3.Restart api s in
         fst run = errorOnly (fst a) /\ world (snd run) = snd a
         /\ calls (snd run) = calls s ++ [reboot3 (drv s)])
     /\ (let a := LinodeV3.Linode_Delete api c id true (world s) in
         let run := LinodeV3.Remove api s in
         fst run = errorOnly (fst a) /\ world (snd run) = snd a
         /\ calls (snd run) = calls s ++ [delete3 (drv s)]))
  /\
  (forall W (api : LinodeV4.API W) (s : St LinodeV4.Driver W LinodeV4.Request),
     let c := clientOf4 (drv s) in
     let id := LinodeV4.InstanceID (drv s) in
     (let a := LinodeV4.BootInstance api c id 0 (world s) in
      let run := LinodeV4.Start api s in
      fst run = errorOnly (fst a) /\ world (snd run) = snd a
      /\ calls (snd run) = calls s ++ [boot4 (drv s)])
     /\ (let a := LinodeV4.RebootInstance api c id (world s) in
         let run := LinodeV4.Restart api s in
         fst run = errorOnly (fst a) /\ world (snd run) = snd a
         /\ calls (snd run) = calls s ++ [reboot4 (drv s)])
     /\ (let a := LinodeV4.DeleteInstance api c id (world s) in
         let run := LinodeV4.Remove api s in
         fst run = errorOnly (fst a) /\ world (snd run) = snd a
         /\ calls (snd run) = calls s ++ [delete4 (drv s)])).
Proof.
  split; intros W api s; cbv zeta.
  - unfold LinodeV3.Start, LinodeV3.Restart, LinodeV3.Remove,
      LinodeV3.getClient, clientOf3, boot3, reboot3, delete3,
      bind, logDebug, getDrv, modifyDrv, call, ret. simpl.
    destruct (LinodeV3.client (drv s)) as [c |]; simpl;
      destruct (LinodeV3.Linode_Boot api _ _ _ (world s)) as [[? | ?] ?];
      destruct (LinodeV3.Linode_Reboot api _ _ _ (world s)) as [[? | ?] ?];
      destruct (LinodeV3.Linode_Delete api _ _ _ (world s)) as [[? | []] ?];
      simpl; repeat split; reflexivity.
  - unfold LinodeV4.Start, LinodeV4.Restart, LinodeV4.Remove,
      LinodeV4.getClient, clientOf4, boot4, reboot4, delete4,
      bind, logDebug, getDrv, modifyDrv, call, ret. simpl.
    destruct (LinodeV4.client (drv s)) as [c |]; simpl;
      destruct (LinodeV4.BootInstance api _ _ _ (world s)) as [[? | ?] ?];
      destruct (LinodeV4.RebootInstance api _ _ (world s)) as [[? | ?] ?];
      destruct (LinodeV4.DeleteInstance api _ _ (world s)) as [[? | []] ?];
      simpl; repeat split; reflexivity.
Qed.

(** ** The key pair *)

Lemma append_nonempty (a b : string) : b <> "" -> a +:+ b <> "".
Proof.
  intros Hb. destruct a; simpl; [exact Hb | discriminate].
Qed.

Lemma resolveStorePath_nonempty (b : BaseDriver) (file : string) :
  String.eqb (resolveStorePath b file) "" = false.
Proof.
  apply String.eqb_neq. unfold resolveStorePath.
  apply append_nonempty. discriminate.
Qed.

(** Resolving the key path a second time gives the same path. *)
Lemma baseKeyPath_again (b : BaseDriver) :
  baseKeyPath (baseWithKeyPath b) = baseKeyPath b.
Proof.
  unfold baseWithKeyPath, baseKeyPath at 1. simpl.
  destruct (String.eqb (baseKeyPath b) "") eqn:E; [| reflexivity].
  unfold baseKeyPath in E.
  destruct (String.eqb (SSHKeyPath b) "") eqn:E'.
  - rewrite resolveStorePath_nonempty in E. discriminate.
  - rewrite E' in E. discriminate.
Qed.

Lemma baseWithKeyPath_again (b : BaseDriver) :
  baseWithKeyPath (baseWithKeyPath b) = baseWithKeyPath b.
Proof.
  unfold baseWithKeyPath at 1. rewrite baseKeyPath_again. reflexivity.
Qed.

(** X8: in both drivers [createSSHKey] issues no remote call.  With [P]
    the key path of the handle (the stored one, or the one resolved under
    the store), it generates the key pair at [P]; if that fails it
    returns the error without reading any file; otherwise it reads the
    file [P.pub], the path being resolved a second time to the same [P],
    and returns its content or the error of the read.  The handle is left
    with [P] as its key path and is otherwise unchanged. *)
Theorem X8_createSSHKey_reads_the_key_it_generated :
  (forall W (api : LinodeV3.API W) (s : St LinodeV3.Driver W LinodeV3.Request),
     let P := baseKeyPath (LinodeV3.base (drv s)) in
     let g := LinodeV3.ssh_GenerateSSHKey api P (world s) in
     let rd := LinodeV3.ioutil_ReadFile api (P +:+ ".pub") (snd g) in
     LinodeV3.createSSHKey api s
     = (match fst g with
        | inl e => Err e
        | inr _ => match fst rd with inl e => Err e | inr k => Ok k end
        end,
        mkSt (LinodeV3.set_base (baseWithKeyPath (LinodeV3.base (drv s))) (drv s))
             (match fst g with inl _ => snd g | inr _ => snd rd end)
             (calls s) (debug s)))
  /\
  (forall W (api : LinodeV4.API W) (s : St LinodeV4.Driver W LinodeV4.Request),
     let P := baseKeyPath (LinodeV4.base (drv s)) in
     let g := LinodeV4.ssh_GenerateSSHKey api P (world s) in
     let rd := LinodeV4.ioutil_ReadFile api (P +:+ ".pub") (snd g) in
     LinodeV4.createSSHKey api s
     = (match fst g with
        | inl e => Err e
        | inr _ => match fst rd with inl e => Err e | inr k => Ok k end
        end,
        mkSt (LinodeV4.set_base (baseWithKeyPath (LinodeV4.base (drv s))) (drv s))
             (match fst g with inl _ => snd g | inr _ => snd rd end)
             (calls s) (debug s))).
Proof.
  split; intros W api s; cbv zeta.
  - unfold LinodeV3.createSSHKey, LinodeV3.publicSSHKeyPath,
      LinodeV3.GetSSHKeyPath, bind, getDrv, modifyDrv, localEff, liftErr,
      ret, fail. simpl.
    destruct (LinodeV3.ssh_GenerateSSHKey api _ (world s)) as [[e | []] w1];
      simpl; [reflexivity |].
    rewrite baseKeyPath_again.
    destruct (LinodeV3.ioutil_ReadFile api _ w1) as [[e | k] w2]; simpl;
      unfold LinodeV3.set_base; simpl; rewrite baseWithKeyPath_again;
      reflexivity.
  - unfold LinodeV4.createSSHKey, LinodeV4.publicSSHKeyPath,
      LinodeV4.GetSSHKeyPath, bind, getDrv, modifyDrv, localEff, liftErr,
      ret, fail. simpl.
    destruct (LinodeV4.ssh_GenerateSSHKey api _ (world s)) as [[e | []] w1];
      simpl; [reflexivity |].
    rewrite baseKeyPath_again.
    destruct (LinodeV4.ioutil_ReadFile api _ w1) as [[e | k] w2]; simpl;
      unfold LinodeV4.set_base; simpl; rewrite baseWithKeyPath_again;
      reflexivity.
Qed.

(** ** The poller, poll by poll *)

Lemma pollJob_run W (api : LinodeV3.API W) (jobId : Z) (jobName : string)
    (s : St LinodeV3.Driver W LinodeV3.Request) :
  runs (LinodeV3.pollJob api jobId jobName) s
    (fun r s' =>
       LinodeV3.LinodeId (drv s') = LinodeV3.LinodeId (drv s)
       /\ calls s' = calls s ++ [jobQuery (drv s) jobId]
       /\ r = fst (LinodeV3.pollJob api jobId jobName s)).
Proof.
  intros r s' E. rewrite E. split; [| split; [| reflexivity]].
  - assert (K : stable (keeps LinodeV3.LinodeId)
                  (LinodeV3.pollJob api jobId jobName))
      by (stab; reflexivity).
    exact (K s r s' E).
  - revert E. unfold LinodeV3.pollJob, LinodeV3.getClient, jobQuery, bind,
      getDrv, modifyDrv, call, ret, panic, fail, logDebug. simpl.
    destruct (LinodeV3.client (drv s)); simpl;
      destruct (LinodeV3.Job_List api _ _ jobId false (world s))
        as [[e | [| j0 js]] w']; simpl;
      repeat match goal with
             | |- context [if ?c then _ else _] => destruct c
             end; intros [= <- <-]; reflexivity.
Qed.

(** The loop issues one query per turn, at most [n] of them, and cannot
    succeed without one. *)
Lemma waitLoop_queries W (api : LinodeV3.API W) (jobId : Z)
    (jobName : string) (T : Z) (n : nat) :
  forall s : St LinodeV3.Driver W LinodeV3.Request,
    runs (LinodeV3.waitLoop api n jobId jobName T) s
      (fun r s' =>
         LinodeV3.LinodeId (drv s') = LinodeV3.LinodeId (drv s)
         /\ exists k, (k <= n)%nat
              /\ calls s' = calls s ++ replicate k (jobQuery (drv s) jobId)
              /\ (r = Ok tt -> (1 <= k)%nat)).
Proof.
  induction n as [| n IH]; intros s; simpl.
  - apply runs_fail. split; [reflexivity |].
    exists 0%nat. split; [lia |].
    split; [simpl; rewrite app_nil_r; reflexivity | discriminate].
  - apply runs_bind. eapply runs_conseq; [apply pollJob_run |].
    intros r s1 (Hid & Hc & _).
    assert (Hone : LinodeV3.LinodeId (drv s1) = LinodeV3.LinodeId (drv s)
                   /\ exists k, (k <= Datatypes.S n)%nat
                        /\ calls s1 = calls s ++ replicate k (jobQuery (drv s) jobId)
                        /\ (1 <= k)%nat).
    { split; [exact Hid |]. exists 1%nat.
      split; [lia |]. split; [exact Hc | lia]. }
    destruct r as [[|] | e | p]; simpl.
    + apply runs_ret. destruct Hone as (? & k & ? & ? & ?). eauto 6.
    + eapply runs_conseq; [apply IH |].
      intros r' s' (Hid' & k & Hk & Hc' & _). split; [congruence |].
      exists (Datatypes.S k). split; [lia |]. split; [| lia].
      rewrite Hc', Hc. unfold jobQuery. rewrite Hid.
      rewrite <- app_assoc. reflexivity.
    + destruct Hone as (? & k & ? & ? & ?). split; [assumption |].
      exists k. repeat split; auto; discriminate.
    + destruct Hone as (? & k & ? & ? & ?). split; [assumption |].
      exists k. repeat split; auto; discriminate.
Qed.

(** X9: [waitForJob] queries the remote API at most as many times as the
    timer lets it, has made at least one query when it returns success,
    and issues no other request: every one is the job list of the
    handle's instance for the awaited job, not restricted to pending
    jobs.  It leaves the identifier of the handle alone. *)
Theorem X9_waitForJob_only_queries_its_job :
  forall W (api : LinodeV3.API W) (jobId : Z) (jobName : string) (T : Z)
         (s : St LinodeV3.Driver W LinodeV3.Request),
    let ticks := fst (LinodeV3.select_ticks api T (world s)) in
    let run := LinodeV3.waitForJob api jobId jobName T s in
    LinodeV3.LinodeId (drv (snd run)) = LinodeV3.LinodeId (drv s)
    /\ exists k, (k <= ticks)%nat
         /\ calls (snd run) = calls s ++ replicate k (jobQuery (drv s) jobId)
         /\ (fst run = Ok tt -> (1 <= k)%nat).
Proof.
  intros W api jobId jobName T s. cbv zeta.
  destruct (LinodeV3.waitForJob api jobId jobName T s) as [r s'] eqn:E.
  revert E. unfold LinodeV3.waitForJob, bind at 1 2, logDebug, localEff.
  simpl. destruct (LinodeV3.select_ticks api T (world s)) as [n w1]. simpl.
  intros E. exact (waitLoop_queries W api jobId jobName T n _ r s' E).
Qed.

(** X9 on a v3 world in which the awaited job is done: the wait
    succeeds, after at least one and at most sixty queries for job 7. *)
Lemma X9_witness_done_job :
  let api := Script.v3 Script.onePublic (inr tt) Script.jobDone in
  let s := Script.start3 Script.bound3 in
  let run := LinodeV3.waitForJob api 7 "Create Disk Task" 60 s in
  fst run = Ok tt
  /\ exists k, (1 <= k <= 60)%nat
       /\ calls (snd run) = replicate k (LinodeV3.RqJobList 0 7 false).
Proof.
  intros api s run.
  assert (Hok : fst run = Ok tt) by (vm_compute; reflexivity).
  split; [exact Hok |].
  destruct (X9_waitForJob_only_queries_its_job unit api 7 "Create Disk Task"
              60 s) as (_ & k & Hle & Hcalls & Hone).
  exists k. split; [split; [exact (Hone Hok) | exact Hle] | exact Hcalls].
Defined.

Lemma pollJob_steady W (api : LinodeV3.API W) (jobId : Z) (jobName : string)
    (mark : string -> Prop) (s : St LinodeV3.Driver W LinodeV3.Request) :
  jobAlways api jobId mark ->
  exists m, mark m
            /\ fst (LinodeV3.pollJob api jobId jobName s)
               = Ok (String.eqb m "1").
Proof.
  intros H.
  destruct (H (clientOf3 (drv s)) (LinodeV3.LinodeId (drv s)) (world s))
    as (j & js & Ha & Hid & Hm).
  exists (LinodeV3.HostSuccess j). split; [exact Hm |].
  rewrite pollJob_answer, Ha.
  destruct (decide (LinodeV3.JobId j <> jobId)); [contradiction | reflexivity].
Qed.

Lemma waitLoop_pending W (api : LinodeV3.API W) (jobId : Z)
    (jobName : string) (T : Z) :
  jobAlways api jobId (fun m => m <> "1") ->
  forall (n : nat) (s : St LinodeV3.Driver W LinodeV3.Request),
    runs (LinodeV3.waitLoop api n jobId jobName T) s
      (fun r s' =>
         r = Err (timedOut jobName T)
         /\ calls s' = calls s ++ replicate n (jobQuery (drv s) jobId)).
Proof.
  intros H. induction n as [| n IH]; intros s; simpl.
  - apply runs_fail. split; [reflexivity |].
    simpl. rewrite app_nil_r. reflexivity.
  - apply runs_bind. eapply runs_conseq; [apply pollJob_run |].
    intros r s1 (Hid & Hc & Hr).
    destruct (pollJob_steady W api jobId jobName _ s H) as (m & Hm & Hp).
    rewrite Hp in Hr. subst r.
    apply String.eqb_neq in Hm. rewrite Hm. simpl.
    eapply runs_conseq; [apply IH |].
    intros r' s' (-> & Hc'). split; [reflexivity |].
    rewrite Hc', Hc. unfold jobQuery. rewrite Hid, <- app_assoc. reflexivity.
Qed.

(** X10: on a remote API that always lists the awaited job first,
    [waitForJob] behaves as follows.  If the job never bears the success
    mark, it queries once per tick that the timer grants and then returns
    the timeout error.  If the job always bears the mark, it returns
    success after a single query, unless the timer grants no tick at all:
    then it returns the timeout error without a query. *)
Theorem X10_waitForJob_on_a_steady_job :
  forall W (api : LinodeV3.API W) (jobId : Z) (jobName : string) (T : Z)
         (s : St LinodeV3.Driver W LinodeV3.Request),
    let ticks := fst (LinodeV3.select_ticks api T (world s)) in
    let run := LinodeV3.waitForJob api jobId jobName T s in
    (jobAlways api jobId (fun m => m <> "1") ->
     fst run = Err (timedOut jobName T)
     /\ calls (snd run) = calls s ++ replicate ticks (jobQuery (drv s) jobId))
    /\
    (jobAlways api jobId (fun m => m = "1") ->
     match ticks with
     | O => fst run = Err (timedOut jobName T) /\ calls (snd run) = calls s
     | Datatypes.S _ =>
         fst run = Ok tt /\ calls (snd run) = calls s ++ [jobQuery (drv s) jobId]
     end).
Proof.
  intros W api jobId jobName T s. cbv zeta.
  destruct (LinodeV3.waitForJob api jobId jobName T s) as [r s'] eqn:E.
  revert E. unfold LinodeV3.waitForJob, bind at 1 2, logDebug, localEff.
  simpl. destruct (LinodeV3.select_ticks api T (world s)) as [n w1]. simpl.
  intros E. split; intros H.
  - exact (waitLoop_pending W api jobId jobName T H n _ r s' E).
  - destruct n as [| n]; simpl in E.
    + injection E as <- <-. simpl. auto.
    + revert E. unfold bind at 1.
      match goal with
      | |- context [LinodeV3.pollJob api jobId jobName ?s0] =>
          destruct (pollJob_steady W api jobId jobName _ s0 H) as (m & -> & Hp);
          pose proof (pollJob_run W api jobId jobName s0) as Hrun;
          destruct (LinodeV3.pollJob api jobId jobName s0) as [r0 s1] eqn:Ep
      end.
      simpl in Hp. subst r0.
      destruct (Hrun _ _ Ep) as (_ & Hc & _). simpl in Hc.
      simpl. intros [= <- <-]. auto.
Qed.

(** X10 on a world whose jobs never finish, with a timer of three ticks:
    three queries, then the timeout error. *)
Lemma X10_witness_three_ticks :
  let api := Script.v3 Script.onePublic (inr tt)
               (fun j => [LinodeV3.Build_Job j "0"]) in
  let run := LinodeV3.waitForJob api 7 "Create Disk Task" 3
               (Script.start3 Script.bound3) in
  fst run = Err "Job Create Disk Task timed out after 3 seconds."
  /\ calls (snd run) = replicate 3 (LinodeV3.RqJobList 0 7 false).
Proof.
  intros api run.
  apply (proj1 (X10_waitForJob_on_a_steady_job unit api 7 "Create Disk Task" 3
                  (Script.start3 Script.bound3))).
  intros c id w. exists (LinodeV3.Build_Job 7 "0"), [].
  repeat split. discriminate.
Defined.

(** ** The wait for the running state *)

Lemma MachineInState_run W (api : LinodeV3.API W) (desired : state.State)
    (s : St LinodeV3.Driver W LinodeV3.Request) :
  runs (LinodeV3.MachineInState api desired) s
    (fun r s' =>
       LinodeV3.LinodeId (drv s') = LinodeV3.LinodeId (drv s)
       /\ calls s' = calls s ++ [statusQuery (drv s)]
       /\ r = match stateOfAnswer3
                      (fst (LinodeV3.Linode_List api (clientOf3 (drv s))
                              (LinodeV3.LinodeId (drv s)) (world s))) with
              | Ok (st, _) => Ok (state.eqb st desired)
              | Err e => Err e
              | Panic p => Panic p
              end).
Proof.
  intros r s'. unfold LinodeV3.MachineInState, LinodeV3.GetState,
    LinodeV3.getClient, clientOf3, statusQuery, stateOfAnswer3, bind, getDrv,
    modifyDrv, attempt, call, ret, panic, logDebug. simpl.
  destruct (LinodeV3.client (drv s)); simpl;
    destruct (LinodeV3.Linode_List api _ _ (world s)) as [[e | [| l ls]] w'];
    simpl; intros [= <- <-]; repeat split; reflexivity.
Qed.

Lemma waitRunning_queries W (api : LinodeV3.API W) (maxAttempts : Z) (n : nat) :
  forall s : St LinodeV3.Driver W LinodeV3.Request,
    runs (WaitForSpecific (LinodeV3.MachineInState api state.Running) n
            maxAttempts) s
      (fun r s' =>
         LinodeV3.LinodeId (drv s') = LinodeV3.LinodeId (drv s)
         /\ (exists k, (k <= n)%nat
               /\ calls s' = calls s ++ replicate k (statusQuery (drv s)))
         /\ (neverRunning api ->
             r = Err ("Maximum number of retries (" +:+ pretty maxAttempts
                      +:+ ") exceeded")
             /\ calls s' = calls s ++ replicate n (statusQuery (drv s)))).
Proof.
  induction n as [| n IH]; intros s; simpl.
  - apply runs_fail. split; [reflexivity |]. split.
    + exists 0%nat. split; [lia |]. simpl. rewrite app_nil_r. reflexivity.
    + intros _. split; [reflexivity |]. simpl. rewrite app_nil_r. reflexivity.
  - apply runs_bind. eapply runs_conseq; [apply MachineInState_run |].
    intros r s1 (Hid & Hc & Hr).
    assert (Hnever : neverRunning api -> r = Ok false).
    { intros Hn.
      specialize (Hn (clientOf3 (drv s)) (LinodeV3.LinodeId (drv s)) (world s)).
      rewrite Hr.
      destruct (fst (LinodeV3.Linode_List api _ _ (world s))) as [e | [| l ls]];
        simpl; [reflexivity | contradiction |].
      destruct (LinodeV3.stateOfStatus (LinodeV3.Status l));
        try reflexivity; contradiction. }
    destruct r as [[|] | e | p]; simpl.
    + apply runs_ret. split; [exact Hid |]. split.
      * exists 1%nat. split; [lia | exact Hc].
      * intros Hn. specialize (Hnever Hn). discriminate.
    + eapply runs_conseq; [apply IH |].
      intros r' s' (Hid' & (k & Hk & Hc') & Hn'). split; [congruence |].
      assert (Hq : statusQuery (drv s1) = statusQuery (drv s))
        by (unfold statusQuery; rewrite Hid; reflexivity).
      rewrite Hq in *. split.
      * exists (Datatypes.S k). split; [lia |].
        rewrite Hc', Hc, <- app_assoc. reflexivity.
      * intros Hn. destruct (Hn' Hn) as [-> Hc''].
        split; [reflexivity |].
        rewrite Hc'', Hc, <- app_assoc. reflexivity.
    + split; [exact Hid |]. split.
      * exists 1%nat. split; [lia | exact Hc].
      * intros Hn. specialize (Hnever Hn). discriminate.
    + split; [exact Hid |]. split.
      * exists 1%nat. split; [lia | exact Hc].
      * intros Hn. specialize (Hnever Hn). discriminate.
Qed.

(** X11: the last step of the v3 [Create] asks for the state of the
    handle's instance at most 120 times and issues no other request.  A
    query that the remote API fails does not end the wait: when no query
    ever shows the instance running, be it that the queries fail, the
    step makes all 120 queries and then fails with the error of the
    exhausted retries, wrapped. *)
Theorem X11_the_running_poll_makes_at_most_120_queries :
  forall W (api : LinodeV3.API W) (fr : LinodeV3.Frame)
         (s : St LinodeV3.Driver W LinodeV3.Request),
    let run := LinodeV3.stepRunningPoll api fr s in
    (exists k, (k <= 120)%nat
       /\ calls (snd run) = calls s ++ replicate k (statusQuery (drv s)))
    /\ (neverRunning api ->
        fst run = Err "wait for machine running failed: Maximum number of retries (120) exceeded"
        /\ calls (snd run) = calls s ++ replicate 120 (statusQuery (drv s))).
Proof.
  intros W api fr s. cbv zeta.
  destruct (LinodeV3.stepRunningPoll api fr s) as [r s'] eqn:E.
  revert E. unfold LinodeV3.stepRunningPoll.
  unfold bind at 1. unfold logDebug at 1. cbn beta iota.
  unfold bind at 1. unfold attempt at 1.
  match goal with
  | |- context [WaitForSpecific ?f 120 120 ?s0] =>
      pose proof (waitRunning_queries W api 120 120 s0) as Hw;
      destruct (WaitForSpecific f 120 120 s0) as [r0 s1] eqn:Ew
  end.
  destruct (Hw _ _ Ew) as (_ & Hk & Hn). cbn [drv calls] in Hk, Hn.
  destruct r0 as [[] | e | p]; cbn beta iota; unfold ret, fail;
    intros [= <- <-]; cbn [fst snd];
    (split; [exact Hk |]); intros Hnever;
    destruct (Hn Hnever) as [Hr Hc]; try discriminate.
  injection Hr as ->. split; [reflexivity | exact Hc].
Qed.

(** X11 on a world whose status queries always fail. *)
Lemma X11_witness_failing_queries :
  let base := Script.v3 Script.onePublic (inr tt) Script.jobDone in
  let api :=
    {| LinodeV3.ssh_GenerateSSHKey := LinodeV3.ssh_GenerateSSHKey base;
       LinodeV3.ioutil_ReadFile := LinodeV3.ioutil_ReadFile base;
       LinodeV3.Linode_Create := LinodeV3.Linode_Create base;
       LinodeV3.Linode_Update := LinodeV3.Linode_Update base;
       LinodeV3.Ip_List := LinodeV3.Ip_List base;
       LinodeV3.Disk_CreateFromDistribution :=
         LinodeV3.Disk_CreateFromDistribution base;
       LinodeV3.Disk_Create := LinodeV3.Disk_Create base;
       LinodeV3.Config_Create := LinodeV3.Config_Create base;
       LinodeV3.Linode_Boot := LinodeV3.Linode_Boot base;
       LinodeV3.Linode_Shutdown := LinodeV3.Linode_Shutdown base;
       LinodeV3.Linode_Reboot := LinodeV3.Linode_Reboot base;
       LinodeV3.Linode_Delete := LinodeV3.Linode_Delete base;
       LinodeV3.Linode_List := fun _ _ w => (inl "service unavailable", w);
       LinodeV3.Job_List := LinodeV3.Job_List base;
       LinodeV3.select_ticks := LinodeV3.select_ticks base |} in
  let run := LinodeV3.stepRunningPoll api LinodeV3.frame0
               (Script.start3 Script.bound3) in
  fst run = Err "wait for machine running failed: Maximum number of retries (120) exceeded"
  /\ calls (snd run) = replicate 120 (LinodeV3.RqLinodeList 0).
Proof.
  intros base api run.
  apply (proj2 (X11_the_running_poll_makes_at_most_120_queries unit api
                  LinodeV3.frame0 (Script.start3 Script.bound3))).
  intros c id w. exact I.
Defined.

(** ** Whom the requests of Create are addressed to *)

Lemma addresses_refl (id : Z) W (s : St LinodeV3.Driver W LinodeV3.Request) :
  addresses id s s.
Proof.
  intros H. split; [exact H |]. exists []. split;
    [symmetry; apply app_nil_r | apply Forall_nil_2].
Qed.

Lemma addresses_trans (id : Z) W
    (a b c : St LinodeV3.Driver W LinodeV3.Request) :
  addresses id a b -> addresses id b c -> addresses id a c.
Proof.
  intros Hab Hbc Ha. destruct (Hab Ha) as (Hb & l1 & E1 & F1).
  destruct (Hbc Hb) as (Hc & l2 & E2 & F2). split; [exact Hc |].
  exists (l1 ++ l2). split.
  - rewrite E2, E1. symmetry. apply app_assoc.
  - apply Forall_app. split; assumption.
Qed.

Ltac rel_side ::=
  first [ exact (holds_refl _) | exact (holds_trans _)
        | exact (addresses_refl _ _) | exact (addresses_trans _ _)
        | stab_side ].

(** Closing a goal [addresses id s s'] where [s'] is [s] after field
    updates and at most one request. *)
Ltac close_addresses :=
  let Hid := fresh "Hid" in
  intros Hid; open_fold; cbn in *;
  (split;
   [ congruence
   | first
       [ exists []; split; [symmetry; apply app_nil_r | apply Forall_nil_2]
       | eexists [_]; split;
         [ reflexivity
         | apply Forall_cons_2; [cbn; congruence | apply Forall_nil_2] ] ] ]).

Lemma pollJob_addresses W (api : LinodeV3.API W) (id jobId : Z)
    (jobName : string) :
  stable (addresses id) (LinodeV3.pollJob api jobId jobName).
Proof. via_runs; close_addresses. Qed.

Lemma waitForJob_addresses W (api : LinodeV3.API W) (id jobId : Z)
    (jobName : string) (T : Z) :
  stable (addresses id) (LinodeV3.waitForJob api jobId jobName T).
Proof.
  unfold LinodeV3.waitForJob.
  apply stable_bind; [exact (addresses_trans _ _) | |].
  - apply stable_logDebug. intros s. close_addresses.
  - intros _. apply stable_bind; [exact (addresses_trans _ _) | |].
    + apply stable_localEff. intros s w'. close_addresses.
    + intros n. apply stable_waitLoop;
        [exact (addresses_refl _ _) | exact (addresses_trans _ _) |].
      apply pollJob_addresses.
Qed.

Lemma MachineInState_addresses W (api : LinodeV3.API W) (id : Z)
    (desired : state.State) :
  stable (addresses id) (LinodeV3.MachineInState api desired).
Proof. via_runs; close_addresses. Qed.

(** Closing a goal [addresses id s s'] after a loop whose effect is known
    by a hypothesis of the same form. *)
Ltac close_addresses_after :=
  let Hid := fresh "Hid" in
  intros Hid; open_fold; cbn in *;
  match goal with
  | H : addresses _ _ _ |- _ =>
      let Hid' := fresh "Hid" in
      let l := fresh "l" in
      let El := fresh "El" in
      let Fl := fresh "Fl" in
      destruct (H ltac:(cbn; congruence)) as (Hid' & l & El & Fl);
      cbn in *;
      (split;
       [ congruence
       | eexists; split;
         [ rewrite El, <- ?app_assoc; reflexivity
         | first
             [ exact Fl
             | apply Forall_app; split;
               [ apply Forall_cons_2; [cbn; congruence | apply Forall_nil_2]
               | exact Fl ] ] ] ])
  end.

Ltac step_addresses :=
  match goal with
  | |- stable (addresses ?id) _ =>
      apply stable_of_runs; intros ?;
      fwd_with ltac:(first
        [ apply (runs_of_stable (addresses id));
          [ first [ apply waitForJob_addresses
                  | apply stable_WaitForSpecific;
                    [ exact (addresses_refl _ _) | exact (addresses_trans _ _)
                    | apply MachineInState_addresses ] ]
          | intros [? | ? | ?] ? ?; tidy ] ]);
      first [close_addresses_after | close_addresses]
  end.

Lemma laterSteps3_address W (api : LinodeV3.API W) (id : Z) :
  Forall (fun step => forall fr, stable (addresses id) (step fr))
         (drop 2 (LinodeV3.createSteps api)).
Proof.
  unfold LinodeV3.createSteps. simpl.
  repeat (apply Forall_cons_2; [intros fr; step_addresses |]).
  apply Forall_nil_2.
Qed.

Lemma stepKeyGeneration3_quiet_calls W (api : LinodeV3.API W) (fr : LinodeV3.Frame) :
  stable (extends (fun _ => False)) (LinodeV3.stepKeyGeneration api fr)
  /\ stable (keeps create3) (LinodeV3.stepKeyGeneration api fr).
Proof.
  split; [stab; close_extends | stab; reflexivity].
Qed.

Lemma laterSteps3_first W (api : LinodeV3.API W) (fr : LinodeV3.Frame)
    (c : LinodeV3.Client) (s : St LinodeV3.Driver W LinodeV3.Request) :
  LinodeV3.clientVar fr = Some c ->
  runs (runSteps (drop 2 (LinodeV3.createSteps api)) fr) s
    (fun _ s' =>
       exists l, calls s'
                 = calls s ++ afterAllocation3 (drv s) (LinodeV3.LinodeId (drv s)) :: l).
Proof.
  intros Hc.
  change (drop 2 (LinodeV3.createSteps api))
    with (LinodeV3.stepLabeling api :: LinodeV3.stepAddressDiscovery api
          :: drop 4 (LinodeV3.createSteps api)).
  cbn [runSteps]. unfold afterAllocation3.
  fwd_with ltac:(first
    [ match goal with
      | H : ?x = _ |- runs (match ?x with _ => _ end) _ _ => rewrite H
      end
    | match goal with
      | |- runs (runSteps _ _) ?s0 _ =>
          apply (runs_of_stable (addresses (LinodeV3.LinodeId (drv s0))));
          [ apply stable_runSteps;
            [ exact (addresses_refl _ _) | exact (addresses_trans _ _)
            | apply (Forall_drop _ _ 2), laterSteps3_address ]
          | intros [? | ? | ?] ? ?; tidy ]
      end ]);
  tidy.
  all: try (eexists; rewrite <- ?app_assoc; reflexivity).
  all: intros r s' E;
    match type of E with
    | runSteps _ _ ?s0 = _ =>
        assert (K : addresses (LinodeV3.LinodeId (drv s0)) s0 s')
          by (eapply (stable_runSteps _ (addresses_refl _ _)
                        (addresses_trans _ _));
              [ apply (Forall_drop _ 2%nat), laterSteps3_address | exact E ])
    end;
    destruct (K eq_refl) as (_ & l & El & _); cbn in El; rewrite El;
    eexists; rewrite <- ?app_assoc; reflexivity.
Qed.

Lemma stepKeyGeneration3_keeps_label W (api : LinodeV3.API W)
    (fr : LinodeV3.Frame) :
  stable (keeps LinodeV3.LinodeLabel) (LinodeV3.stepKeyGeneration api fr).
Proof. stab; reflexivity. Qed.

Lemma Create3_requests W (api : LinodeV3.API W)
    (s s' : St LinodeV3.Driver W LinodeV3.Request) (r : Res unit) :
  LinodeV3.Create api s = (r, s') ->
  exists l, calls s' = calls s ++ l
    /\ match fst (LinodeV3.stepKeyGeneration api LinodeV3.frame0 s) with
       | Ok _ =>
           exists l', l = create3 (drv s) :: l'
             /\ (forall id, allocated3 api s id ->
                   (exists l'', l' = afterAllocation3 (drv s) id :: l'')
                   /\ Forall (fun rq => targetOf3 rq = Some id) l')
             /\ ((forall id, ~ allocated3 api s id) -> l' = [])
       | _ => l = []
       end.
Proof.
  unfold LinodeV3.Create, LinodeV3.createSteps.
  change (runSteps (?a :: ?b :: ?rest) ?f)
    with (bind (a f) (fun f1 => bind (b f1) (fun f2 => runSteps rest f2))).
  unfold bind at 1 2.
  destruct (LinodeV3.stepKeyGeneration api LinodeV3.frame0 s)
    as [[fr | e | p] s1] eqn:Ekey; cbn [fst].
  2,3: intros [= <- <-];
       destruct (proj1 (stepKeyGeneration3_quiet_calls W api _) _ _ _ Ekey)
         as (l & El & Fl);
       exists l; split; [exact El |];
       destruct l as [| x l]; [reflexivity | inversion Fl; contradiction].
  destruct (stepKeyGeneration3_quiet_calls W api LinodeV3.frame0) as [Kq Kc].
  destruct (Kq _ _ _ Ekey) as (l0 & El0 & Fl0).
  assert (l0 = []) by (destruct l0; [reflexivity | inversion Fl0; contradiction]).
  subst l0. rewrite app_nil_r in El0.
  pose proof (Kc _ _ _ Ekey) as Hc3. unfold keeps in Hc3.
  pose proof (stepKeyGeneration3_keeps_label W api _ _ _ _ Ekey) as Hlab.
  unfold keeps in Hlab.
  pose proof (stepKeyGeneration3_client W api _ _ _ _ Ekey) as Hc.
  unfold bind at 1.
  rewrite (stepAllocation3_run W api fr _ s1 Hc). cbv zeta.
  fold (create3 (drv s1)). rewrite Hc3.
  destruct (LinodeV3.Linode_Create api (clientOf3 (drv s1)) _ _ _ (world s1))
    as [[e | id] w'] eqn:Ealloc.
  - intros [= <- <-]. simpl. rewrite El0.
    exists [create3 (drv s)]. split; [reflexivity |].
    exists []. split; [reflexivity |]. split; [| reflexivity].
    intros id (fr' & s1' & w'' & Hk & Ha). rewrite Ekey in Hk.
    injection Hk as <- <-. rewrite Ealloc in Ha. discriminate.
  - match goal with
    | |- context [runSteps ?rest fr ?s2] =>
        destruct (runSteps rest fr s2) as [rr s3] eqn:Erest;
        assert (K : addresses id s2 s3)
          by (eapply (stable_runSteps _ (addresses_refl _ _)
                        (addresses_trans _ _));
              [apply (laterSteps3_address W api id) | exact Erest]);
        pose proof (laterSteps3_first W api fr _ s2 Hc _ _ Erest) as K1
    end.
    destruct (K eq_refl) as (_ & l & El & Fl). simpl in El.
    destruct K1 as (l1 & El1). cbn in El1.
    assert (Hl : l = afterAllocation3 (drv s) id :: l1).
    { rewrite El in El1. apply app_inv_head in El1. rewrite El1.
      unfold afterAllocation3. cbn. rewrite Hlab. reflexivity. }
    intros Hrun.
    assert (Hs' : s' = s3) by (destruct rr; injection Hrun as _ <-; reflexivity).
    subst s'. rewrite El, El0, <- app_assoc.
    exists ([create3 (drv s)] ++ l). split; [reflexivity |].
    exists l. split; [reflexivity |]. split.
    + intros id' (fr' & s1' & w'' & Hk & Ha). rewrite Ekey in Hk.
      injection Hk as <- <-. rewrite Ealloc in Ha.
      injection Ha as <- _. split; [exists l1; exact Hl | exact Fl].
    + intros Hno. exfalso. apply (Hno id). exists fr, s1, w'. auto.
Qed.

(** X12: the requests of a run of the v3 [Create], in the order issued.
    When key generation fails the run issues none.  When key generation
    succeeds, the first request is the allocation for the data center,
    plan and payment term of the handle; nothing follows when the
    allocation is refused; and when it returns an identifier, the next
    request is the label update (when the handle has a label) or the
    address list, and every request after the allocation, whatever the
    outcome of [Create], is addressed to that identifier. *)
Theorem X12_create_addresses_the_instance_it_allocated :
  forall W (api : LinodeV3.API W)
         (s s' : St LinodeV3.Driver W LinodeV3.Request) (r : Res unit),
    LinodeV3.Create api s = (r, s') ->
    exists l, calls s' = calls s ++ l
      /\ match fst (LinodeV3.stepKeyGeneration api LinodeV3.frame0 s) with
         | Ok _ =>
             exists l', l = create3 (drv s) :: l'
               /\ (forall id, allocated3 api s id ->
                     (exists l'', l' = afterAllocation3 (drv s) id :: l'')
                     /\ Forall (fun rq => targetOf3 rq = Some id) l')
               /\ ((forall id, ~ allocated3 api s id) -> l' = [])
         | _ => l = []
         end.
Proof.
  intros W api s s' r E. exact (Create3_requests W api s s' r E).
Qed.

(** X12 on a v3 world in which every call succeeds: the allocation comes
    first, the address list of instance 42 next, and every request after
    the allocation is addressed to instance 42. *)
Lemma X12_witness_successful_create :
  let api := Script.v3 Script.onePublic (inr tt) Script.jobDone in
  let s := Script.start3 Script.bound3 in
  exists l,
    calls (snd (LinodeV3.Create api s))
    = calls s ++ create3 (drv s) :: LinodeV3.RqIpList 42 (-1) :: l
    /\ Forall (fun rq => targetOf3 rq = Some 42) l.
Proof.
  intros api s.
  destruct (X12_create_addresses_the_instance_it_allocated unit api s
              (snd (LinodeV3.Create api s)) (Ok tt)
              ltac:(vm_compute; reflexivity)) as (l & El & Hm).
  destruct (fst (LinodeV3.stepKeyGeneration api LinodeV3.frame0 s))
    as [fr | e | p] eqn:Ek; [| vm_compute in Ek; discriminate ..].
  destruct Hm as (l' & -> & Hall & _).
  assert (Ha : allocated3 api s 42).
  { eexists _, _, _. split; vm_compute; reflexivity. }
  destruct (Hall 42 Ha) as ((l'' & ->) & HF).
  exists l''. split; [exact El |].
  inversion HF; assumption.
Defined.

(** ** The requests of the v4 Create *)

Lemma waitsOn_refl (i : Z) W (s : St LinodeV4.Driver W LinodeV4.Request) :
  waitsOn i s s.
Proof.
  intros H. split; [exact H |]. exists []. split;
    [symmetry; apply app_nil_r | apply Forall_nil_2].
Qed.

Lemma waitsOn_trans (i : Z) W
    (a b c : St LinodeV4.Driver W LinodeV4.Request) :
  waitsOn i a b -> waitsOn i b c -> waitsOn i a c.
Proof.
  intros Hab Hbc Ha. destruct (Hab Ha) as (Hb & l1 & E1 & F1).
  destruct (Hbc Hb) as (Hc & l2 & E2 & F2). split; [exact Hc |].
  exists (l1 ++ l2). split.
  - rewrite E2, E1. symmetry. apply app_assoc.
  - apply Forall_app. split; assumption.
Qed.

Ltac rel_side ::=
  first [ exact (holds_refl _) | exact (holds_trans _)
        | exact (addresses_refl _ _) | exact (addresses_trans _ _)
        | exact (waitsOn_refl _ _) | exact (waitsOn_trans _ _)
        | stab_side ].

Ltac close_waitsOn :=
  let Hid := fresh "Hid" in
  intros Hid; cbn in *;
  repeat match goal with
         | H : waitsOn _ _ _ |- _ =>
             let H' := fresh in
             pose proof (H ltac:(cbn; congruence)) as H'; clear H;
             destruct H' as (? & ? & ? & ?)
         end;
  cbn in *;
  (split;
   [ congruence
   | first
       [ exists []; split; [symmetry; apply app_nil_r | apply Forall_nil_2]
       | eexists [_]; split;
         [ reflexivity
         | apply Forall_cons_2;
           [cbn; repeat split; congruence | apply Forall_nil_2] ]
       | eexists; split; [eassumption | assumption] ] ]).

Lemma createSteps4_wait_on W (api : LinodeV4.API W) (i : Z) :
  Forall (fun step => forall fr, stable (waitsOn i) (step fr))
         (LinodeV4.createSteps api).
Proof.
  unfold LinodeV4.createSteps.
  repeat (apply Forall_cons_2; [intros fr; via_runs; close_waitsOn |]).
  apply Forall_nil_2.
Qed.

(** X13: a run of the v4 [Create] never writes the identifier of the
    handle: whatever identifier the allocated instance has, the handle
    holds afterwards the identifier it held before.  The only requests
    the run issues are allocations and waits for the running status, and
    each wait is addressed to that old identifier, for 120 seconds. *)
Theorem X13_v4_create_leaves_the_identifier_as_it_was :
  forall W (api : LinodeV4.API W)
         (s s' : St LinodeV4.Driver W LinodeV4.Request) (r : Res unit),
    LinodeV4.Create api s = (r, s') ->
    LinodeV4.InstanceID (drv s') = LinodeV4.InstanceID (drv s)
    /\ exists l, calls s' = calls s ++ l
         /\ Forall (createRequest4 (LinodeV4.InstanceID (drv s))) l.
Proof.
  intros W api s s' r E.
  assert (K : stable (waitsOn (LinodeV4.InstanceID (drv s)))
                (LinodeV4.Create api)).
  { unfold LinodeV4.Create.
    apply stable_bind; [exact (waitsOn_trans _ _) | |].
    - apply stable_runSteps;
        [exact (waitsOn_refl _ _) | exact (waitsOn_trans _ _) |].
      apply createSteps4_wait_on.
    - intros _. apply stable_ret. exact (waitsOn_refl _ _). }
  exact (K s r s' E eq_refl).
Qed.

(** X13 on a v4 world that allocates instance 77 with a public address:
    [Create] succeeds, the handle still holds identifier 0, and the wait
    was for instance 0. *)
Lemma X13_witness_identifier_not_stored :
  let created := LinodeV4.Build_Instance 77 LinodeV4.InstanceProvisioning
                   [Some [50; 116; 1; 1]] in
  let api := Script.v4 (inr created) LinodeV4.InstanceRunning in
  let run := LinodeV4.Create api (Script.start4 Script.fresh4) in
  fst run = Ok tt
  /\ LinodeV4.InstanceID (drv (snd run)) = 0
  /\ In (LinodeV4.RqWaitForInstanceStatus 0 LinodeV4.InstanceRunning 120)
        (calls (snd run)).
Proof.
  intros created api run.
  split; [vm_compute; reflexivity |].
  split.
  - apply (proj1 (X13_v4_create_leaves_the_identifier_as_it_was unit api
                    (Script.start4 Script.fresh4) (snd run) (Ok tt)
                    ltac:(vm_compute; reflexivity))).
  - vm_compute. tauto.
Defined.

(** ** The address a successful Create leaves *)

(** X14: in the v3 driver, once the steps before address discovery have
    succeeded and the remote API has listed the addresses, the address in
    the handle at the end of [Create], whatever its outcome, is the last
    address of the list that is flagged public, or the address the handle
    had when none is. *)
Theorem X14_v3_create_records_the_last_address_flagged_public :
  forall W (api : LinodeV3.API W)
         (s s1 : St LinodeV3.Driver W LinodeV3.Request)
         (fr : LinodeV3.Frame) (c : LinodeV3.Client)
         (ips : list LinodeV3.FullIPAddress) (w' : W),
    runSteps (beforeDiscovery3 api) LinodeV3.frame0 s = (Ok fr, s1) ->
    LinodeV3.clientVar fr = Some c ->
    LinodeV3.Ip_List api c (LinodeV3.LinodeId (drv s1)) (-1) (world s1)
    = (inr ips, w') ->
    LinodeV3.IPAddress (drv (snd (LinodeV3.Create api s)))
    = match last (publicOnes ips) with
      | Some a => LinodeV3.ipIPAddress a
      | None => LinodeV3.IPAddress (drv s)
      end.
Proof.
  intros W api s s1 fr c ips w' Hpre Hc Hips.
  destruct (Create3_after_discovery W api s s1 fr Hpre) as (K1 & K2 & _).
  destruct (stepAddressDiscovery3_run W api fr c ips s1 w' Hc Hips)
    as [_ D2].
  rewrite K2, D2, recordPublic_fold, K1. reflexivity.
Qed.

(** X14 on a v3 world that lists a public, a private and another public
    address. *)
Lemma X14_witness_three_addresses :
  let ips := [LinodeV3.Build_FullIPAddress "50.116.1.1" 1;
              LinodeV3.Build_FullIPAddress "192.168.133.7" 0;
              LinodeV3.Build_FullIPAddress "50.116.1.2" 1] in
  let api := Script.v3 ips (inr tt) Script.jobDone in
  LinodeV3.IPAddress (drv (snd (LinodeV3.Create api (Script.start3 Script.bound3))))
  = "50.116.1.2".
Proof.
  intros ips api.
  eapply (X14_v3_create_records_the_last_address_flagged_public unit api
            (Script.start3 Script.bound3) _ _ _ ips).
  - vm_compute. reflexivity.
  - reflexivity.
  - reflexivity.
Defined.

Lemma stepAddressDiscovery3_ok W (api : LinodeV3.API W) (fr : LinodeV3.Frame)
    (s : St LinodeV3.Driver W LinodeV3.Request) :
  runs (LinodeV3.stepAddressDiscovery api fr) s
    (fun r s' => (exists fr', r = Ok fr') -> LinodeV3.IPAddress (drv s') <> "").
Proof.
  fwd; tidy; intros [fr' [=]].
  apply String.eqb_neq. assumption.
Qed.

Lemma stepAddressDiscovery4_ok W (fr : LinodeV4.Frame)
    (s : St LinodeV4.Driver W LinodeV4.Request) :
  runs (LinodeV4.stepAddressDiscovery fr) s
    (fun r s' => (exists fr', r = Ok fr') -> LinodeV4.IPAddress (drv s') <> "").
Proof.
  unfold LinodeV4.stepAddressDiscovery.
  apply runs_bind. unfold LinodeV4.deref.
  destruct (LinodeV4.linodeVar fr) as [linode |];
    [apply runs_ret | apply runs_panic; intros [? [=]]].
  tidy. apply runs_bind. intros r s1 _.
  destruct r as [[] | e | p]; tidy; try (intros [? [=]]).
  fwd; tidy; intros [fr' [=]].
  apply String.eqb_neq. assumption.
Qed.

Lemma GetURL3_recorded W (s : St LinodeV3.Driver W LinodeV3.Request) :
  LinodeV3.IPAddress (drv s) <> "" ->
  LinodeV3.GetURL s
  = (Ok (dockerURL (LinodeV3.IPAddress (drv s)) (LinodeV3.DockerPort (drv s))), s).
Proof.
  intros H. apply String.eqb_neq in H.
  unfold LinodeV3.GetURL, LinodeV3.GetIP, dockerURL, bind, getDrv, fail, ret.
  simpl. rewrite H. simpl. rewrite H. reflexivity.
Qed.

Lemma GetURL4_recorded W (s : St LinodeV4.Driver W LinodeV4.Request) :
  LinodeV4.IPAddress (drv s) <> "" ->
  LinodeV4.GetURL s
  = (Ok (dockerURL (LinodeV4.IPAddress (drv s)) (LinodeV4.DockerPort (drv s))), s).
Proof.
  intros H. apply String.eqb_neq in H.
  unfold LinodeV4.GetURL, LinodeV4.GetIP, dockerURL, bind, getDrv, fail, ret.
  simpl. rewrite H. simpl. rewrite H. reflexivity.
Qed.

Lemma Create3_ok_address W (api : LinodeV3.API W)
    (s s' : St LinodeV3.Driver W LinodeV3.Request) :
  LinodeV3.Create api s = (Ok tt, s') -> LinodeV3.IPAddress (drv s') <> "".
Proof.
  unfold LinodeV3.Create. intros H.
  apply bind_Ok_inv in H as (frN & s'' & H & [= <-]).
  change (LinodeV3.createSteps api)
    with (beforeDiscovery3 api
          ++ LinodeV3.stepAddressDiscovery api
             :: drop 4 (LinodeV3.createSteps api)) in H.
  rewrite runSteps_app in H.
  apply bind_Ok_inv in H as (fr1 & s1 & _ & H).
  simpl runSteps in H.
  apply bind_Ok_inv in H as (fr2 & s2 & Hd & H).
  pose proof (stepAddressDiscovery3_ok W api fr1 s1 _ _ Hd
                (ex_intro _ fr2 eq_refl)) as Hip.
  pose proof (stepsButDiscovery3_keep_ip W api) as K.
  apply Forall_app in K as [_ Kpost].
  pose proof (stable_runSteps _ (keeps_refl _) (keeps_trans _) _ Kpost
                _ _ _ _ H) as K2.
  unfold keeps in K2. rewrite K2. exact Hip.
Qed.

Lemma Create4_ok_address W (api : LinodeV4.API W)
    (s s' : St LinodeV4.Driver W LinodeV4.Request) :
  LinodeV4.Create api s = (Ok tt, s') -> LinodeV4.IPAddress (drv s') <> "".
Proof.
  unfold LinodeV4.Create. intros H.
  apply bind_Ok_inv in H as (frN & s'' & H & [= <-]).
  change (LinodeV4.createSteps api)
    with (beforeDiscovery4 api
          ++ LinodeV4.stepAddressDiscovery
             :: drop 3 (LinodeV4.createSteps api)) in H.
  rewrite runSteps_app in H.
  apply bind_Ok_inv in H as (fr1 & s1 & _ & H).
  simpl runSteps in H.
  apply bind_Ok_inv in H as (fr2 & s2 & Hd & H).
  pose proof (stepAddressDiscovery4_ok W fr1 s1 _ _ Hd
                (ex_intro _ fr2 eq_refl)) as Hip.
  pose proof (stepsButDiscovery4_keep_ip W api) as K.
  apply Forall_app in K as [_ Kpost].
  pose proof (stable_runSteps _ (keeps_refl _) (keeps_trans _) _ Kpost
                _ _ _ _ H) as K2.
  unfold keeps in K2. rewrite K2. exact Hip.
Qed.

(** X15: in both drivers a [Create] that succeeds leaves a non-empty
    address in the handle, so that [GetIP] and [GetURL] succeed on the
    handle it leaves: [GetIP] returns that address and [GetURL] the URL
    made of it and of the Docker port. *)
Theorem X15_after_a_successful_create_the_address_is_known :
  (forall W (api : LinodeV3.API W)
          (s s' : St LinodeV3.Driver W LinodeV3.Request),
     LinodeV3.Create api s = (Ok tt, s') ->
     LinodeV3.IPAddress (drv s') <> ""
     /\ LinodeV3.GetIP s' = (Ok (LinodeV3.IPAddress (drv s')), s')
     /\ LinodeV3.GetURL s'
        = (Ok (dockerURL (LinodeV3.IPAddress (drv s'))
                 (LinodeV3.DockerPort (drv s'))), s'))
  /\
  (forall W (api : LinodeV4.API W)
          (s s' : St LinodeV4.Driver W LinodeV4.Request),
     LinodeV4.Create api s = (Ok tt, s') ->
     LinodeV4.IPAddress (drv s') <> ""
     /\ LinodeV4.GetIP s' = (Ok (LinodeV4.IPAddress (drv s')), s')
     /\ LinodeV4.GetURL s'
        = (Ok (dockerURL (LinodeV4.IPAddress (drv s'))
                 (LinodeV4.DockerPort (drv s'))), s')).
Proof.
  split; intros W api s s' H.
  - pose proof (Create3_ok_address W api s s' H) as Hip.
    split; [exact Hip |]. split.
    + apply GetIP3_cached, Hip.
    + apply GetURL3_recorded, Hip.
  - pose proof (Create4_ok_address W api s s' H) as Hip.
    split; [exact Hip |]. split.
    + apply GetIP4_cached, Hip.
    + apply GetURL4_recorded, Hip.
Qed.

(** X15 on a v3 world in which every call succeeds. *)
Lemma X15_witness_url_after_create :
  let api := Script.v3 Script.onePublic (inr tt) Script.jobDone in
  let s' := snd (LinodeV3.Create api (Script.start3 Script.bound3)) in
  fst (LinodeV3.GetURL s') = Ok "tcp://50.116.1.1:2376".
Proof.
  intros api s'.
  destruct (proj1 X15_after_a_successful_create_the_address_is_known unit api
              (Script.start3 Script.bound3) s'
              ltac:(vm_compute; reflexivity)) as (_ & _ & H).
  rewrite H. vm_compute. reflexivity.
Defined.

(** ** What can make Create panic *)

Lemma runs_and {S A} (m : M S A) (s : S) (Q1 Q2 : Res A -> S -> Prop) :
  runs m s Q1 -> runs m s Q2 -> runs m s (fun r s' => Q1 r s' /\ Q2 r s').
Proof. intros H1 H2 r s' E. split; [apply H1 | apply H2]; exact E. Qed.

(** A run of steps under an invariant of the frame and the state that
    each step re-establishes when it succeeds. *)
Lemma runSteps_invariant {S F} (Inv : F -> S -> Prop) (Bad : string -> S -> Prop)
    (steps : list (F -> M S F)) :
  Forall (fun step => forall fr s, Inv fr s ->
            runs (step fr) s
              (fun r s' => match r with
                           | Ok fr' => Inv fr' s'
                           | Err _ => True
                           | Panic p => Bad p s'
                           end)) steps ->
  forall fr s, Inv fr s ->
    runs (runSteps steps fr) s
      (fun r s' => match r with Panic p => Bad p s' | _ => True end).
Proof.
  induction 1 as [| step rest Hstep _ IH]; intros fr s Hinv; simpl.
  - apply runs_ret. exact I.
  - apply runs_bind. eapply runs_conseq; [apply Hstep, Hinv |].
    intros [fr' | e | p] s1 H1; simpl; [apply IH, H1 | exact I | exact H1].
Qed.

Ltac empty_list_read :=
  fwd; tidy; cbn in *; try exact I;
  (split; [reflexivity |]; eexists _, _; split; [reflexivity |]; cbn; eauto).

Lemma pollJob_panics W (api : LinodeV3.API W) (jobId : Z) (jobName : string)
    (s : St LinodeV3.Driver W LinodeV3.Request) :
  runs (LinodeV3.pollJob api jobId jobName) s
    (fun r s' => match r with Panic p => emptyListRead api p s' | _ => True end).
Proof. empty_list_read. Qed.

Lemma MachineInState_panics W (api : LinodeV3.API W) (desired : state.State)
    (s : St LinodeV3.Driver W LinodeV3.Request) :
  runs (LinodeV3.MachineInState api desired) s
    (fun r s' => match r with Panic p => emptyListRead api p s' | _ => True end).
Proof. empty_list_read. Qed.

Lemma waitForJob_panics W (api : LinodeV3.API W) (jobId : Z)
    (jobName : string) (T : Z) (s : St LinodeV3.Driver W LinodeV3.Request) :
  runs (LinodeV3.waitForJob api jobId jobName T) s
    (fun r s' => match r with Panic p => emptyListRead api p s' | _ => True end).
Proof.
  assert (L : forall n s0,
             runs (LinodeV3.waitLoop api n jobId jobName T) s0
               (fun r s' => match r with
                            | Panic p => emptyListRead api p s'
                            | _ => True
                            end)).
  { induction n as [| n IH]; intros s0; simpl.
    - apply runs_fail. exact I.
    - apply runs_bind. eapply runs_conseq; [apply pollJob_panics |].
      intros [[|] | e | p] s1 H1; simpl;
        [apply runs_ret; exact I | apply IH | exact I | exact H1]. }
  unfold LinodeV3.waitForJob.
  apply runs_bind, runs_logDebug. tidy.
  apply runs_bind, runs_localEff. intros n w' _. tidy. apply L.
Qed.

Lemma waitRunning_panics W (api : LinodeV3.API W) (maxAttempts : Z) (n : nat) :
  forall s : St LinodeV3.Driver W LinodeV3.Request,
    runs (WaitForSpecific (LinodeV3.MachineInState api state.Running) n
            maxAttempts) s
      (fun r s' => match r with Panic p => emptyListRead api p s' | _ => True end).
Proof.
  induction n as [| n IH]; intros s; simpl.
  - apply runs_fail. exact I.
  - apply runs_bind. eapply runs_conseq; [apply MachineInState_panics |].
    intros [[|] | e | p] s1 H1; simpl;
      [apply runs_ret; exact I | apply IH | exact I | exact H1].
Qed.

Lemma waitForJob_inside W (api : LinodeV3.API W) (jobId : Z)
    (jobName : string) (T : Z) (c : LinodeV3.Client)
    (s : St LinodeV3.Driver W LinodeV3.Request) :
  LinodeV3.client (drv s) = Some c ->
  runs (LinodeV3.waitForJob api jobId jobName T) s
    (fun r s' => LinodeV3.client (drv s') = Some c
                 /\ match r with Panic p => emptyListRead api p s' | _ => True end).
Proof.
  intros Hc. apply runs_and; [| apply waitForJob_panics].
  eapply (runs_of_stable (holds (fun d => LinodeV3.client d = Some c)));
    [keep_client | intros r s' H; exact (H Hc)].
Qed.

Lemma waitRunning_inside W (api : LinodeV3.API W) (c : LinodeV3.Client)
    (s : St LinodeV3.Driver W LinodeV3.Request) :
  LinodeV3.client (drv s) = Some c ->
  runs (WaitForSpecific (LinodeV3.MachineInState api state.Running) 120 120) s
    (fun r s' => LinodeV3.client (drv s') = Some c
                 /\ match r with Panic p => emptyListRead api p s' | _ => True end).
Proof.
  intros Hc. apply runs_and; [| apply waitRunning_panics].
  eapply (runs_of_stable (holds (fun d => LinodeV3.client d = Some c))).
  - apply stable_WaitForSpecific; [exact (holds_refl _) | exact (holds_trans _) |].
    keep_client.
  - intros r s' H. exact (H Hc).
Qed.

(** Inside [Create], after its first step: the frame and the handle both
    hold a client. *)
Ltac inside_create :=
  fwd_with ltac:(first
    [ match goal with
      | H : ?x = _ |- runs (match ?x with _ => _ end) _ _ => rewrite H
      end
    | match goal with
      | |- runs (LinodeV3.waitForJob _ _ _ _) _ _ =>
          eapply runs_conseq;
          [ apply waitForJob_inside; cbn; eassumption
          | intros [[] | ? | ?] ? [? ?]; tidy ]
      | |- runs (WaitForSpecific _ _ _) _ _ =>
          eapply runs_conseq;
          [ apply waitRunning_inside; cbn; eassumption
          | intros [[] | ? | ?] ? [? ?]; tidy ]
      end ]);
  tidy; open_fold;
  first [ exact I | assumption
        | cbn in *; first [ exact I | assumption | split; congruence | congruence ] ].

Lemma laterSteps3_panics W (api : LinodeV3.API W) (c c' : LinodeV3.Client) :
  Forall (fun step => forall fr s,
            LinodeV3.clientVar fr = Some c
            /\ LinodeV3.client (drv s) = Some c' ->
            runs (step fr) s
              (fun r s' => match r with
                           | Ok fr' => LinodeV3.clientVar fr' = Some c
                                       /\ LinodeV3.client (drv s') = Some c'
                           | Err _ => True
                           | Panic p => emptyListRead api p s'
                           end))
         (drop 1 (LinodeV3.createSteps api)).
Proof.
  unfold LinodeV3.createSteps. simpl.
  repeat (apply Forall_cons_2; [intros fr s [Hf Hs]; inside_create |]).
  apply Forall_nil_2.
Qed.

Lemma stepKeyGeneration3_panics W (api : LinodeV3.API W) (fr : LinodeV3.Frame)
    (s : St LinodeV3.Driver W LinodeV3.Request) :
  runs (LinodeV3.stepKeyGeneration api fr) s
    (fun r s' => match r with
                 | Ok fr' => exists c, LinodeV3.clientVar fr' = Some c
                                       /\ LinodeV3.client (drv s') = Some c
                 | Err _ => True
                 | Panic _ => False
                 end).
Proof.
  fwd; tidy; cbn in *; first [exact I | eexists; split; [reflexivity |]; eauto].
Qed.

Lemma Create3_panics W (api : LinodeV3.API W)
    (s : St LinodeV3.Driver W LinodeV3.Request) :
  runs (LinodeV3.Create api) s
    (fun r s' => match r with Panic p => emptyListRead api p s' | _ => True end).
Proof.
  unfold LinodeV3.Create. apply runs_bind.
  change (LinodeV3.createSteps api)
    with (LinodeV3.stepKeyGeneration api :: drop 1 (LinodeV3.createSteps api)).
  cbn [runSteps]. apply runs_bind.
  eapply runs_conseq; [apply stepKeyGeneration3_panics |].
  intros [fr | e | p] s1 H1; cbn [thenPost]; [| exact I | contradiction].
  destruct H1 as (c & Hf & Hs).
  eapply runs_conseq.
  - apply (runSteps_invariant
             (fun fr0 s0 => LinodeV3.clientVar fr0 = Some c
                            /\ LinodeV3.client (drv s0) = Some c)
             (emptyListRead api)).
    + apply laterSteps3_panics.
    + split; assumption.
  - intros [fr' | e | p] s2 H2; cbn [thenPost];
      [apply runs_ret; exact I | exact I | exact H2].
Qed.

Lemma selectAddress_no_nil W (addrs : list (option net.IP)) :
  Forall (fun a => a <> None) addrs ->
  forall s : St LinodeV4.Driver W LinodeV4.Request,
    runs (LinodeV4.selectAddress addrs) s (fun r _ => noPanic r).
Proof.
  induction 1 as [| a addrs Ha _ IH]; intros s; simpl.
  - apply runs_ret. exact I.
  - destruct a as [ip |]; [| contradiction].
    destruct (negb (LinodeV4.privateIP ip));
      [apply runs_modifyDrv; exact I | apply IH].
Qed.

Lemma Create4_panics W (api : LinodeV4.API W)
    (s : St LinodeV4.Driver W LinodeV4.Request) :
  noNilAddress api ->
  runs (LinodeV4.Create api) s (fun r _ => noPanic r).
Proof.
  intros Hnil. unfold LinodeV4.Create, LinodeV4.createSteps.
  apply runs_bind. cbn [runSteps].
  (* key generation *)
  apply runs_bind.
  eapply runs_conseq.
  { instantiate (1 := fun r _ =>
      match r with
      | Ok fr' => exists c, LinodeV4.clientVar fr' = Some c
      | Err _ => True
      | Panic _ => False
      end).
    fwd; tidy; cbn in *; first [exact I | eexists; reflexivity]. }
  intros [fr1 | e | p] s1 H1; cbn [thenPost]; [| exact I | contradiction].
  destruct H1 as (c & Hf1).
  (* allocation *)
  apply runs_bind.
  eapply runs_conseq.
  { instantiate (1 := fun r _ =>
      match r with
      | Ok fr' => LinodeV4.clientVar fr' = Some c
                  /\ exists linode, LinodeV4.linodeVar fr' = Some linode
                       /\ Forall (fun a => a <> None) (LinodeV4.IPv4 linode)
      | Err _ => True
      | Panic _ => False
      end).
    unfold LinodeV4.stepAllocation, LinodeV4.deref. rewrite Hf1.
    fwd; tidy; cbn in *; try exact I.
    split; [reflexivity |]. eexists. split; [reflexivity |].
    match goal with
    | H : LinodeV4.CreateInstance api ?c0 ?o ?w = (inr ?x, _) |- _ =>
        pose proof (Hnil c0 o w) as Hn; rewrite H in Hn; exact Hn
    end. }
  intros [fr2 | e | p] s2 H2; cbn [thenPost]; [| exact I | contradiction].
  destruct H2 as (Hf2 & linode & Hl & Hall).
  (* address discovery *)
  apply runs_bind.
  eapply runs_conseq.
  { instantiate (1 := fun r _ =>
      match r with
      | Ok fr' => fr' = fr2
      | Err _ => True
      | Panic _ => False
      end).
    unfold LinodeV4.stepAddressDiscovery, LinodeV4.deref. rewrite Hl.
    apply runs_bind, runs_ret. tidy. apply runs_bind.
    eapply runs_conseq; [apply selectAddress_no_nil, Hall |].
    intros [[] | e | p] s3 H3; cbn [thenPost];
      [| exact I | contradiction].
    fwd; tidy; first [exact I | reflexivity]. }
  intros [fr3 | e | p] s3 H3; cbn [thenPost]; [| exact I | contradiction].
  subst fr3.
  (* the wait *)
  apply runs_bind.
  eapply runs_conseq.
  { instantiate (1 := fun r _ => noPanic r).
    unfold LinodeV4.stepRunningPoll, LinodeV4.deref. rewrite Hf2.
    fwd; tidy; exact I. }
  intros [fr4 | e | p] s4 H4; cbn [thenPost];
    [apply runs_ret; apply runs_ret; exact I | exact I | contradiction].
Qed.

Lemma Create3_panic_after_key W (api : LinodeV3.API W)
    (s s' : St LinodeV3.Driver W LinodeV3.Request) (p : string) :
  LinodeV3.Create api s = (Panic p, s') ->
  exists fr, fst (LinodeV3.stepKeyGeneration api LinodeV3.frame0 s) = Ok fr.
Proof.
  unfold LinodeV3.Create, LinodeV3.createSteps.
  change (runSteps (?a :: ?rest) ?f) with (bind (a f) (runSteps rest)).
  unfold bind at 1 2.
  pose proof (stepKeyGeneration3_panics W api LinodeV3.frame0 s) as K.
  destruct (LinodeV3.stepKeyGeneration api LinodeV3.frame0 s)
    as [[fr | e | q] s1] eqn:Ekey.
  - intros _. exists fr. reflexivity.
  - discriminate.
  - destruct (K _ _ Ekey).
Qed.

(** X16: what can make [Create] panic.  In the v3 driver, whatever the
    remote API answers, a run of [Create] panics only with an index out
    of range, and only on the answer to the request it issued last: a
    job list (read at [Jobs[0]] in [waitForJob]) or an instance list
    (read at [Linodes[0]] in [GetState], during the wait for the running
    state) that the remote API answered with an empty list.  The client
    it dereferences is never nil.  In the v4 driver, when the instances
    the remote API allocates hold no nil address pointer, [Create] never
    panics: it returns nil or an error. *)
Theorem X16_what_can_make_create_panic :
  (forall W (api : LinodeV3.API W)
          (s s' : St LinodeV3.Driver W LinodeV3.Request) (p : string),
     LinodeV3.Create api s = (Panic p, s') ->
     p = "index out of range"
     /\ exists l rq, calls s' = calls s ++ l ++ [rq]
                     /\ emptyAnswer api rq (world s'))
  /\ (forall W (api : LinodeV4.API W)
             (s s' : St LinodeV4.Driver W LinodeV4.Request) (r : Res unit),
        noNilAddress api ->
        LinodeV4.Create api s = (r, s') -> noPanic r).
Proof.
  split.
  - intros W api s s' p E.
    destruct (Create3_panics W api s _ _ E) as (Hp & l & rq & El & Hrq).
    split; [exact Hp |].
    destruct (Create3_requests W api s s' _ E) as (l0 & El0 & Hm).
    destruct (Create3_panic_after_key W api s s' p E) as (fr & Hk).
    rewrite Hk in Hm. destruct Hm as (l' & -> & _).
    destruct l' as [| x l' _] using rev_ind.
    + rewrite El in El0. apply app_inj_tail in El0 as [_ ->].
      destruct Hrq.
    + rewrite El in El0.
      change (calls s ++ create3 (drv s) :: l' ++ [x])
        with (calls s ++ (create3 (drv s) :: l') ++ [x]) in El0.
      rewrite app_assoc in El0. apply app_inj_tail in El0 as [-> ->].
      exists (create3 (drv s) :: l'), x. split; [| exact Hrq].
      rewrite El, <- app_assoc. reflexivity.
  - intros W api s s' r Hnil E. exact (Create4_panics W api s Hnil r s' E).
Qed.

(** X16 on three worlds: a v3 world whose job lists are empty, where
    [Create] panics on the list of job 7; a v3 world whose jobs are done
    and whose instance list is empty, where [Create] panics on the state
    query of instance 42; and a v4 world that allocates an instance with
    one public address. *)
Lemma X16_witness_empty_lists :
  let noJobs := Script.v3 Script.onePublic (inr tt) (fun _ => []) in
  let base := Script.v3 Script.onePublic (inr tt) Script.jobDone in
  let noLinodes :=
    {| LinodeV3.ssh_GenerateSSHKey := LinodeV3.ssh_GenerateSSHKey base;
       LinodeV3.ioutil_ReadFile := LinodeV3.ioutil_ReadFile base;
       LinodeV3.Linode_Create := LinodeV3.Linode_Create base;
       LinodeV3.Linode_Update := LinodeV3.Linode_Update base;
       LinodeV3.Ip_List := LinodeV3.Ip_List base;
       LinodeV3.Disk_CreateFromDistribution :=
         LinodeV3.Disk_CreateFromDistribution base;
       LinodeV3.Disk_Create := LinodeV3.Disk_Create base;
       LinodeV3.Config_Create := LinodeV3.Config_Create base;
       LinodeV3.Linode_Boot := LinodeV3.Linode_Boot base;
       LinodeV3.Linode_Shutdown := LinodeV3.Linode_Shutdown base;
       LinodeV3.Linode_Reboot := LinodeV3.Linode_Reboot base;
       LinodeV3.Linode_Delete := LinodeV3.Linode_Delete base;
       LinodeV3.Linode_List := fun _ _ w => (inr [], w);
       LinodeV3.Job_List := LinodeV3.Job_List base;
       LinodeV3.select_ticks := LinodeV3.select_ticks base |} in
  let s := Script.start3 Script.bound3 in
  let created := LinodeV4.Build_Instance 77 LinodeV4.InstanceProvisioning
                   [Some [50; 116; 1; 1]] in
  let api4 := Script.v4 (inr created) LinodeV4.InstanceRunning in
  (fst (LinodeV3.Create noJobs s) = Panic "index out of range"
   /\ last (calls (snd (LinodeV3.Create noJobs s)))
      = Some (LinodeV3.RqJobList 42 7 false))
  /\ (fst (LinodeV3.Create noLinodes s) = Panic "index out of range"
      /\ last (calls (snd (LinodeV3.Create noLinodes s)))
         = Some (LinodeV3.RqLinodeList 42))
  /\ (exists l rq,
        calls (snd (LinodeV3.Create noLinodes s)) = calls s ++ l ++ [rq]
        /\ emptyAnswer noLinodes rq (world (snd (LinodeV3.Create noLinodes s))))
  /\ noPanic (fst (LinodeV4.Create api4 (Script.start4 Script.fresh4))).
Proof.
  intros noJobs base noLinodes s created api4.
  split; [split; vm_compute; reflexivity |].
  split; [split; vm_compute; reflexivity |].
  split.
  - apply (proj1 X16_what_can_make_create_panic unit noLinodes s
             (snd (LinodeV3.Create noLinodes s)) "index out of range").
    vm_compute. reflexivity.
  - apply (proj2 X16_what_can_make_create_panic unit api4
             (Script.start4 Script.fresh4)
             (snd (LinodeV4.Create api4 (Script.start4 Script.fresh4)))
             (fst (LinodeV4.Create api4 (Script.start4 Script.fresh4)))).
    + intros c opts w. simpl. repeat constructor. discriminate.
    + vm_compute. reflexivity.
Defined.
